(** * A2A Azure agents: host-agent orchestration, dynamic tool binding and
      per-context conversation histories.

    Shallow embedding of [src/a2a_azure/host_agent.py] and
    [src/a2a_azure/agent.py].

    - Python values that come back from a remote agent
      ([response.model_dump(mode='json', exclude_none=True)]) are modelled
      as a JSON-like tree [pyval]; the dynamic operations the proxy applies
      to them ([in], subscripting, [len], [.get]) are total functions into
      [Result], raising the exception Python raises.
    - Network activity is recorded in a trace of [NetEvent]s carried by a
      small writer/error monad [IO].
    - The libraries the code calls (httpx, the A2A client, the chat
      completion service, the MCP plugin handshake) are not part of the
      repository; they enter as oracles that either return or raise.
    - The class [create_agent_tool_class] builds is a Python class:
      storing the decorated method under a name that has a meaning of its
      own for classes makes the assignment, or the call of the class,
      raise ([attribute_effect]).
    - Of the chat agent of semantic-kernel the model keeps what the code
      relies on: its kernel holds the plugins by name, it has no field
      [plugins] to assign, and the checks of its constructor are a
      parameter ([Host.AgentValidation]).
    - [ChatHistory] objects live in a heap indexed by object identities;
      [history_store] maps a context id to the identity of its history, so
      that aliasing between conversations is expressible. *)

From Stdlib Require Import ZArith String Ascii List Lia.
From stdpp Require Import base option list gmap strings pretty fin_maps.

Local Open Scope string_scope.
Set Warnings "-register-all".

(* ===================================================================== *)
(** ** Python values, exceptions and results                              *)
(* ===================================================================== *)

Module Py.

(** Values of a decoded JSON document. A [dict] keeps its insertion order;
    lookups take the first entry with the key. *)
Inductive pyval : Type :=
  | PNone
  | PBool (b : bool)
  | PInt (n : Z)
  | PFloat (mantissa exponent : Z)
  | PStr (s : string)
  | PList (items : list pyval)
  | PDict (entries : list (string * pyval)).

(** Exception classes that occur in the modelled code. [OtherException]
    stands for any further subclass of [Exception] (transport, protocol and
    validation errors of the client libraries); [BaseExceptionOnly] for
    classes that derive from [BaseException] but not from [Exception]
    (task cancellation, keyboard interrupt), which [except Exception] does
    not catch. *)
Inductive ExnClass : Type :=
  | ReadTimeout
  | KeyError
  | IndexError
  | TypeError
  | AttributeError
  | ValueError
  | RuntimeError
  | OtherException (qualname : string)
  | BaseExceptionOnly (qualname : string).

(** An exception object: its class and the text of [str(e)]. *)
Record PyExn : Type := mkExn { exn_class : ExnClass; exn_str : string }.

Definition is_Exception (c : ExnClass) : bool :=
  match c with
  | BaseExceptionOnly _ => false
  | _ => true
  end.

Definition is_ReadTimeout (c : ExnClass) : bool :=
  match c with
  | ReadTimeout => true
  | _ => false
  end.

Inductive Result (A : Type) : Type :=
  | Ok (a : A)
  | Raise (e : PyExn).
Arguments Ok {A} a.
Arguments Raise {A} e.

Definition rbind {A B : Type} (m : Result A) (f : A -> Result B) : Result B :=
  match m with
  | Ok a => f a
  | Raise e => Raise e
  end.

Definition type_name (v : pyval) : string :=
  match v with
  | PNone => "NoneType"
  | PBool _ => "bool"
  | PInt _ => "int"
  | PFloat _ _ => "float"
  | PStr _ => "str"
  | PList _ => "list"
  | PDict _ => "dict"
  end.

Definition is_str (v : pyval) : bool :=
  match v with
  | PStr _ => true
  | _ => false
  end.

(** [s.startswith(p)] and [p in s] on strings. *)
Fixpoint startswith (p s : string) : bool :=
  match p, s with
  | EmptyString, _ => true
  | String a p', String b s' => Ascii.eqb a b && startswith p' s'
  | String _ _, EmptyString => false
  end.

Fixpoint str_contains (p s : string) : bool :=
  startswith p s ||
  match s with
  | EmptyString => false
  | String _ s' => str_contains p s'
  end.

Fixpoint dict_lookup (key : string) (d : list (string * pyval)) : option pyval :=
  match d with
  | [] => None
  | (k, v) :: d' => if String.eqb k key then Some v else dict_lookup key d'
  end.

Definition dict_has (key : string) (d : list (string * pyval)) : bool :=
  match dict_lookup key d with
  | Some _ => true
  | None => false
  end.

(** [x == key] for a [str] key. *)
Definition eq_str (key : string) (x : pyval) : bool :=
  match x with
  | PStr s => String.eqb s key
  | _ => false
  end.

(** [repr(key)] of a key made of plain characters (the keys used by the
    code are the literals 'error', 'result', 'parts', 'text', 'name',
    'url', 'function_name'). *)
Definition repr_key (key : string) : string := "'" ++ key ++ "'".

(** [key in v]. *)
Definition py_in (key : string) (v : pyval) : Result bool :=
  match v with
  | PDict d => Ok (dict_has key d)
  | PList l => Ok (existsb (eq_str key) l)
  | PStr s => Ok (str_contains key s)
  | _ => Raise (mkExn TypeError
                  ("argument of type '" ++ type_name v ++ "' is not iterable"))
  end.

(** [v[key]] for a [str] key. *)
Definition py_getitem (v : pyval) (key : string) : Result pyval :=
  match v with
  | PDict d =>
      match dict_lookup key d with
      | Some x => Ok x
      | None => Raise (mkExn KeyError (repr_key key))
      end
  | PList _ =>
      Raise (mkExn TypeError "list indices must be integers or slices, not str")
  | PStr _ =>
      Raise (mkExn TypeError "string indices must be integers, not 'str'")
  | _ => Raise (mkExn TypeError
                  ("'" ++ type_name v ++ "' object is not subscriptable"))
  end.

(** [v[0]]. The keys of a decoded JSON object are strings, so [0] is never
    a key of a [dict]. *)
Definition py_getitem0 (v : pyval) : Result pyval :=
  match v with
  | PList (x :: _) => Ok x
  | PList [] => Raise (mkExn IndexError "list index out of range")
  | PStr (String c _) => Ok (PStr (String c EmptyString))
  | PStr EmptyString => Raise (mkExn IndexError "string index out of range")
  | PDict _ => Raise (mkExn KeyError "0")
  | _ => Raise (mkExn TypeError
                  ("'" ++ type_name v ++ "' object is not subscriptable"))
  end.

(** [len(v)]. *)
Definition py_len (v : pyval) : Result nat :=
  match v with
  | PList l => Ok (List.length l)
  | PDict d => Ok (List.length d)
  | PStr s => Ok (String.length s)
  | _ => Raise (mkExn TypeError
                  ("object of type '" ++ type_name v ++ "' has no len()"))
  end.

(** [v.get(key, default)]. *)
Definition py_get (v : pyval) (key : string) (default : pyval) : Result pyval :=
  match v with
  | PDict d =>
      match dict_lookup key d with
      | Some x => Ok x
      | None => Ok default
      end
  | _ => Raise (mkExn AttributeError
                  ("'" ++ type_name v ++ "' object has no attribute 'get'"))
  end.

(** [not s] for a [str]. *)
Definition str_is_empty (s : string) : bool :=
  match s with
  | EmptyString => true
  | String _ _ => false
  end.

End Py.
Export Py.

(* ===================================================================== *)
(** ** Network trace and the monad of effectful code                      *)
(* ===================================================================== *)

Module Net.

(** The agent card a remote agent publishes; the A2A client is bound to
    it. *)
Record AgentCard : Type := mkCard { card_name : string; card_url : string }.

(** The message of a [SendMessageRequest]: role and text parts. The
    request id, message id and context id are fresh [uuid4] values and
    are not modelled. *)
Record SendMessageRequest : Type :=
  mkRequest { msg_role : string; msg_parts : list string }.

(** One entry per awaited network operation. *)
Inductive NetEvent : Type :=
  | EvGetAgentCard (base_url : string)
  | EvSendMessage (card : AgentCard) (request : SendMessageRequest)
  | EvPluginHandshake (plugin_name url : string)
  | EvChatCompletion (agent_id message : string).

(** Effectful code: the network operations performed, in order, and the
    result or the exception raised. *)
Definition IO (A : Type) : Type := (list NetEvent * Result A)%type.

Definition io_ret {A : Type} (a : A) : IO A := ([], Ok a).

Definition io_raise {A : Type} (e : PyExn) : IO A := ([], Raise e).

Definition io_bind {A B : Type} (m : IO A) (f : A -> IO B) : IO B :=
  match m with
  | (t, Ok a) => let '(t', r) := f a in ((t ++ t')%list, r)
  | (t, Raise e) => (t, Raise e)
  end.

(** Code that does no network operation. *)
Definition io_lift {A : Type} (r : Result A) : IO A := ([], r).

(** One awaited network operation with the outcome the environment gives. *)
Definition io_net {A : Type} (ev : NetEvent) (outcome : Result A) : IO A :=
  ([ev], outcome).

(** [try: body except ...: handler]. *)
Definition try_except {A : Type} (body : IO A) (handler : PyExn -> IO A) : IO A :=
  match body with
  | (t, Ok a) => (t, Ok a)
  | (t, Raise e) => let '(t', r) := handler e in ((t ++ t')%list, r)
  end.

Definition io_trace {A : Type} (m : IO A) : list NetEvent := m.1.
Definition io_result {A : Type} (m : IO A) : Result A := m.2.



Definition is_chat_completion (ev : NetEvent) : bool :=
  match ev with
  | EvChatCompletion _ _ => true
  | _ => false
  end.

Definition is_plugin_handshake (ev : NetEvent) : bool :=
  match ev with
  | EvPluginHandshake _ _ => true
  | _ => false
  end.



End Net.
Export Net.

Declare Scope io_scope.
Delimit Scope io_scope with io.
Notation "x <- m ;; k" := (io_bind m (fun x => k))
  (at level 100, m at next level, right associativity) : io_scope.
Notation "x <~ m ;; k" := (rbind m (fun x => k))
  (at level 100, m at next level, right associativity).

(* ===================================================================== *)
(** ** The remote agent proxy: [create_agent_tool_class]                  *)
(* ===================================================================== *)

Module Tool.

(** Character classes of the two regular expressions. *)
Definition is_alnum (c : ascii) : bool :=
  let n := nat_of_ascii c in
  (((48 <=? n) && (n <=? 57)) || ((65 <=? n) && (n <=? 90)) ||
   ((97 <=? n) && (n <=? 122)))%nat.

Definition is_id_char (c : ascii) : bool :=
  is_alnum c || Ascii.eqb c "_" || Ascii.eqb c "-".

Fixpoint str_filter (keep : ascii -> bool) (s : string) : string :=
  match s with
  | EmptyString => EmptyString
  | String c s' =>
      if keep c then String c (str_filter keep s') else str_filter keep s'
  end.

Fixpoint str_replace (keep : ascii -> bool) (by_ : ascii) (s : string) : string :=
  match s with
  | EmptyString => EmptyString
  | String c s' =>
      String (if keep c then c else by_) (str_replace keep by_ s')
  end.

(** What [kernel_function(description=..., name=...)] attaches to the
    method: the name and description the function-calling mechanism of the
    chat completion service sees. *)
Record KernelFunction : Type :=
  mkKernelFunction { kf_name : string; kf_description : string }.

(** The class [create_agent_tool_class] returns: its [__name__], the
    closure variables its [__init__] copies, and the decorated function
    together with the attribute name it is set under. *)
Record ToolClass : Type := mkToolClass {
  cls_name : string;
  cls_agent_name : string;
  cls_agent_url : string;
  cls_agent_description : string;
  cls_function_name : string;
  cls_attribute : string;
  cls_kernel_function : KernelFunction
}.

(** An instance [tool_class()]. *)
Record DynamicAgentTool : Type := mkTool {
  tool_class : ToolClass;
  agent_url : string;
  agent_name : string;
  agent_description : string;
  function_name : string
}.

(** [re.sub(r'[^0-9A-Za-z]', '', agent_name) + 'Tool'], line 39. *)
Definition class_name (agent_name : string) : string :=
  str_filter is_alnum agent_name ++ "Tool".

(** *** Attributes of the class

    Line 108 stores the decorated method in the class under
    [function_name], and line 160 calls the class. Python gives some
    attribute names of a class a meaning of their own; for a function
    stored under one of them either the assignment or the call of the
    class raises. *)
Inductive AttributeEffect : Type :=
  | StoredOnly
  | AssignmentRaises (e : PyExn)
  | CallRaises (e : PyExn).

(** Attributes of a type object that take a value of one type only. *)
Definition typed_type_attributes : list (string * string) :=
  [("__name__", "string"); ("__qualname__", "string"); ("__bases__", "tuple")].

(** Attributes of a type object that cannot be assigned. *)
Definition readonly_type_attributes : list string :=
  ["__dict__"; "__mro__"; "__base__"; "__basicsize__"; "__itemsize__";
   "__flags__"; "__weakrefoffset__"; "__dictoffset__"; "__text_signature__"].

(** Special methods the creation of an instance goes through:
    [__new__] and [__init__] are called with the instance (or the class)
    as their only argument, [__setattr__] by each assignment of
    [DynamicAgentTool.__init__] with three; the decorated method takes
    [self] and [user_input]. *)
Definition creation_methods : list (string * string) :=
  [("__new__", "missing 1 required positional argument: 'user_input'");
   ("__init__", "missing 1 required positional argument: 'user_input'");
   ("__setattr__", "takes 2 positional arguments but 3 were given")].

Fixpoint assoc (key : string) (l : list (string * string)) : option string :=
  match l with
  | [] => None
  | (k, v) :: rest => if String.eqb key k then Some v else assoc key rest
  end.

Definition send_to_agent_qualname : string :=
  "create_agent_tool_class.<locals>.DynamicAgentTool._send_to_agent".

(** What storing the decorated method under [function_name] does to a
    class named [class_name]. A function assigned to
    [__abstractmethods__] marks the class as abstract, and the creation
    of an instance then fails on a value it cannot iterate. The texts are
    those of CPython 3.11; the statements below depend on the classes of
    the exceptions only. *)
Definition attribute_effect (class_name function_name : string) : AttributeEffect :=
  match assoc function_name typed_type_attributes with
  | Some type_name =>
      AssignmentRaises
        (mkExn TypeError
           ("can only assign " ++ type_name ++ " to " ++ class_name ++ "."
            ++ function_name ++ ", not 'function'"))
  | None =>
      if String.eqb function_name "__class__" then
        AssignmentRaises
          (mkExn TypeError "__class__ must be set to a class, not 'function' object")
      else if existsb (String.eqb function_name) readonly_type_attributes then
        AssignmentRaises (mkExn AttributeError "readonly attribute")
      else if String.eqb function_name "__abstractmethods__" then
        CallRaises (mkExn TypeError "'function' object is not iterable")
      else
        match assoc function_name creation_methods with
        | Some complaint =>
            CallRaises (mkExn TypeError (send_to_agent_qualname ++ "() " ++ complaint))
        | None => StoredOnly
        end
  end.

(** [kernel_function(description=..., name=function_name)], lines
    103-106: the decorator records [name or func.__name__]. *)
Definition decorate (agent_name agent_description function_name : string)
  : KernelFunction :=
  mkKernelFunction
    (if str_is_empty function_name then "_send_to_agent" else function_name)
    ("Send a request to " ++ agent_name ++ ": " ++ agent_description).

(** [create_agent_tool_class], lines 26-110. The class is renamed at
    lines 100-101, before [setattr] stores the decorated method under
    [function_name] at line 108. *)
Definition create_agent_tool_class
    (agent_name agent_url agent_description function_name : string)
  : Result ToolClass :=
  let class_name := class_name agent_name in
  let decorated_function := decorate agent_name agent_description function_name in
  match attribute_effect class_name function_name with
  | AssignmentRaises e => Raise e
  | _ =>
      Ok (mkToolClass class_name agent_name agent_url agent_description
            function_name function_name decorated_function)
  end.

(** [tool_class()]: the creation of the instance, then
    [DynamicAgentTool.__init__] and its four assignments, unless [setattr]
    has put the decorated method in the place of a method these go
    through, or has marked the class as abstract. *)
Definition instantiate (cls : ToolClass) : Result DynamicAgentTool :=
  match attribute_effect (cls_name cls) (cls_attribute cls) with
  | CallRaises e => Raise e
  | _ =>
      Ok (mkTool cls (cls_agent_url cls) (cls_agent_name cls)
            (cls_agent_description cls) (cls_function_name cls))
  end.

Fixpoint endswith (suffix s : string) : bool :=
  String.eqb suffix s ||
  match s with
  | EmptyString => false
  | String _ s' => endswith suffix s'
  end.

Definition is_dunder (s : string) : bool := startswith "__" s && endswith "__" s.

(** A function name that is not empty and not of the form [__x__]: none
    of the names above. *)
Definition ordinary_function_name (function_name : string) : bool :=
  negb (str_is_empty function_name) && negb (is_dunder function_name).

(** Name and description a binding exposes to the function-calling
    mechanism. *)
Definition exposed_name (t : DynamicAgentTool) : string :=
  kf_name (cls_kernel_function (tool_class t)).

Definition exposed_description (t : DynamicAgentTool) : string :=
  kf_description (cls_kernel_function (tool_class t)).

(** The remote side as the proxy sees it: the outcome of the agent-card
    discovery at a base url, and the decoded reply
    ([response.model_dump(mode='json', exclude_none=True)]) of
    [client.send_message], or the exception either raises. *)
Record Remote : Type := mkRemote {
  get_agent_card : string -> Result AgentCard;
  send_message : AgentCard -> SendMessageRequest -> Result pyval
}.

Section Proxy.

(** [str(v)] of a value that is not a [str]; the formatting of such values
    is left to the Python runtime. *)
Variable str_of_nonstr : pyval -> string.

(** [f"{v}"]. *)
Definition py_format (v : pyval) : string :=
  match v with
  | PStr s => s
  | _ => str_of_nonstr v
  end.

(** [a and b], with [b] evaluated only when [a] is true. *)
Definition and_then (a : Result bool) (b : Result bool) : Result bool :=
  c <~ a ;; if c then b else Ok false.

(** Lines 82-91: the decoding of the reply. *)
Definition decode_reply (self : DynamicAgentTool) (result : pyval) : Result pyval :=
  has_error <~ py_in "error" result ;;
  if has_error then
    err <~ py_getitem result "error" ;;
    error_message <~ py_get err "message" (PStr "Unknown error occurred") ;;
    Ok (PStr ("Error from " ++ agent_name self ++ " agent: "
              ++ py_format error_message))
  else
    has_text <~
      and_then (py_in "result" result)
        (and_then (r <~ py_getitem result "result" ;; py_in "parts" r)
           (r <~ py_getitem result "result" ;;
            parts <~ py_getitem r "parts" ;;
            n <~ py_len parts ;;
            Ok (0 <? n)%nat)) ;;
    if has_text then
      r <~ py_getitem result "result" ;;
      parts <~ py_getitem r "parts" ;;
      part <~ py_getitem0 parts ;;
      py_getitem part "text"
    else
      Ok (PStr ("Error: Unexpected response format from "
                ++ agent_name self ++ " agent")).

(** Lines 93-98: the two handlers of the [try]. An exception that is not
    an [Exception] is not caught. *)
Definition handle_exception (self : DynamicAgentTool) (e : PyExn) : IO pyval :=
  if is_ReadTimeout (exn_class e) then
    io_ret (PStr ("Error: The " ++ agent_name self
                  ++ " agent is taking longer than expected. Please try again."))
  else if is_Exception (exn_class e) then
    io_ret (PStr ("Error connecting to " ++ agent_name self ++ " agent: "
                  ++ exn_str e))
  else io_raise e.

(** [DynamicAgentTool._send_to_agent], lines 48-98. *)
Definition _send_to_agent (remote : Remote) (self : DynamicAgentTool)
    (user_input : string) : IO pyval :=
  try_except
    (agent_card <- io_net (EvGetAgentCard (agent_url self))
                     (get_agent_card remote (agent_url self)) ;;
     let request := mkRequest "user" [user_input] in
     result <- io_net (EvSendMessage agent_card request)
                 (send_message remote agent_card request) ;;
     io_lift (decode_reply self result))%io
    (handle_exception self).

End Proxy.

End Tool.
Export Tool.

(* ===================================================================== *)
(** ** Stateful code: the attributes of [self] survive an exception       *)
(* ===================================================================== *)

Module Action.

(** A method body over the state [S]: the state it leaves behind (also
    when it raises), the network operations it performed, and its result. *)
Definition Act (S A : Type) : Type := S -> S * IO A.

Definition act_ret {S A : Type} (a : A) : Act S A :=
  fun s => (s, io_ret a).

Definition act_raise {S A : Type} (e : PyExn) : Act S A :=
  fun s => (s, io_raise e).

Definition act_bind {S A B : Type} (m : Act S A) (f : A -> Act S B) : Act S B :=
  fun s =>
    match m s with
    | (s1, (t1, Ok a)) =>
        let '(s2, (t2, r)) := f a s1 in (s2, ((t1 ++ t2)%list, r))
    | (s1, (t1, Raise e)) => (s1, (t1, Raise e))
    end.

Definition act_get {S : Type} : Act S S :=
  fun s => (s, io_ret s).

Definition act_modify {S : Type} (f : S -> S) : Act S unit :=
  fun s => (f s, io_ret tt).

(** An awaited network operation whose outcome the environment decides
    from the state at the time of the call. *)
Definition act_await {S A : Type} (ev : S -> NetEvent) (outcome : S -> Result A)
  : Act S A :=
  fun s => (s, io_net (ev s) (outcome s)).

(** Run a body written over a part [T] of the state. *)
Definition act_zoom {S T A : Type} (get : S -> T) (set : T -> S -> S)
    (m : Act T A) : Act S A :=
  fun s => let '(t', r) := m (get s) in (set t' s, r).

(** [try: body except ...: handler] over a state. *)
Definition act_try {S A : Type} (body : Act S A) (handler : PyExn -> Act S A)
  : Act S A :=
  fun s =>
    match body s with
    | (s1, (t1, Ok a)) => (s1, (t1, Ok a))
    | (s1, (t1, Raise e)) =>
        let '(s2, (t2, r)) := handler e s1 in (s2, ((t1 ++ t2)%list, r))
    end.

Definition final_state {S A : Type} (x : S * IO A) : S := x.1.
Definition trace_of {S A : Type} (x : S * IO A) : list NetEvent := x.2.1.
Definition result_of {S A : Type} (x : S * IO A) : Result A := x.2.2.

End Action.
Export Action.

Declare Scope act_scope.
Delimit Scope act_scope with act.
Notation "x <- m ;; k" := (act_bind m (fun x => k))
  (at level 100, m at next level, right associativity) : act_scope.

(* ===================================================================== *)
(** ** Conversation histories                                             *)
(* ===================================================================== *)

Module Conv.

Record ChatMessageContent : Type := mkMessage { role : string; content : string }.

(** [ChatHistory(messages=..., system_message=...)]. *)
Record ChatHistory : Type :=
  mkHistory { system_message : string; messages : list ChatMessageContent }.

(** The [history_store] dict of an agent together with the [ChatHistory]
    objects it refers to. A value of the dict is the identity of an object;
    two keys may in principle hold the same object. *)
Record Conversations : Type := mkConversations {
  history_store : gmap string positive;
  heap : gmap positive ChatHistory
}.

(** [ChatHistoryAgentThread(chat_history=..., thread_id=str(uuid4()))]:
    the thread holds a reference to the history object. *)
Record ChatHistoryAgentThread : Type := mkThread { chat_history : positive }.

Definition no_conversations : Conversations := mkConversations ∅ ∅.

(** The history a context id currently denotes. *)
Definition history_of (σ : Conversations) (context_id : string) : option ChatHistory :=
  match history_store σ !! context_id with
  | Some obj => heap σ !! obj
  | None => None
  end.

(** Lines 209-216 of [orchestrate] (121-128 of [process_request]):
    [history_store.get(context_id)], and on [None] a new [ChatHistory]
    object stored under the key. *)
Definition get_or_create (system_message context_id : string)
    (σ : Conversations) : positive * Conversations :=
  match history_store σ !! context_id with
  | Some chat_history => (chat_history, σ)
  | None =>
      let chat_history := fresh (dom (heap σ)) in
      (chat_history,
       mkConversations (<[context_id := chat_history]> (history_store σ))
         (<[chat_history := mkHistory system_message []]> (heap σ)))
  end.

(** [chat_history.messages.append(m)]. *)
Definition append_message (chat_history : positive) (m : ChatMessageContent)
    (σ : Conversations) : Conversations :=
  mkConversations (history_store σ)
    (alter (fun h => mkHistory (system_message h) (messages h ++ [m])%list)
       chat_history (heap σ)).

Definition empty_input_error : PyExn := mkExn ValueError "User input cannot be empty.".

(** From the check of the input to the creation of the thread (lines
    205-220 of [orchestrate], 117-132 of [process_request]): everything
    before the chat completion is awaited. *)
Definition turn_begin (system_message user_input context_id : string)
  : Act Conversations ChatHistoryAgentThread :=
  (_ <- (if str_is_empty user_input then act_raise empty_input_error
         else act_ret tt) ;;
   chat_history <- (fun σ =>
                      let '(obj, σ') := get_or_create system_message context_id σ in
                      (σ', io_ret obj)) ;;
   _ <- act_modify (append_message chat_history (mkMessage "user" user_input)) ;;
   act_ret (mkThread chat_history))%act.

(** After the awaited chat completion returned [response] (lines 223-227
    of [orchestrate], 135-139 of [process_request]);
    [response_content] is [response.content.content]. *)
Definition turn_end (thread : ChatHistoryAgentThread) (response_content : string)
  : Act Conversations string :=
  (_ <- act_modify (append_message (chat_history thread)
                      (mkMessage "assistant" response_content)) ;;
   act_ret response_content)%act.

(** The chat completion service behind [chat_agent.get_response]: given
    the plugins of the agent, the message, the thread and the objects the
    thread refers to, it returns the reply text or raises. *)
Definition ChatService (P : Type) : Type :=
  list P -> string -> ChatHistoryAgentThread -> Conversations -> Result string.

(** [ChatCompletionAgent(service=..., name=..., plugins=...)]. *)
Record ChatCompletionAgent (P : Type) : Type :=
  mkChatAgent { ca_name : string; plugins : list P }.
Arguments mkChatAgent {P} ca_name plugins.
Arguments ca_name {P} c.
Arguments plugins {P} c.

End Conv.
Export Conv.

(* ===================================================================== *)
(** ** [HostAgent]                                                        *)
(* ===================================================================== *)

Module Host.

(** An endpoint descriptor is a [Dict[str, str]]. *)
Abbreviation Endpoint := (gmap string string).

Record HostAgent : Type := mkHostAgent {
  name : string;
  description : string;
  agent_endpoints : list Endpoint;
  agent_id : string;
  agent_tools : list DynamicAgentTool;
  system_message : string;
  chat_agent : ChatCompletionAgent DynamicAgentTool;
  conversations : Conversations
}.

Definition newline : string := String (ascii_of_nat 10) EmptyString.

(** [endpoint.get(key, default)] and [endpoint[key]]. *)
Definition endpoint_get (endpoint : Endpoint) (key default : string) : string :=
  match endpoint !! key with
  | Some v => v
  | None => default
  end.

Definition endpoint_getitem (endpoint : Endpoint) (key : string) : Result string :=
  match endpoint !! key with
  | Some v => Ok v
  | None => Raise (mkExn KeyError (repr_key key))
  end.

Definition missing_function_name (endpoint : Endpoint) : PyExn :=
  mkExn ValueError
    ("Agent endpoint for " ++ endpoint_get endpoint "name" "Unknown"
     ++ " must include 'function_name'").

(** Lines 146-148. *)
Fixpoint check_function_names (endpoints : list Endpoint) : Result unit :=
  match endpoints with
  | [] => Ok tt
  | endpoint :: rest =>
      match endpoint !! "function_name" with
      | None => Raise (missing_function_name endpoint)
      | Some _ => check_function_names rest
      end
  end.

(** Lines 154-160, the body of the second loop. *)
Definition make_tool (endpoint : Endpoint) : Result DynamicAgentTool :=
  agent_name <~ endpoint_getitem endpoint "name" ;;
  agent_url <~ endpoint_getitem endpoint "url" ;;
  let agent_description := endpoint_get endpoint "description" "" in
  function_name <~ endpoint_getitem endpoint "function_name" ;;
  tool_class <~
    create_agent_tool_class agent_name agent_url agent_description function_name ;;
  instantiate tool_class.

(** Lines 152-162: [agent_tools] grows by one instance per endpoint, in
    order. *)
Fixpoint make_tools (endpoints : list Endpoint) : Result (list DynamicAgentTool) :=
  match endpoints with
  | [] => Ok []
  | endpoint :: rest =>
      tool_instance <~ make_tool endpoint ;;
      tools <~ make_tools rest ;;
      Ok (tool_instance :: tools)
  end.

(** Lines 165-168. *)
Definition describe_endpoint (endpoint : Endpoint) : Result string :=
  n <~ endpoint_getitem endpoint "name" ;;
  f <~ endpoint_getitem endpoint "function_name" ;;
  Ok ("- " ++ n ++ " (use function '" ++ f ++ "'): "
      ++ endpoint_get endpoint "description" "No description provided").

Fixpoint describe_endpoints (endpoints : list Endpoint) : Result (list string) :=
  match endpoints with
  | [] => Ok []
  | endpoint :: rest =>
      d <~ describe_endpoint endpoint ;;
      ds <~ describe_endpoints rest ;;
      Ok (d :: ds)
  end.

(** Lines 164-173. *)
Definition default_system_message (name description : string)
    (endpoints : list Endpoint) : Result string :=
  lines <~ describe_endpoints endpoints ;;
  let agent_descriptions := String.concat newline lines in
  Ok ("You are " ++ name ++ ". " ++ description ++ newline ++ newline
      ++ "You have access to the following specialized agents:" ++ newline
      ++ agent_descriptions ++ newline ++ newline
      ++ "Use these agents to help answer user requests by delegating tasks to the appropriate agent.").

(** *** The chat agent of the library

    [ChatCompletionAgent] and [AzureChatCompletion] belong to
    semantic-kernel. What the code relies on: the constructor hands each
    element of [plugins] to the kernel of the agent, which keeps its
    plugins in a dict keyed by the plugin name, here the name of the class
    of the tool; and the agent is a pydantic model of which [plugins] is
    not a field. *)

(** The checks of the two constructors of lines 177-186 (on the
    environment, on the name of the agent, on the kernel functions found
    in each plugin): the exception they raise for an agent name and a list
    of plugins, if any. They are the library's and a parameter here. *)
Definition AgentValidation : Type := string -> list DynamicAgentTool -> option PyExn.

(** [kernel.add_plugin(plugin)]: a plugin of the same name is replaced,
    where it stands. *)
Fixpoint add_plugin (tool : DynamicAgentTool) (registered : list DynamicAgentTool)
  : list DynamicAgentTool :=
  match registered with
  | [] => [tool]
  | t :: rest =>
      if String.eqb (cls_name (tool_class t)) (cls_name (tool_class tool))
      then tool :: rest
      else t :: add_plugin tool rest
  end.

Definition register (tools : list DynamicAgentTool) : list DynamicAgentTool :=
  fold_left (fun registered tool => add_plugin tool registered) tools [].

(** [ChatCompletionAgent(service=AzureChatCompletion(...), name=...,
    plugins=...)]. The agent keeps what the kernel holds after the call;
    the list passed in is not referred to again. *)
Definition new_chat_agent (validation : AgentValidation) (name : string)
    (plugins : list DynamicAgentTool)
  : Result (ChatCompletionAgent DynamicAgentTool) :=
  match validation name plugins with
  | Some e => Raise e
  | None => Ok (mkChatAgent name (register plugins))
  end.

Definition double_quote : string := String (ascii_of_nat 34) EmptyString.

Definition not_a_field (class_name field : string) : PyExn :=
  mkExn ValueError
    (double_quote ++ class_name ++ double_quote ++ " object has no field "
     ++ double_quote ++ field ++ double_quote).

(** [chat_agent.plugins = value]: the assignment of an attribute that is
    not a field of the model is refused. *)
Definition assign_plugins (agent : ChatCompletionAgent DynamicAgentTool)
    (value : list DynamicAgentTool)
  : Result (ChatCompletionAgent DynamicAgentTool) :=
  Raise (not_a_field "ChatCompletionAgent" "plugins").

(** [HostAgent.__init__], lines 124-190. [None] for [agent_endpoints] or
    [system_message] is the argument left out. *)
Definition __init__ (validation : AgentValidation) (name description : string)
    (agent_endpoints : option (list Endpoint)) (system_message : option string)
  : Result HostAgent :=
  let endpoints :=
    match agent_endpoints with
    | Some (e :: es) => e :: es
    | _ => []
    end in
  _ <~ check_function_names endpoints ;;
  let agent_id := str_replace is_id_char "_"%char name in
  agent_tools <~ make_tools endpoints ;;
  system_message <~
    match system_message with
    | None => default_system_message name description endpoints
    | Some m => Ok m
    end ;;
  chat_agent <~ new_chat_agent validation agent_id agent_tools ;;
  Ok (mkHostAgent name description endpoints agent_id agent_tools
        system_message chat_agent no_conversations).

Definition set_conversations (σ : Conversations) (self : HostAgent) : HostAgent :=
  mkHostAgent (name self) (description self) (agent_endpoints self)
    (agent_id self) (agent_tools self) (system_message self) (chat_agent self) σ.

(** [orchestrate] up to the point where [get_response] is awaited. *)
Definition orchestrate_begin (user_input context_id : string)
  : Act HostAgent ChatHistoryAgentThread :=
  (self <- act_get ;;
   act_zoom conversations set_conversations
     (turn_begin (system_message self) user_input context_id))%act.

(** [orchestrate] from the point where the awaited [get_response] returns
    or raises. *)
Definition orchestrate_resume (user_input : string)
    (thread : ChatHistoryAgentThread) (response : Result string)
  : Act HostAgent string :=
  (response_content <-
     act_await (fun self => EvChatCompletion (agent_id self) user_input)
       (fun _ => response) ;;
   act_zoom conversations set_conversations (turn_end thread response_content))%act.

(** [HostAgent.orchestrate], lines 192-227. *)
Definition orchestrate (service : ChatService DynamicAgentTool)
    (user_input context_id : string) : Act HostAgent string :=
  (thread <- orchestrate_begin user_input context_id ;;
   self <- act_get ;;
   orchestrate_resume user_input thread
     (service (plugins (chat_agent self)) user_input thread (conversations self)))%act.

Definition set_agent_endpoints (endpoints : list Endpoint) (self : HostAgent)
  : HostAgent :=
  mkHostAgent (name self) (description self) endpoints (agent_id self)
    (agent_tools self) (system_message self) (chat_agent self) (conversations self).

Definition set_agent_tools (tools : list DynamicAgentTool) (self : HostAgent)
  : HostAgent :=
  mkHostAgent (name self) (description self) (agent_endpoints self) (agent_id self)
    tools (system_message self) (chat_agent self) (conversations self).

Definition set_chat_agent (agent : ChatCompletionAgent DynamicAgentTool)
    (self : HostAgent) : HostAgent :=
  mkHostAgent (name self) (description self) (agent_endpoints self) (agent_id self)
    (agent_tools self) (system_message self) agent (conversations self).

(** [HostAgent.add_agent_endpoint], lines 229-254: the agent as the call
    leaves it, and what the call returns or raises. The two lists are
    extended in place before the assignment of line 252 is reached. *)
Definition add_agent_endpoint (url name function_name description : string)
    (self : HostAgent) : HostAgent * Result unit :=
  let endpoint : Endpoint :=
    <["url" := url]> (<["name" := name]> (<["function_name" := function_name]>
      (<["description" := description]> ∅))) in
  let self1 := set_agent_endpoints (agent_endpoints self ++ [endpoint])%list self in
  match (tool_class <~ create_agent_tool_class name url description function_name ;;
         instantiate tool_class) with
  | Raise e => (self1, Raise e)
  | Ok tool_instance =>
      let self2 := set_agent_tools (agent_tools self1 ++ [tool_instance])%list self1 in
      match assign_plugins (chat_agent self2) (agent_tools self2) with
      | Raise e => (self2, Raise e)
      | Ok agent => (set_chat_agent agent self2, Ok tt)
      end
  end.

(** The plugins the kernel of the chat agent holds: the tool set a chat
    completion started now is given. *)
Definition visible_tools (self : HostAgent) : list DynamicAgentTool :=
  plugins (chat_agent self).

(** A descriptor that has the keys [__init__] subscripts. *)
Definition has_keys (endpoint : Endpoint) : Prop :=
  is_Some (endpoint !! "name") /\ is_Some (endpoint !! "url") /\
  is_Some (endpoint !! "function_name").

(** The outcome of the chat completion a call of [orchestrate] awaits;
    [None] when the call ends before it gets there. *)
Definition response_to (service : ChatService DynamicAgentTool)
    (user_input context_id : string) (self : HostAgent) : option (Result string) :=
  match orchestrate_begin user_input context_id self with
  | (self1, (_, Ok thread)) =>
      Some (service (plugins (chat_agent self1)) user_input thread
              (conversations self1))
  | (_, (_, Raise _)) => None
  end.

End Host.

(* ===================================================================== *)
(** ** [Agent], the worker                                                *)
(* ===================================================================== *)

Module Worker.

(** [MCPSsePlugin(name=..., url=...)]. *)
Record MCPSsePlugin : Type := mkPlugin { plugin_name : string; plugin_url : string }.

Record Agent : Type := mkAgent {
  name : string;
  description : string;
  mcp_sse_urls : list string;
  system_message : string;
  agent_id : string;
  mcp_plugins : list MCPSsePlugin;
  _plugins_initialized : bool;
  chat_agent : option (ChatCompletionAgent MCPSsePlugin);
  conversations : Conversations
}.

(** The outcome of [await plugin.__aenter__()]. *)
Definition Handshake : Type := MCPSsePlugin -> Result unit.

(** [Agent.__init__], lines 50-72. *)
Definition __init__ (name description : string)
    (mcp_sse_urls : option (list string)) (system_message : option string) : Agent :=
  let urls :=
    match mcp_sse_urls with
    | Some (u :: us) => u :: us
    | _ => []
    end in
  let preamble :=
    match system_message with
    | Some (String c m) => String c m
    | _ => "You are " ++ name ++ ". " ++ description
    end in
  mkAgent name description urls preamble (str_replace is_id_char "_"%char name)
    [] false None no_conversations.

Definition set_conversations (σ : Conversations) (self : Agent) : Agent :=
  mkAgent (name self) (description self) (mcp_sse_urls self) (system_message self)
    (agent_id self) (mcp_plugins self) (_plugins_initialized self)
    (chat_agent self) σ.

(** [self.mcp_plugins.append(plugin)]. *)
Definition add_plugin (plugin : MCPSsePlugin) (self : Agent) : Agent :=
  mkAgent (name self) (description self) (mcp_sse_urls self) (system_message self)
    (agent_id self) (mcp_plugins self ++ [plugin])%list
    (_plugins_initialized self) (chat_agent self) (conversations self).

(** Lines 81-84: the plugin object built before the handshake is awaited. *)
Definition plugin_for (self : Agent) (url : string) : MCPSsePlugin :=
  mkPlugin ("RemoteTools_" ++ agent_id self ++ "_"
            ++ pretty (List.length (mcp_plugins self))) url.

(** Lines 85-89, from the point where the awaited handshake returns or
    raises: the plugin is kept, or the failure is logged and skipped. *)
Definition connect_resume (plugin : MCPSsePlugin) (outcome : Result unit)
  : Act Agent unit :=
  act_try
    (_ <- act_await
            (fun _ => EvPluginHandshake (plugin_name plugin) (plugin_url plugin))
            (fun _ => outcome) ;;
     act_modify (add_plugin plugin))%act
    (fun e => if is_Exception (exn_class e) then act_ret tt else act_raise e).

(** Lines 80-89, one iteration of the loop. *)
Definition connect_plugin (handshake : Handshake) (url : string) : Act Agent unit :=
  (self <- act_get ;;
   let plugin := plugin_for self url in
   connect_resume plugin (handshake plugin))%act.

Fixpoint connect_all (handshake : Handshake) (urls : list string) : Act Agent unit :=
  match urls with
  | [] => act_ret tt
  | url :: rest =>
      (_ <- connect_plugin handshake url ;; connect_all handshake rest)%act
  end.

(** Lines 91-97. *)
Definition finish_initialization (self : Agent) : Agent :=
  mkAgent (name self) (description self) (mcp_sse_urls self) (system_message self)
    (agent_id self) (mcp_plugins self) true
    (Some (mkChatAgent (agent_id self) (mcp_plugins self)))
    (conversations self).

(** [Agent.initialize_plugins], lines 74-97. *)
Definition initialize_plugins (handshake : Handshake) : Act Agent unit :=
  (self <- act_get ;;
   if _plugins_initialized self then act_ret tt
   else
     _ <- connect_all handshake (mcp_sse_urls self) ;;
     act_modify finish_initialization)%act.

Definition not_initialized_error : PyExn :=
  mkExn RuntimeError "Chat agent not initialized. Call initialize_plugins() first.".

(** Lines 112-132 of [process_request]: from the guard on [chat_agent] to
    the creation of the thread. *)
Definition process_begin (user_input context_id : string)
  : Act Agent ChatHistoryAgentThread :=
  (self <- act_get ;;
   match chat_agent self with
   | None => act_raise not_initialized_error
   | Some _ =>
       act_zoom conversations set_conversations
         (turn_begin (system_message self) user_input context_id)
   end)%act.

(** [self.chat_agent.get_response(...)]: the attribute is read when the
    call is made. *)
Definition get_response (service : ChatService MCPSsePlugin) (self : Agent)
    (user_input : string) (thread : ChatHistoryAgentThread) : Result string :=
  match chat_agent self with
  | Some agent => service (plugins agent) user_input thread (conversations self)
  | None => Raise (mkExn AttributeError
                     "'NoneType' object has no attribute 'get_response'")
  end.

(** [process_request] from the point where the awaited [get_response]
    returns or raises. *)
Definition process_resume (user_input : string)
    (thread : ChatHistoryAgentThread) (response : Result string)
  : Act Agent string :=
  (response_content <-
     act_await (fun self => EvChatCompletion (agent_id self) user_input)
       (fun _ => response) ;;
   act_zoom conversations set_conversations (turn_end thread response_content))%act.

(** Lines 112-139: what [process_request] does once [initialize_plugins]
    has returned. *)
Definition process_after_init (service : ChatService MCPSsePlugin)
    (user_input context_id : string) : Act Agent string :=
  (thread <- process_begin user_input context_id ;;
   self <- act_get ;;
   process_resume user_input thread (get_response service self user_input thread))%act.

(** [Agent.process_request], lines 99-139. *)
Definition process_request (handshake : Handshake)
    (service : ChatService MCPSsePlugin) (user_input context_id : string)
  : Act Agent string :=
  (_ <- initialize_plugins handshake ;;
   process_after_init service user_input context_id)%act.

(** The outcome of the chat completion a call of [process_request]
    awaits; [None] when the call ends before it gets there. *)
Definition response_after_init (service : ChatService MCPSsePlugin)
    (user_input context_id : string) (self : Agent) : option (Result string) :=
  match process_begin user_input context_id self with
  | (self1, (_, Ok thread)) => Some (get_response service self1 user_input thread)
  | (_, (_, Raise _)) => None
  end.

Definition response_to (handshake : Handshake) (service : ChatService MCPSsePlugin)
    (user_input context_id : string) (self : Agent) : option (Result string) :=
  match initialize_plugins handshake self with
  | (self0, (_, Ok _)) => response_after_init service user_input context_id self0
  | (_, (_, Raise _)) => None
  end.

End Worker.

(* ===================================================================== *)
(** ** Interleaved calls                                                  *)
(* ===================================================================== *)

(** One task per call, scheduled cooperatively: a task runs from one
    [await] to the next without interruption, and other tasks run while it
    is suspended. A world is the agent together with the suspended tasks;
    a task keeps its local variables. *)

Module Sched.

(** A conversation store in which distinct context ids denote distinct,
    existing objects. *)
Definition separated (σ : Conversations) : Prop :=
  (forall a b obj_a obj_b,
      history_store σ !! a = Some obj_a ->
      history_store σ !! b = Some obj_b ->
      a <> b -> obj_a <> obj_b) /\
  (forall a obj, history_store σ !! a = Some obj -> is_Some (heap σ !! obj)).

(** *** Calls of [HostAgent.orchestrate] *)

Inductive HostTask : Type :=
  | HAwaitingResponse (user_input context_id : string)
      (thread : ChatHistoryAgentThread).

Record HostWorld : Type := mkHostWorld {
  host : Host.HostAgent;
  host_tasks : gmap nat HostTask
}.

Inductive HostEvent : Type :=
  | HCall (task : nat) (user_input context_id : string)
  | HResponse (task : nat) (response : Result string)
  | HAddEndpoint (url name function_name description : string).

Definition host_step (ev : HostEvent) (w : HostWorld) : option HostWorld :=
  match ev with
  | HCall task user_input context_id =>
      match host_tasks w !! task with
      | Some _ => None
      | None =>
          match Host.orchestrate_begin user_input context_id (host w) with
          | (self, (_, Ok thread)) =>
              Some (mkHostWorld self
                      (<[task := HAwaitingResponse user_input context_id thread]>
                         (host_tasks w)))
          | (self, (_, Raise _)) => Some (mkHostWorld self (host_tasks w))
          end
      end
  | HResponse task response =>
      match host_tasks w !! task with
      | Some (HAwaitingResponse user_input _ thread) =>
          Some (mkHostWorld
                  (final_state
                     (Host.orchestrate_resume user_input thread response (host w)))
                  (delete task (host_tasks w)))
      | None => None
      end
  | HAddEndpoint url name function_name description =>
      Some (mkHostWorld
              (Host.add_agent_endpoint url name function_name description (host w)).1
              (host_tasks w))
  end.

(** The context id of the call an event belongs to. *)
Definition host_event_context (w : HostWorld) (ev : HostEvent) : option string :=
  match ev with
  | HCall _ _ context_id => Some context_id
  | HResponse task _ =>
      match host_tasks w !! task with
      | Some (HAwaitingResponse _ context_id _) => Some context_id
      | None => None
      end
  | HAddEndpoint _ _ _ _ => None
  end.

Fixpoint host_run (evs : list HostEvent) (w : HostWorld) : option HostWorld :=
  match evs with
  | [] => Some w
  | ev :: rest =>
      match host_step ev w with
      | Some w' => host_run rest w'
      | None => None
      end
  end.

Definition host_history (w : HostWorld) (context_id : string) : option ChatHistory :=
  history_of (Host.conversations (host w)) context_id.

Definition host_wf (w : HostWorld) : Prop :=
  separated (Host.conversations (host w)) /\
  (forall task user_input context_id thread,
      host_tasks w !! task = Some (HAwaitingResponse user_input context_id thread) ->
      history_store (Host.conversations (host w)) !! context_id
      = Some (chat_history thread)).

(** *** Calls of [Agent.process_request] *)

Inductive WorkerTask : Type :=
  | WHandshaking (plugin : Worker.MCPSsePlugin) (rest : list string)
      (user_input context_id : string)
  | WAwaitingResponse (user_input context_id : string)
      (thread : ChatHistoryAgentThread).

Record WorkerWorld : Type := mkWorkerWorld {
  worker : Worker.Agent;
  worker_tasks : gmap nat WorkerTask
}.

Inductive WorkerEvent : Type :=
  | WCall (task : nat) (user_input context_id : string)
  | WHandshakeDone (task : nat) (outcome : Result unit)
  | WResponse (task : nat) (response : Result string).

(** After [initialize_plugins] returned: up to the await of
    [get_response], or to the exception that ends the call. *)
Definition worker_after_init (user_input context_id : string)
    (self : Worker.Agent) : Worker.Agent * option WorkerTask :=
  match Worker.process_begin user_input context_id self with
  | (self', (_, Ok thread)) =>
      (self', Some (WAwaitingResponse user_input context_id thread))
  | (self', (_, Raise _)) => (self', None)
  end.

(** The loop of [initialize_plugins] over the urls still to do, up to the
    next awaited handshake. *)
Definition worker_continue (urls : list string) (user_input context_id : string)
    (self : Worker.Agent) : Worker.Agent * option WorkerTask :=
  match urls with
  | url :: rest =>
      (self, Some (WHandshaking (Worker.plugin_for self url) rest
                     user_input context_id))
  | [] =>
      worker_after_init user_input context_id (Worker.finish_initialization self)
  end.

Definition worker_enter (user_input context_id : string) (self : Worker.Agent)
  : Worker.Agent * option WorkerTask :=
  if Worker._plugins_initialized self
  then worker_after_init user_input context_id self
  else worker_continue (Worker.mcp_sse_urls self) user_input context_id self.

Definition set_task (task : nat) (status : option WorkerTask)
    (tasks : gmap nat WorkerTask) : gmap nat WorkerTask :=
  match status with
  | Some k => <[task := k]> tasks
  | None => delete task tasks
  end.

Definition worker_step (ev : WorkerEvent) (w : WorkerWorld) : option WorkerWorld :=
  match ev with
  | WCall task user_input context_id =>
      match worker_tasks w !! task with
      | Some _ => None
      | None =>
          let '(self, status) := worker_enter user_input context_id (worker w) in
          Some (mkWorkerWorld self (set_task task status (worker_tasks w)))
      end
  | WHandshakeDone task outcome =>
      match worker_tasks w !! task with
      | Some (WHandshaking plugin rest user_input context_id) =>
          match Worker.connect_resume plugin outcome (worker w) with
          | (self, (_, Ok _)) =>
              let '(self', status) :=
                worker_continue rest user_input context_id self in
              Some (mkWorkerWorld self' (set_task task status (worker_tasks w)))
          | (self, (_, Raise _)) =>
              Some (mkWorkerWorld self (delete task (worker_tasks w)))
          end
      | _ => None
      end
  | WResponse task response =>
      match worker_tasks w !! task with
      | Some (WAwaitingResponse user_input _ thread) =>
          Some (mkWorkerWorld
                  (final_state
                     (Worker.process_resume user_input thread response (worker w)))
                  (delete task (worker_tasks w)))
      | _ => None
      end
  end.

Definition task_context (k : WorkerTask) : string :=
  match k with
  | WHandshaking _ _ _ context_id => context_id
  | WAwaitingResponse _ context_id _ => context_id
  end.

Definition worker_event_context (w : WorkerWorld) (ev : WorkerEvent) : option string :=
  match ev with
  | WCall _ _ context_id => Some context_id
  | WHandshakeDone task _ | WResponse task _ =>
      match worker_tasks w !! task with
      | Some k => Some (task_context k)
      | None => None
      end
  end.

Fixpoint worker_run (evs : list WorkerEvent) (w : WorkerWorld) : option WorkerWorld :=
  match evs with
  | [] => Some w
  | ev :: rest =>
      match worker_step ev w with
      | Some w' => worker_run rest w'
      | None => None
      end
  end.

Definition worker_history (w : WorkerWorld) (context_id : string) : option ChatHistory :=
  history_of (Worker.conversations (worker w)) context_id.

Definition worker_wf (w : WorkerWorld) : Prop :=
  separated (Worker.conversations (worker w)) /\
  (forall task user_input context_id thread,
      worker_tasks w !! task = Some (WAwaitingResponse user_input context_id thread) ->
      history_store (Worker.conversations (worker w)) !! context_id
      = Some (chat_history thread)).

(** The events of one call of [process_request] that runs with nothing
    else in between: the call, the outcome of each handshake it awaits,
    and the outcome of the chat completion if it gets there. *)
Fixpoint worker_handshakes (handshake : Worker.Handshake) (task : nat)
    (urls : list string) (self : Worker.Agent) : list WorkerEvent :=
  match urls with
  | [] => []
  | url :: rest =>
      let plugin := Worker.plugin_for self url in
      WHandshakeDone task (handshake plugin) ::
      match Worker.connect_resume plugin (handshake plugin) self with
      | (self', (_, Ok _)) => worker_handshakes handshake task rest self'
      | (_, (_, Raise _)) => []
      end
  end.

Definition worker_call_events (handshake : Worker.Handshake)
    (service : ChatService Worker.MCPSsePlugin) (task : nat)
    (user_input context_id : string) (self : Worker.Agent) : list WorkerEvent :=
  WCall task user_input context_id ::
  ((if Worker._plugins_initialized self then []
    else worker_handshakes handshake task (Worker.mcp_sse_urls self) self)
   ++ match Worker.response_to handshake service user_input context_id self with
      | Some response => [WResponse task response]
      | None => []
      end)%list.

(** The events of one call of [orchestrate] that runs with nothing else in
    between. *)
Definition host_call_events (service : ChatService DynamicAgentTool) (task : nat)
    (user_input context_id : string) (self : Host.HostAgent) : list HostEvent :=
  HCall task user_input context_id ::
  match Host.response_to service user_input context_id self with
  | Some response => [HResponse task response]
  | None => []
  end.

(** All events of [evs], run from [w], belong to calls for context ids
    other than [b] (or to no call at all). *)
Fixpoint host_foreign (b : string) (evs : list HostEvent) (w : HostWorld) : Prop :=
  match evs with
  | [] => True
  | ev :: rest =>
      host_event_context w ev <> Some b /\
      match host_step ev w with
      | Some w' => host_foreign b rest w'
      | None => True
      end
  end.

Fixpoint worker_foreign (b : string) (evs : list WorkerEvent) (w : WorkerWorld) : Prop :=
  match evs with
  | [] => True
  | ev :: rest =>
      worker_event_context w ev <> Some b /\
      match worker_step ev w with
      | Some w' => worker_foreign b rest w'
      | None => True
      end
  end.

(** What a segment of a call for [cid] may do to the conversations. *)
Definition segment_ok (cid : string) (σ σ' : Conversations)
    (status : option WorkerTask) : Prop :=
  separated σ' /\
  (forall b, b <> cid -> history_of σ' b = history_of σ b) /\
  (forall a obj, history_store σ !! a = Some obj -> history_store σ' !! a = Some obj) /\
  (forall x c thread, status = Some (WAwaitingResponse x c thread) ->
                      history_store σ' !! c = Some (chat_history thread)) /\
  (forall k, status = Some k -> task_context k = cid).

(** The turns recorded for a context id; none when it has no history. *)
Definition turns (σ : Conversations) (context_id : string) : list ChatMessageContent :=
  match history_of σ context_id with
  | Some h => messages h
  | None => []
  end.

End Sched.

(* ===================================================================== *)
(** ** Shapes of a decoded reply                                          *)
(* ===================================================================== *)

Module Envelope.

(** [{"error": {"message": X, ...}, ...}]. *)
Inductive error_envelope : pyval -> string -> Prop :=
  | ErrorEnvelope d err message :
      dict_lookup "error" d = Some (PDict err) ->
      dict_lookup "message" err = Some (PStr message) ->
      error_envelope (PDict d) message.

(** [{"result": {"parts": [{"text": T, ...}, ...], ...}, ...}] without an
    ["error"] member. *)
Inductive success_envelope : pyval -> string -> Prop :=
  | SuccessEnvelope d r part rest text :
      dict_lookup "error" d = None ->
      dict_lookup "result" d = Some (PDict r) ->
      dict_lookup "parts" r = Some (PList (PDict part :: rest)) ->
      dict_lookup "text" part = Some (PStr text) ->
      success_envelope (PDict d) text.

(** A reply that is not an error envelope and has no result, a result
    without parts, or an empty list of parts. *)
Inductive textless_envelope : pyval -> Prop :=
  | NoResult d :
      dict_lookup "error" d = None ->
      dict_lookup "result" d = None ->
      textless_envelope (PDict d)
  | NoParts d r :
      dict_lookup "error" d = None ->
      dict_lookup "result" d = Some (PDict r) ->
      dict_lookup "parts" r = None ->
      textless_envelope (PDict d)
  | EmptyParts d r :
      dict_lookup "error" d = None ->
      dict_lookup "result" d = Some (PDict r) ->
      dict_lookup "parts" r = Some (PList []) ->
      textless_envelope (PDict d).

(** The value found at [result["result"]["parts"][0]["text"]], if the
    reply has one. *)
Definition reply_text (result : pyval) : option pyval :=
  match result with
  | PDict d =>
      match dict_lookup "result" d with
      | Some (PDict r) =>
          match dict_lookup "parts" r with
          | Some (PList (PDict part :: _)) => dict_lookup "text" part
          | _ => None
          end
      | _ => None
      end
  | _ => None
  end.

(** The text of a part is a [str], as the typed decoding of the A2A client
    has it. *)
Definition text_is_str (result : pyval) : Prop :=
  forall v, reply_text result = Some v -> is_str v = true.

(** The remote side raises only subclasses of [Exception], and replies
    with typed text. *)
Definition raises_only_exceptions {A : Type} (r : Result A) : Prop :=
  forall e, r = Raise e -> is_Exception (exn_class e) = true.

Definition remote_behaves (remote : Remote) : Prop :=
  (forall url, raises_only_exceptions (get_agent_card remote url)) /\
  (forall card request, raises_only_exceptions (send_message remote card request)) /\
  (forall card request result,
      send_message remote card request = Ok result -> text_is_str result).

(** The network operations of one proxy call on a tool, in terms of the
    url the tool was built for. *)
Definition routed_to (remote : Remote) (url user_input : string)
    (t : list NetEvent) : Prop :=
  t = [EvGetAgentCard url] \/
  exists card,
    get_agent_card remote url = Ok card /\
    t = [EvGetAgentCard url; EvSendMessage card (mkRequest "user" [user_input])].


End Envelope.
Export Envelope.

(* ===================================================================== *)
(** ** Concrete agents, endpoints and remote behaviours                   *)
(* ===================================================================== *)

Module Demo.

Definition plain_str (v : pyval) : string := "<" ++ type_name v ++ ">".

(** The class and the tool of the order agent, as
    [create_agent_tool_class] and the call of the class build them. *)
Definition order_class : ToolClass :=
  mkToolClass "OrderAgentTool" "Order Agent" "http://X" "Looks up orders"
    "check_order_status" "check_order_status"
    (mkKernelFunction "check_order_status"
       "Send a request to Order Agent: Looks up orders").

Definition order_tool : DynamicAgentTool :=
  mkTool order_class "http://X" "Order Agent" "Looks up orders" "check_order_status".

(** A validation in the manner of semantic-kernel: it refuses a kernel
    function whose name is empty or has a character other than letters,
    digits and [_]. *)
Definition kernel_name_ok (s : string) : bool :=
  negb (str_is_empty s) &&
  forallb (fun c => is_alnum c || Ascii.eqb c "_") (list_ascii_of_string s).

Definition kernel_checks : Host.AgentValidation :=
  fun _ plugins =>
    if forallb (fun t => kernel_name_ok (exposed_name t)) plugins then None
    else Some (mkExn (OtherException "FunctionInitializationError")
                 "Failed to create KernelFunctionMetadata").

Definition card_at (url : string) : Result AgentCard := Ok (mkCard "Order Agent" url).

(** A remote agent that publishes its card and answers with [reply]. *)
Definition replying (reply : Result pyval) : Remote :=
  mkRemote card_at (fun _ _ => reply).

(** A remote agent whose card cannot be fetched. *)
Definition unreachable (e : PyExn) : Remote :=
  mkRemote (fun _ => Raise e) (fun _ _ => Raise e).

Definition error_reply (message : string) : pyval :=
  PDict [("id", PStr "1"); ("jsonrpc", PStr "2.0");
         ("error", PDict [("code", PInt (-32603)); ("message", PStr message)])].

Definition success_reply (text : string) : pyval :=
  PDict [("id", PStr "1"); ("jsonrpc", PStr "2.0");
         ("result",
          PDict [("kind", PStr "message"); ("messageId", PStr "m1");
                 ("parts", PList [PDict [("kind", PStr "text"); ("text", PStr text)]]);
                 ("role", PStr "agent")])].

Definition empty_parts_reply : pyval :=
  PDict [("id", PStr "1"); ("jsonrpc", PStr "2.0");
         ("result",
          PDict [("kind", PStr "message"); ("messageId", PStr "m1");
                 ("parts", PList []); ("role", PStr "agent")])].


Definition order_endpoint : Host.Endpoint :=
  <["url" := "http://X"]> (<["name" := "Order Agent"]>
    (<["function_name" := "check_order_status"]>
      (<["description" := "Looks up orders"]> ∅))).

Definition csv_endpoint : Host.Endpoint :=
  <["url" := "http://localhost:5560"]> (<["name" := "CSV Agent"]>
    (<["function_name" := "analyze_csv_data"]>
      (<["description" := "Analyzes CSV files and provides data insights"]> ∅))).

(** A host agent with one tool, as [HostAgent.__init__] builds it. *)
Definition order_host : Host.HostAgent :=
  let agent_tools := [order_tool] in
  Host.mkHostAgent "Host Agent" "Coordinates agents" [order_endpoint]
    "Host_Agent" agent_tools "You are Host Agent."
    (mkChatAgent "Host_Agent" agent_tools) no_conversations.

(** A worker with one MCP url, before its first request. *)
Definition sql_worker : Worker.Agent :=
  Worker.__init__ "SQL Agent" "Runs SQL" (Some ["http://localhost:8000/sse"]) None.

Definition handshake_ok : Worker.Handshake := fun _ => Ok tt.

Definition echo_service {P : Type} : ChatService P :=
  fun _ message _ _ => Ok ("echo: " ++ message).

Definition failing_service {P : Type} : ChatService P :=
  fun _ _ _ _ => Raise (mkExn (OtherException "ServiceResponseException") "service failed").

(** The same worker after its first request initialised the plugins. *)
Definition sql_worker_ready : Worker.Agent := Eval vm_compute in
    final_state (Worker.initialize_plugins handshake_ok sql_worker).




(** Two calls for two context ids, and what happens while the second is
    suspended. *)
Definition two_calls : list Sched.HostEvent :=
  [Sched.HCall 1 "status of ORD1?" "ctx-a"; Sched.HCall 2 "refund ORD2" "ctx-b"].

Definition first_call_goes_on : list Sched.HostEvent :=
  [Sched.HResponse 1 (Ok "ORD1 shipped"); Sched.HCall 3 "and ORD3?" "ctx-a"].

Definition world_after_two_calls : Sched.HostWorld := Eval vm_compute in
    match Sched.host_run two_calls (Sched.mkHostWorld order_host ∅) with
    | Some w => w
    | None => Sched.mkHostWorld order_host ∅
    end.

Definition world_later : Sched.HostWorld := Eval vm_compute in
    match Sched.host_run first_call_goes_on world_after_two_calls with
    | Some w => w
    | None => world_after_two_calls
    end.

End Demo.

(* ===================================================================== *)
(** ** Shutdown, request execution and the server                         *)
(* ===================================================================== *)

(** [Agent.cleanup] of [src/a2a_azure/agent.py],
    [A2AAgentExecutor] of [src/a2a_azure/agent_executor.py] and
    [run_agent_server] of [src/a2a_azure/server.py]. *)

Module Serving.

(** What the life cycle of a served agent does, in order: network
    operations, and the [__aexit__] of a plugin. *)
Inductive ServerEvent : Type :=
  | SvNet (ev : NetEvent)
  | SvPluginExit (plugin : Worker.MCPSsePlugin).

(** The outcome of [await plugin.__aexit__(None, None, None)]. *)
Definition Closer : Type := Worker.MCPSsePlugin -> Result unit.

(** The loop of [Agent.cleanup], lines 143-148: a failure of one plugin is
    logged and the loop goes on. *)
Fixpoint close_plugins (close : Closer) (plugins : list Worker.MCPSsePlugin)
  : list ServerEvent * Result unit :=
  match plugins with
  | [] => ([], Ok tt)
  | plugin :: rest =>
      match close plugin with
      | Ok _ =>
          let '(t, r) := close_plugins close rest in (SvPluginExit plugin :: t, r)
      | Raise e =>
          if is_Exception (exn_class e)
          then let '(t, r) := close_plugins close rest in
               (SvPluginExit plugin :: t, r)
          else ([SvPluginExit plugin], Raise e)
      end
  end.

(** [Agent.cleanup], lines 141-148. No attribute of the agent is
    assigned. *)
Definition cleanup (close : Closer) (self : Worker.Agent)
  : list ServerEvent * Result unit :=
  close_plugins close (Worker.mcp_plugins self).

(** A task of the A2A server; only its identity matters here. *)
Record Task : Type := mkTask { task_id : string }.

(** The [RequestContext] handed to an executor: [get_user_input()],
    [current_task], [context_id] and the raw [message]. *)
Record RequestContext : Type := mkContext {
  user_input : string;
  current_task : option Task;
  context_id : string;
  message : string
}.

(** What [event_queue.enqueue_event] receives. *)
Inductive QueueEvent : Type :=
  | QTask (task : Task)
  | QTextMessage (text : string).

(** The outcome of one [execute]: the agent, the network operations, the
    events enqueued, and the result. *)
Record Execution : Type := mkExecution {
  exec_agent : Worker.Agent;
  exec_net : list NetEvent;
  exec_queue : list QueueEvent;
  exec_result : Result unit
}.

(** [A2AAgentExecutor.execute], lines 28-55. [new_task] is the SDK
    function of that name; the event queue is taken to accept every
    event. *)
Definition execute (new_task : string -> Task) (handshake : Worker.Handshake)
    (service : ChatService Worker.MCPSsePlugin) (context : RequestContext)
    (agent : Worker.Agent) : Execution :=
  let enqueued :=
    match current_task context with
    | Some _ => []
    | None => [QTask (new_task (message context))]
    end in
  match Worker.process_request handshake service (user_input context)
          (context_id context) agent with
  | (agent', (t, Ok result)) =>
      mkExecution agent' t (enqueued ++ [QTextMessage result])%list (Ok tt)
  | (agent', (t, Raise e)) =>
      if is_Exception (exn_class e)
      then mkExecution agent' t
             (enqueued ++ [QTextMessage ("Error: " ++ exn_str e)])%list (Ok tt)
      else mkExecution agent' t enqueued (Raise e)
  end.

(** [A2AAgentExecutor.cancel], lines 57-62. *)
Definition cancel : Result unit :=
  Raise (mkExn (OtherException "Exception") "Cancel operation not supported.").




End Serving.

(* ===================================================================== *)
(** ** Predicates on names and histories                                  *)
(* ===================================================================== *)

Module Shape.

(** Every character of [s] satisfies [p]. *)
Fixpoint all_chars (p : ascii -> bool) (s : string) : bool :=
  match s with
  | EmptyString => true
  | String c s' => p c && all_chars p s'
  end.

(** Every history of [σ'] continues the history [σ] has for the same
    context id: same preamble, the old turns first. *)
Definition continues (σ σ' : Conversations) : Prop :=
  forall b h,
    history_of σ b = Some h ->
    exists h',
      history_of σ' b = Some h' /\
      Conv.system_message h' = Conv.system_message h /\
      messages h `prefix_of` messages h'.

(** Every history of [σ] has the preamble [preamble]. *)
Definition seeded_with (preamble : string) (σ : Conversations) : Prop :=
  forall b h, history_of σ b = Some h -> Conv.system_message h = preamble.

(** The two ways the agents change the conversations: a get-or-create
    with the agent's preamble, and the append of a message. *)
Inductive evolves (preamble : string) : Conversations -> Conversations -> Prop :=
  | evolves_refl σ : evolves preamble σ σ
  | evolves_create σ σ' context_id :
      evolves preamble σ σ' ->
      evolves preamble σ (get_or_create preamble context_id σ').2
  | evolves_append σ σ' obj m :
      evolves preamble σ σ' ->
      evolves preamble σ (append_message obj m σ').

(** The name of the class built for a descriptor. *)
Definition class_of (endpoint : Host.Endpoint) : string :=
  class_name (Host.endpoint_get endpoint "name" "").

(** A descriptor whose function name is not empty and not of the form
    [__x__]. *)
Definition ordinary (endpoint : Host.Endpoint) : Prop :=
  ordinary_function_name (Host.endpoint_get endpoint "function_name" "") = true.

(** A descriptor whose function name Python stores in the class as an
    attribute like any other. *)
Definition stored (endpoint : Host.Endpoint) : Prop :=
  attribute_effect (class_of endpoint)
    (Host.endpoint_get endpoint "function_name" "") = StoredOnly.

(** The history object and the conversations a call of [orchestrate] with
    a non-empty input hands to the chat completion. *)
Definition thread_for (self : Host.HostAgent) (context_id : string)
  : ChatHistoryAgentThread :=
  mkThread (get_or_create (Host.system_message self) context_id
              (Host.conversations self)).1.

Definition conversations_at_completion (self : Host.HostAgent)
    (user_input context_id : string) : Conversations :=
  append_message
    (get_or_create (Host.system_message self) context_id (Host.conversations self)).1
    (mkMessage "user" user_input)
    (get_or_create (Host.system_message self) context_id (Host.conversations self)).2.


End Shape.
Export Shape.

(* ===================================================================== *)
(** ** Further agents, replies and servers                                *)
(* ===================================================================== *)

Module Scenario.

Definition connection_refused : PyExn :=
  mkExn (OtherException "ConnectError") "All connection attempts failed".

Definition cancelled : PyExn := mkExn (BaseExceptionOnly "CancelledError") "".

(** A reply whose first part is not a text part. *)
Definition data_part_reply : pyval :=
  PDict [("id", PStr "1"); ("jsonrpc", PStr "2.0");
         ("result",
          PDict [("kind", PStr "message");
                 ("parts", PList [PDict [("kind", PStr "data")]]);
                 ("role", PStr "agent")])].

(** An endpoint without [function_name]. *)
Definition unnamed_function_endpoint : Host.Endpoint :=
  <["url" := "http://localhost:5560"]> (<["name" := "CSV Agent"]> ∅).

(** Endpoints whose function names are the names of special attributes
    of a class, and one whose function name has a space. *)
Definition init_named_endpoint : Host.Endpoint :=
  <["url" := "http://Z"]> (<["name" := "Init Agent"]>
    (<["function_name" := "__init__"]> ∅)).

Definition name_named_endpoint : Host.Endpoint :=
  <["url" := "http://Z"]> (<["name" := "Name Agent"]>
    (<["function_name" := "__name__"]> ∅)).

Definition spaced_endpoint : Host.Endpoint :=
  <["url" := "http://Z"]> (<["name" := "Order Agent"]>
    (<["function_name" := "check order"]> ∅)).

(** An agent whose name gives the class name of the order agent. *)
Definition order_twin_endpoint : Host.Endpoint :=
  <["url" := "http://Y"]> (<["name" := "Order-Agent"]>
    (<["function_name" := "check_order_twin"]> ∅)).

(** The tool [add_agent_endpoint] builds for the CSV agent. *)
Definition csv_tool : DynamicAgentTool :=
  mkTool
    (mkToolClass "CSVAgentTool" "CSV Agent" "http://localhost:5560"
       "Analyzes CSV files" "analyze_csv_data" "analyze_csv_data"
       (mkKernelFunction "analyze_csv_data"
          "Send a request to CSV Agent: Analyzes CSV files"))
    "http://localhost:5560" "CSV Agent" "Analyzes CSV files" "analyze_csv_data".

(** A second agent behind the function name of the order agent. *)
Definition order_mirror_endpoint : Host.Endpoint :=
  <["url" := "http://Y"]> (<["name" := "Order Mirror"]>
    (<["function_name" := "check_order_status"]> ∅)).

(** The host agent of [Demo.order_endpoint] with the default system
    message. *)
Definition described_host : Host.HostAgent := Eval vm_compute in
    match Host.__init__ Demo.kernel_checks "Host Agent" "Coordinates agents"
            (Some [Demo.order_endpoint]) None with
    | Ok self => self
    | Raise _ => Demo.order_host
    end.

(** One request to the worker, from the call to the response. *)
Definition one_request : list Sched.WorkerEvent :=
  [Sched.WCall 1 "count the orders" "ctx-a";
   Sched.WHandshakeDone 1 (Ok tt);
   Sched.WResponse 1 (Ok "42 orders")].

Definition worker_after_one_request : Sched.WorkerWorld := Eval vm_compute in
    match Sched.worker_run one_request (Sched.mkWorkerWorld Demo.sql_worker ∅) with
    | Some w => w
    | None => Sched.mkWorkerWorld Demo.sql_worker ∅
    end.

Definition cancelled_service {P : Type} : ChatService P :=
  fun _ _ _ _ => Raise cancelled.

Definition close_ok : Serving.Closer := fun _ => Ok tt.

(** A plugin whose [__aexit__] is cancelled. *)
Definition close_cancelled : Serving.Closer := fun _ => Raise cancelled.

Definition task_of (message : string) : Serving.Task := Serving.mkTask ("task-" ++ message).

Definition first_message : Serving.RequestContext :=
  Serving.mkContext "count the orders" None "ctx-a" "m1".



End Scenario.

(* ===================================================================== *)
(** * Properties                                                          *)
(* ===================================================================== *)

(** ** Strings *)

Lemma startswith_app (p s : string) : startswith p (p ++ s) = true.
Proof.
  induction p as [|c p IH]; simpl; [reflexivity|].
  rewrite Ascii.eqb_refl. exact IH.
Qed.

Lemma str_contains_here (p s : string) :
  startswith p s = true -> str_contains p s = true.
Proof. intros H. destruct s; simpl in *; rewrite H; reflexivity. Qed.

Lemma str_contains_app_r (p a b : string) :
  str_contains p b = true -> str_contains p (a ++ b) = true.
Proof.
  intros H. induction a as [|c a IH]; simpl; [exact H|].
  rewrite IH. apply orb_true_r.
Qed.

Lemma str_contains_middle (p a b : string) : str_contains p (a ++ p ++ b) = true.
Proof. apply str_contains_app_r, str_contains_here, startswith_app. Qed.

(** ** The dynamic operations raise ordinary exceptions only *)

Lemma py_in_exception key v e :
  py_in key v = Raise e -> is_Exception (exn_class e) = true.
Proof. destruct v; simpl; intros H; inversion H; reflexivity. Qed.

Lemma py_getitem_exception v key e :
  py_getitem v key = Raise e -> is_Exception (exn_class e) = true.
Proof.
  destruct v; simpl; try (intros H; inversion H; reflexivity).
  destruct (dict_lookup key entries); intros H; inversion H; reflexivity.
Qed.

Lemma py_getitem0_exception v e :
  py_getitem0 v = Raise e -> is_Exception (exn_class e) = true.
Proof.
  destruct v as [| | | |[|]|[|]|]; simpl; intros H; inversion H; reflexivity.
Qed.

Lemma py_len_exception v e :
  py_len v = Raise e -> is_Exception (exn_class e) = true.
Proof. destruct v; simpl; intros H; inversion H; reflexivity. Qed.

Lemma py_get_exception v key d e :
  py_get v key d = Raise e -> is_Exception (exn_class e) = true.
Proof.
  destruct v; simpl; try (intros H; inversion H; reflexivity).
  destruct (dict_lookup key entries); intros H; inversion H.
Qed.

Lemma rbind_raise {A B : Type} (m : Result A) (f : A -> Result B) e :
  rbind m f = Raise e -> m = Raise e \/ exists a, m = Ok a /\ f a = Raise e.
Proof. destruct m; simpl; eauto. intros H; left; congruence. Qed.

Ltac raise_cases H :=
  repeat match type of H with
  | rbind _ _ = Raise _ =>
      apply rbind_raise in H; destruct H as [H | (? & ? & H)]
  | (if ?c then _ else _) = Raise _ => destruct c
  | and_then _ _ = Raise _ => unfold and_then in H
  end.

Ltac ok_cases :=
  simpl; unfold dict_has; simpl; try discriminate;
  try (let H := fresh in intros H; inversion H; eauto; fail).

(** ** The remote agent proxy *)

Section ProxyFacts.

Variable render : pyval -> string.

Lemma decode_reply_exception self result e :
  decode_reply render self result = Raise e -> is_Exception (exn_class e) = true.
Proof.
  unfold decode_reply. intros H.
  raise_cases H;
    first [ discriminate
          | exact (py_in_exception _ _ _ H)
          | exact (py_getitem_exception _ _ _ H)
          | exact (py_getitem0_exception _ _ H)
          | exact (py_len_exception _ _ H)
          | exact (py_get_exception _ _ _ _ H) ].
Qed.

(** What the decoding returns is one of its own messages or the text
    member of the first part. *)
Lemma decode_reply_value self result v :
  decode_reply render self result = Ok v ->
  (exists s, v = PStr s) \/ reply_text result = Some v.
Proof.
  unfold decode_reply, and_then, reply_text.
  destruct result as [| | | |s|l|d]; ok_cases.
  - destruct (str_contains "error" s); ok_cases.
    destruct (str_contains "result" s); ok_cases.
  - destruct (existsb (eq_str "error") l); ok_cases.
    destruct (existsb (eq_str "result") l); ok_cases.
  - destruct (dict_lookup "error" d) as [err|]; ok_cases.
    + destruct err; ok_cases.
      destruct (dict_lookup "message" entries); ok_cases.
    + destruct (dict_lookup "result" d) as [r|]; ok_cases.
      destruct r as [| | | |s|l|r]; ok_cases.
      * destruct (str_contains "parts" s); ok_cases.
      * destruct (existsb (eq_str "parts") l); ok_cases.
      * destruct (dict_lookup "parts" r) as [parts|]; ok_cases.
        destruct parts as [| | | |[|c s]|[|part rest]|[|entry ps]]; ok_cases.
        destruct part; ok_cases.
        destruct (dict_lookup "text" entries); ok_cases.
Qed.

Lemma decode_reply_error self d err message :
  dict_lookup "error" d = Some (PDict err) ->
  dict_lookup "message" err = Some (PStr message) ->
  decode_reply render self (PDict d)
  = Ok (PStr ("Error from " ++ agent_name self ++ " agent: " ++ message)).
Proof.
  intros Hd Herr. unfold decode_reply. simpl. unfold dict_has.
  rewrite Hd. simpl. rewrite Herr. reflexivity.
Qed.

Lemma decode_reply_success self result text :
  success_envelope result text ->
  decode_reply render self result = Ok (PStr text).
Proof.
  intros [d r part rest t He Hr Hp Ht].
  unfold decode_reply, and_then. simpl. unfold dict_has.
  rewrite He, Hr. simpl. unfold dict_has. rewrite Hp. simpl.
  rewrite Ht. reflexivity.
Qed.

Lemma decode_reply_textless self result :
  textless_envelope result ->
  decode_reply render self result
  = Ok (PStr ("Error: Unexpected response format from "
              ++ agent_name self ++ " agent")).
Proof.
  intros [d He Hr | d r He Hr Hp | d r He Hr Hp];
    unfold decode_reply, and_then; simpl; unfold dict_has;
    rewrite He, Hr; simpl; try reflexivity;
    unfold dict_has; rewrite Hp; reflexivity.
Qed.

Lemma handle_exception_returns self e :
  is_Exception (exn_class e) = true ->
  exists s, handle_exception self e = ([], Ok (PStr s)).
Proof.
  intros He. unfold handle_exception.
  destruct (is_ReadTimeout (exn_class e)); [eexists; reflexivity|].
  rewrite He. eexists; reflexivity.
Qed.

(** The three ways a proxy call can go. *)
Lemma send_to_agent_discovery_fails remote self user_input e :
  get_agent_card remote (agent_url self) = Raise e ->
  _send_to_agent render remote self user_input
  = ([EvGetAgentCard (agent_url self)] ++ (handle_exception self e).1,
     (handle_exception self e).2)%list.
Proof.
  intros H. unfold _send_to_agent, io_net, io_bind, try_except. rewrite H.
  destruct (handle_exception self e); reflexivity.
Qed.

Lemma send_to_agent_send_fails remote self user_input card e :
  get_agent_card remote (agent_url self) = Ok card ->
  send_message remote card (mkRequest "user" [user_input]) = Raise e ->
  _send_to_agent render remote self user_input
  = ([EvGetAgentCard (agent_url self);
      EvSendMessage card (mkRequest "user" [user_input])]
       ++ (handle_exception self e).1,
     (handle_exception self e).2)%list.
Proof.
  intros Hc Hs. unfold _send_to_agent, io_net, io_bind, try_except.
  rewrite Hc, Hs. simpl. destruct (handle_exception self e); reflexivity.
Qed.

Lemma send_to_agent_replied remote self user_input card result :
  get_agent_card remote (agent_url self) = Ok card ->
  send_message remote card (mkRequest "user" [user_input]) = Ok result ->
  _send_to_agent render remote self user_input
  = match decode_reply render self result with
    | Ok v =>
        ([EvGetAgentCard (agent_url self);
          EvSendMessage card (mkRequest "user" [user_input])], Ok v)
    | Raise e =>
        ([EvGetAgentCard (agent_url self);
          EvSendMessage card (mkRequest "user" [user_input])]
           ++ (handle_exception self e).1,
         (handle_exception self e).2)%list
    end.
Proof.
  intros Hc Hs. unfold _send_to_agent, io_net, io_bind, io_lift, try_except.
  rewrite Hc, Hs. simpl.
  destruct (decode_reply render self result) as [v|e]; simpl; [reflexivity|].
  destruct (handle_exception self e); reflexivity.
Qed.

(** No path through the proxy repeats a network operation. *)
Lemma send_to_agent_routed remote self user_input :
  routed_to remote (agent_url self) user_input
    (io_trace (_send_to_agent render remote self user_input)).
Proof.
  assert (Hh : forall e, (handle_exception self e).1 = []).
  { intros e. unfold handle_exception.
    destruct (is_ReadTimeout _); [reflexivity|].
    destruct (is_Exception _); reflexivity. }
  destruct (get_agent_card remote (agent_url self)) as [card|e] eqn:Hc.
  - right. exists card. split; [exact Hc|].
    destruct (send_message remote card (mkRequest "user" [user_input]))
      as [result|e] eqn:Hs.
    + rewrite (send_to_agent_replied _ _ _ _ _ Hc Hs).
      destruct (decode_reply render self result); unfold io_trace; simpl;
        [reflexivity|]. rewrite Hh. reflexivity.
    + rewrite (send_to_agent_send_fails _ _ _ _ _ Hc Hs).
      unfold io_trace; simpl. rewrite Hh. reflexivity.
  - left. rewrite (send_to_agent_discovery_fails _ _ _ _ Hc).
    unfold io_trace; simpl. rewrite Hh. reflexivity.
Qed.


(** C3. Whatever the remote endpoint does -- an error envelope, a success
    envelope, a reply of any other shape, a timeout or any other
    exception, at discovery or at the send -- [_send_to_agent] returns a
    [str] and raises nothing. The remote side is any pair of oracles that
    raise subclasses of [Exception] and whose text parts, where a reply
    has one, are strings. *)
Theorem send_to_agent_returns_string (remote : Remote) (self : DynamicAgentTool)
    (user_input : string) :
  remote_behaves remote ->
  exists s, io_result (_send_to_agent render remote self user_input) = Ok (PStr s).
Proof.
  intros (Hcard & Hsend & Htext).
  destruct (get_agent_card remote (agent_url self)) as [card|e] eqn:Hc.
  - destruct (send_message remote card (mkRequest "user" [user_input]))
      as [result|e] eqn:Hs.
    + rewrite (send_to_agent_replied _ _ _ _ _ Hc Hs).
      destruct (decode_reply render self result) as [v|e] eqn:Hd.
      * destruct (decode_reply_value _ _ _ Hd) as [[s ->] | Hv];
          [exists s; reflexivity|].
        specialize (Htext _ _ _ Hs _ Hv).
        destruct v; try discriminate. eexists; reflexivity.
      * destruct (handle_exception_returns self e) as [s Hs'];
          [eapply decode_reply_exception; eauto|].
        rewrite Hs'. exists s; reflexivity.
    + rewrite (send_to_agent_send_fails _ _ _ _ _ Hc Hs).
      destruct (handle_exception_returns self e) as [s Hs']; [eapply Hsend; eauto|].
      rewrite Hs'. exists s; reflexivity.
  - rewrite (send_to_agent_discovery_fails _ _ _ _ Hc).
    destruct (handle_exception_returns self e) as [s Hs']; [eapply Hcard; eauto|].
    rewrite Hs'. exists s; reflexivity.
Qed.

(** C4, as the code has it. When the decoded reply is a well-formed error
    envelope with message X, the proxy returns the string
    "Error from <agent name> agent: X" and raises nothing. *)
Theorem error_envelope_message (remote : Remote) (self : DynamicAgentTool)
    (user_input : string) (card : AgentCard) (result : pyval) (message : string) :
  get_agent_card remote (agent_url self) = Ok card ->
  send_message remote card (mkRequest "user" [user_input]) = Ok result ->
  error_envelope result message ->
  io_result (_send_to_agent render remote self user_input)
  = Ok (PStr ("Error from " ++ agent_name self ++ " agent: " ++ message)).
Proof.
  intros Hc Hs Henv.
  rewrite (send_to_agent_replied _ _ _ _ _ Hc Hs).
  destruct Henv as [d err m Hd Herr].
  rewrite (decode_reply_error self d err m Hd Herr). reflexivity.
Qed.


(** C6. For a reply that is not an error envelope: when it is a
    well-formed success envelope the proxy returns the text of the first
    part; when it has no result, no parts or an empty list of parts the
    proxy returns "Error: Unexpected response format from <agent name>
    agent". Neither case raises. *)
Theorem success_envelope_first_text (remote : Remote) (self : DynamicAgentTool)
    (user_input : string) (card : AgentCard) (result : pyval) :
  get_agent_card remote (agent_url self) = Ok card ->
  send_message remote card (mkRequest "user" [user_input]) = Ok result ->
  (forall text,
      success_envelope result text ->
      io_result (_send_to_agent render remote self user_input) = Ok (PStr text)) /\
  (textless_envelope result ->
   exists s,
     io_result (_send_to_agent render remote self user_input) = Ok (PStr s) /\
     s = "Error: Unexpected response format from " ++ agent_name self ++ " agent" /\
     startswith "Error: Unexpected response format" s = true /\
     str_contains (agent_name self) s = true).
Proof.
  intros Hc Hs. rewrite (send_to_agent_replied _ _ _ _ _ Hc Hs). split.
  - intros text Hok. rewrite (decode_reply_success self result text Hok).
    reflexivity.
  - intros Hno. rewrite (decode_reply_textless self result Hno).
    eexists. split; [reflexivity|]. split; [reflexivity|]. split.
    + reflexivity.
    + apply str_contains_middle.
Qed.

End ProxyFacts.

(** ** Conversation histories *)

Import Sched.

Lemma fresh_not_in_heap (σ : Conversations) : heap σ !! fresh (dom (heap σ)) = None.
Proof. apply not_elem_of_dom, is_fresh. Qed.

Lemma get_or_create_seen s cid σ obj :
  history_store σ !! cid = Some obj -> get_or_create s cid σ = (obj, σ).
Proof. intros H. unfold get_or_create. rewrite H. reflexivity. Qed.

Lemma get_or_create_unseen s cid σ :
  history_store σ !! cid = None ->
  get_or_create s cid σ
  = (fresh (dom (heap σ)),
     mkConversations (<[cid := fresh (dom (heap σ))]> (history_store σ))
       (<[fresh (dom (heap σ)) := mkHistory s []]> (heap σ))).
Proof. intros H. unfold get_or_create. rewrite H. reflexivity. Qed.

Lemma get_or_create_lookup s cid σ :
  history_store (get_or_create s cid σ).2 !! cid = Some (get_or_create s cid σ).1.
Proof.
  unfold get_or_create.
  destruct (history_store σ !! cid) eqn:H; simpl; [exact H|].
  apply lookup_insert_eq.
Qed.

Lemma get_or_create_again s s' cid σ :
  get_or_create s' cid (get_or_create s cid σ).2 = get_or_create s cid σ.
Proof.
  rewrite (get_or_create_seen s' cid _ _ (get_or_create_lookup s cid σ)).
  destruct (get_or_create s cid σ); reflexivity.
Qed.

Lemma get_or_create_separated s cid σ :
  separated σ -> separated (get_or_create s cid σ).2.
Proof.
  intros [Hinj Hex]. unfold get_or_create.
  destruct (history_store σ !! cid) eqn:H; simpl; [split; assumption|].
  pose proof (fresh_not_in_heap σ) as Hf.
  split; simpl.
  - intros a b oa ob Ha Hb Hab.
    destruct (decide (cid = a)) as [<-|Hna]; destruct (decide (cid = b)) as [<-|Hnb];
      try congruence.
    + rewrite lookup_insert_eq in Ha. rewrite lookup_insert_ne in Hb by done.
      inversion Ha; subst. intros <-. destruct (Hex _ _ Hb) as [h Hh]. congruence.
    + rewrite lookup_insert_eq in Hb. rewrite lookup_insert_ne in Ha by done.
      inversion Hb; subst. intros ->. destruct (Hex _ _ Ha) as [h Hh]. congruence.
    + rewrite lookup_insert_ne in Ha by done. rewrite lookup_insert_ne in Hb by done.
      eauto.
  - intros a obj Ha. destruct (decide (cid = a)) as [<-|Hna].
    + rewrite lookup_insert_eq in Ha. inversion Ha; subst.
      rewrite lookup_insert_eq. eauto.
    + rewrite lookup_insert_ne in Ha by done.
      destruct (Hex _ _ Ha) as [h Hh].
      rewrite lookup_insert_ne by congruence. eauto.
Qed.

Lemma get_or_create_frame s cid σ b :
  separated σ -> b <> cid ->
  history_of (get_or_create s cid σ).2 b = history_of σ b.
Proof.
  intros [Hinj Hex] Hb. unfold get_or_create, history_of.
  destruct (history_store σ !! cid) eqn:H; simpl; [reflexivity|].
  rewrite lookup_insert_ne by congruence.
  destruct (history_store σ !! b) as [ob|] eqn:Hob; [|reflexivity].
  destruct (Hex _ _ Hob) as [h Hh].
  pose proof (fresh_not_in_heap σ) as Hf.
  rewrite lookup_insert_ne by congruence. reflexivity.
Qed.

Lemma append_message_separated obj m σ :
  separated σ -> separated (append_message obj m σ).
Proof.
  intros [Hinj Hex]. split; simpl; [exact Hinj|].
  intros a o Ha. destruct (Hex _ _ Ha) as [h Hh].
  destruct (decide (obj = o)) as [->|Hne].
  - rewrite lookup_alter_eq, Hh. simpl. eauto.
  - rewrite lookup_alter_ne by done. eauto.
Qed.

Lemma append_message_frame a obj m σ b :
  separated σ -> history_store σ !! a = Some obj -> b <> a ->
  history_of (append_message obj m σ) b = history_of σ b.
Proof.
  intros [Hinj Hex] Ha Hb. unfold history_of, append_message. simpl.
  destruct (history_store σ !! b) as [ob|] eqn:Hob; [|reflexivity].
  rewrite lookup_alter_ne; [reflexivity|].
  intros ->. exact (Hinj _ _ _ _ Hob Ha Hb eq_refl).
Qed.

Lemma append_message_own a obj m σ h :
  history_store σ !! a = Some obj -> heap σ !! obj = Some h ->
  history_of (append_message obj m σ) a
  = Some (mkHistory (Conv.system_message h) (messages h ++ [m])).
Proof.
  intros Ha Hh. unfold history_of, append_message. simpl.
  rewrite Ha, lookup_alter_eq, Hh. reflexivity.
Qed.

Lemma turn_begin_empty s cid σ :
  turn_begin s "" cid σ = (σ, ([], Raise empty_input_error)).
Proof. reflexivity. Qed.

Lemma turn_begin_nonempty s x cid σ :
  str_is_empty x = false ->
  turn_begin s x cid σ
  = (append_message (get_or_create s cid σ).1 (mkMessage "user" x)
       (get_or_create s cid σ).2,
     ([], Ok (mkThread (get_or_create s cid σ).1))).
Proof.
  intros Hx. unfold turn_begin, act_bind, act_raise, act_ret, act_modify, io_ret.
  rewrite Hx. destruct (get_or_create s cid σ); reflexivity.
Qed.

Lemma turn_end_spec thread c σ :
  turn_end thread c σ
  = (append_message (chat_history thread) (mkMessage "assistant" c) σ, ([], Ok c)).
Proof. reflexivity. Qed.

Lemma get_or_create_keeps s cid σ a obj :
  history_store σ !! a = Some obj ->
  history_store (get_or_create s cid σ).2 !! a = Some obj.
Proof.
  intros Ha. unfold get_or_create.
  destruct (history_store σ !! cid) eqn:H; simpl; [exact Ha|].
  rewrite lookup_insert_ne; [exact Ha|]. intros <-. congruence.
Qed.

(** The conversation part of the two phases of a turn. *)
Lemma turn_begin_cases s x cid σ :
  (str_is_empty x = true /\ turn_begin s x cid σ = (σ, ([], Raise empty_input_error)))
  \/ (str_is_empty x = false /\
      turn_begin s x cid σ
      = (append_message (get_or_create s cid σ).1 (mkMessage "user" x)
           (get_or_create s cid σ).2,
         ([], Ok (mkThread (get_or_create s cid σ).1)))).
Proof.
  destruct (str_is_empty x) eqn:Hx.
  - left. split; [reflexivity|]. destruct x; [reflexivity|discriminate].
  - right. split; [reflexivity|]. apply turn_begin_nonempty, Hx.
Qed.

Lemma turn_begin_separated s x cid σ :
  separated σ -> separated (turn_begin s x cid σ).1.
Proof.
  intros H. destruct (turn_begin_cases s x cid σ) as [[_ ->] | [_ ->]]; simpl;
    [exact H|].
  apply append_message_separated, get_or_create_separated, H.
Qed.

Lemma turn_begin_frame s x cid σ b :
  separated σ -> b <> cid ->
  history_of (turn_begin s x cid σ).1 b = history_of σ b.
Proof.
  intros H Hb. destruct (turn_begin_cases s x cid σ) as [[_ ->] | [_ ->]]; simpl;
    [reflexivity|].
  rewrite (append_message_frame cid) by
    (auto using get_or_create_separated, get_or_create_lookup).
  apply get_or_create_frame; assumption.
Qed.

Lemma turn_begin_keeps s x cid σ a obj :
  history_store σ !! a = Some obj ->
  history_store (turn_begin s x cid σ).1 !! a = Some obj.
Proof.
  intros Ha. destruct (turn_begin_cases s x cid σ) as [[_ ->] | [_ ->]]; simpl;
    [exact Ha|]. apply get_or_create_keeps, Ha.
Qed.

Lemma turn_begin_thread s x cid σ thread :
  (turn_begin s x cid σ).2.2 = Ok thread ->
  history_store (turn_begin s x cid σ).1 !! cid = Some (chat_history thread).
Proof.
  destruct (turn_begin_cases s x cid σ) as [[_ ->] | [_ ->]]; simpl;
    [discriminate|].
  intros H; inversion H; subst; simpl. apply get_or_create_lookup.
Qed.

Lemma turn_begin_silent s x cid σ : (turn_begin s x cid σ).2.1 = [].
Proof. destruct (turn_begin_cases s x cid σ) as [[_ ->] | [_ ->]]; reflexivity. Qed.

(** *** The host agent *)


Lemma host_begin_spec x cid self :
  Host.orchestrate_begin x cid self
  = (Host.set_conversations
       (turn_begin (Host.system_message self) x cid (Host.conversations self)).1 self,
     (turn_begin (Host.system_message self) x cid (Host.conversations self)).2).
Proof.
  unfold Host.orchestrate_begin, act_bind, act_get, act_zoom, io_ret.
  destruct (turn_begin _ _ _ _) as [σ' [t [thread|e]]]; reflexivity.
Qed.

Lemma host_resume_ok x thread c self :
  Host.orchestrate_resume x thread (Ok c) self
  = (Host.set_conversations
       (append_message (chat_history thread) (mkMessage "assistant" c)
          (Host.conversations self)) self,
     ([EvChatCompletion (Host.agent_id self) x], Ok c)).
Proof. reflexivity. Qed.

Lemma host_resume_raise x thread e self :
  Host.orchestrate_resume x thread (Raise e) self
  = (self, ([EvChatCompletion (Host.agent_id self) x], Raise e)).
Proof. reflexivity. Qed.

(** Whatever [add_agent_endpoint] does, it leaves the conversations, the
    system message, the id and the chat agent as they were. *)
Lemma add_agent_endpoint_keeps url n f d self :
  Host.conversations (Host.add_agent_endpoint url n f d self).1
  = Host.conversations self /\
  Host.system_message (Host.add_agent_endpoint url n f d self).1
  = Host.system_message self /\
  Host.agent_id (Host.add_agent_endpoint url n f d self).1 = Host.agent_id self /\
  Host.chat_agent (Host.add_agent_endpoint url n f d self).1 = Host.chat_agent self.
Proof.
  unfold Host.add_agent_endpoint.
  destruct (rbind (create_agent_tool_class n url d f) _) as [t|e]; simpl;
    split_and!; reflexivity.
Qed.

Lemma host_step_wf ev w w' :
  host_wf w -> host_step ev w = Some w' -> host_wf w'.
Proof.
  intros [Hsep Htasks] Hstep.
  destruct ev as [task x cid | task response | url n f d]; simpl in Hstep.
  - destruct (host_tasks w !! task) eqn:Ht; [discriminate|].
    rewrite host_begin_spec in Hstep.
    pose proof (turn_begin_separated (Host.system_message (host w)) x cid _ Hsep) as Hsep'.
    pose proof (turn_begin_thread (Host.system_message (host w)) x cid
                  (Host.conversations (host w))) as Hth.
    pose proof (turn_begin_keeps (Host.system_message (host w)) x cid
                  (Host.conversations (host w))) as Hkeep.
    destruct (turn_begin _ _ _ _) as [σ' [t [thread|e]]]; simpl in *;
      inversion Hstep; subst; split; simpl; auto.
    + intros task' x' cid' thread' Hl.
      destruct (decide (task = task')) as [<-|Hne].
      * rewrite lookup_insert_eq in Hl. inversion Hl; subst. auto.
      * rewrite lookup_insert_ne in Hl by done. eauto.
    + intros task' x' cid' thread' Hl. eauto.
  - destruct (host_tasks w !! task) as [[x cid thread]|] eqn:Ht; [|discriminate].
    inversion Hstep; subst. clear Hstep.
    destruct response as [c|e].
    + rewrite host_resume_ok. unfold final_state; simpl. split; simpl.
      * apply append_message_separated, Hsep.
      * intros task' x' cid' thread' Hl.
        apply lookup_delete_Some in Hl as [_ Hl]. eauto.
    + rewrite host_resume_raise. unfold final_state; simpl. split; [exact Hsep|].
      intros task' x' cid' thread' Hl. simpl in Hl.
      apply lookup_delete_Some in Hl as [_ Hl]. eauto.
  - inversion Hstep; subst.
    destruct (add_agent_endpoint_keeps url n f d (host w)) as (Hc & _).
    split; simpl; rewrite Hc; auto.
Qed.

Lemma host_step_frame ev w w' b :
  host_wf w -> host_step ev w = Some w' ->
  host_event_context w ev <> Some b ->
  host_history w' b = host_history w b.
Proof.
  intros [Hsep Htasks] Hstep Hctx. unfold host_history.
  destruct ev as [task x cid | task response | url n f d]; simpl in Hstep, Hctx.
  - destruct (host_tasks w !! task) eqn:Ht; [discriminate|].
    rewrite host_begin_spec in Hstep.
    assert (Hb : b <> cid) by congruence.
    pose proof (turn_begin_frame (Host.system_message (host w)) x cid _ b Hsep Hb) as Hfr.
    destruct (turn_begin _ _ _ _) as [σ' [t [thread|e]]]; simpl in *;
      inversion Hstep; subst; simpl; exact Hfr.
  - destruct (host_tasks w !! task) as [[x cid thread]|] eqn:Ht; [|discriminate].
    inversion Hstep; subst. clear Hstep.
    destruct response as [c|e].
    + rewrite host_resume_ok. unfold final_state; simpl.
      apply (append_message_frame cid); eauto. congruence.
    + rewrite host_resume_raise. reflexivity.
  - inversion Hstep; subst. simpl.
    destruct (add_agent_endpoint_keeps url n f d (host w)) as (-> & _).
    reflexivity.
Qed.

Lemma host_run_wf evs : forall w w',
  host_wf w -> host_run evs w = Some w' -> host_wf w'.
Proof.
  induction evs as [|ev evs IH]; simpl; intros w w' Hwf Hrun.
  - inversion Hrun; subst; exact Hwf.
  - destruct (host_step ev w) as [w1|] eqn:Hs; [|discriminate].
    eapply IH; [|exact Hrun]. eapply host_step_wf; eauto.
Qed.

Lemma host_run_frame b evs : forall w w',
  host_wf w -> host_foreign b evs w -> host_run evs w = Some w' ->
  host_history w' b = host_history w b.
Proof.
  induction evs as [|ev evs IH]; simpl; intros w w' Hwf Hfor Hrun.
  - inversion Hrun; subst; reflexivity.
  - destruct Hfor as [Hctx Hfor].
    destruct (host_step ev w) as [w1|] eqn:Hs; [|discriminate].
    rewrite (IH w1 w') by eauto using host_step_wf.
    eapply host_step_frame; eauto.
Qed.

Lemma separated_empty : separated no_conversations.
Proof.
  split; simpl; intros *; rewrite lookup_empty; discriminate.
Qed.

Lemma host_fresh_wf self :
  Host.conversations self = no_conversations -> host_wf (mkHostWorld self ∅).
Proof.
  intros H. split; simpl.
  - rewrite H. apply separated_empty.
  - intros *. rewrite lookup_empty. discriminate.
Qed.

(** *** The worker agent *)


Lemma worker_begin_spec x cid self :
  Worker.process_begin x cid self
  = match Worker.chat_agent self with
    | None => (self, ([], Raise Worker.not_initialized_error))
    | Some _ =>
        (Worker.set_conversations
           (turn_begin (Worker.system_message self) x cid
              (Worker.conversations self)).1 self,
         (turn_begin (Worker.system_message self) x cid
            (Worker.conversations self)).2)
    end.
Proof.
  unfold Worker.process_begin, act_bind, act_get, act_zoom, act_raise, io_ret, io_raise.
  destruct (Worker.chat_agent self); [|reflexivity].
  destruct (turn_begin _ _ _ _) as [σ' [t [thread|e]]]; reflexivity.
Qed.

Lemma worker_resume_ok x thread c self :
  Worker.process_resume x thread (Ok c) self
  = (Worker.set_conversations
       (append_message (chat_history thread) (mkMessage "assistant" c)
          (Worker.conversations self)) self,
     ([EvChatCompletion (Worker.agent_id self) x], Ok c)).
Proof. reflexivity. Qed.

Lemma worker_resume_raise x thread e self :
  Worker.process_resume x thread (Raise e) self
  = (self, ([EvChatCompletion (Worker.agent_id self) x], Raise e)).
Proof. reflexivity. Qed.

Lemma connect_resume_conversations plugin outcome self :
  Worker.conversations (Worker.connect_resume plugin outcome self).1
  = Worker.conversations self.
Proof.
  unfold Worker.connect_resume, act_try, act_bind, act_await, act_modify, io_net.
  destruct outcome as [[]|e]; simpl; [reflexivity|].
  destruct (is_Exception (exn_class e)); reflexivity.
Qed.

Lemma worker_after_init_ok x cid self :
  separated (Worker.conversations self) ->
  segment_ok cid (Worker.conversations self)
    (Worker.conversations (worker_after_init x cid self).1)
    (worker_after_init x cid self).2.
Proof.
  intros Hsep. unfold worker_after_init. rewrite worker_begin_spec.
  destruct (Worker.chat_agent self); simpl.
  - pose proof (turn_begin_separated (Worker.system_message self) x cid _ Hsep) as H1.
    pose proof (fun b => turn_begin_frame (Worker.system_message self) x cid _ b Hsep) as H2.
    pose proof (turn_begin_keeps (Worker.system_message self) x cid
                  (Worker.conversations self)) as H3.
    pose proof (turn_begin_thread (Worker.system_message self) x cid
                  (Worker.conversations self)) as H4.
    destruct (turn_begin _ _ _ _) as [σ' [t [thread|e]]]; simpl in *;
      unfold segment_ok; split_and!; auto; try (intros; discriminate).
    + intros x' c' thread' Heq. inversion Heq; subst. auto.
    + intros k Heq. inversion Heq; subst. reflexivity.
  - unfold segment_ok; split_and!; auto; intros; discriminate.
Qed.

Lemma worker_continue_ok urls x cid self :
  separated (Worker.conversations self) ->
  segment_ok cid (Worker.conversations self)
    (Worker.conversations (worker_continue urls x cid self).1)
    (worker_continue urls x cid self).2.
Proof.
  intros Hsep. destruct urls as [|url rest]; simpl.
  - apply (worker_after_init_ok x cid (Worker.finish_initialization self)), Hsep.
  - unfold segment_ok; split_and!; auto; try (intros; discriminate).
    intros k Heq. inversion Heq; subst. reflexivity.
Qed.

Lemma worker_enter_ok x cid self :
  separated (Worker.conversations self) ->
  segment_ok cid (Worker.conversations self)
    (Worker.conversations (worker_enter x cid self).1)
    (worker_enter x cid self).2.
Proof.
  intros Hsep. unfold worker_enter.
  destruct (Worker._plugins_initialized self);
    auto using worker_after_init_ok, worker_continue_ok.
Qed.

Lemma set_task_wf task status (tasks : gmap nat WorkerTask) σ σ' cid :
  segment_ok cid σ σ' status ->
  (forall t x c thread,
      tasks !! t = Some (WAwaitingResponse x c thread) ->
      history_store σ !! c = Some (chat_history thread)) ->
  forall t x c thread,
    set_task task status tasks !! t = Some (WAwaitingResponse x c thread) ->
    history_store σ' !! c = Some (chat_history thread).
Proof.
  intros (_ & _ & Hkeep & Hnew & _) Hold t x c thread Hl.
  destruct status as [k|]; simpl in Hl.
  - destruct (decide (task = t)) as [<-|Hne].
    + rewrite lookup_insert_eq in Hl. inversion Hl; subst. eauto.
    + rewrite lookup_insert_ne in Hl by done. eauto.
  - apply lookup_delete_Some in Hl as [_ Hl]. eauto.
Qed.

Lemma worker_step_ok ev w w' :
  worker_wf w -> worker_step ev w = Some w' ->
  worker_wf w' /\
  forall b, worker_event_context w ev <> Some b ->
            worker_history w' b = worker_history w b.
Proof.
  intros [Hsep Htasks] Hstep. unfold worker_history.
  destruct ev as [task x cid | task outcome | task response]; simpl in Hstep.
  - destruct (worker_tasks w !! task) eqn:Ht; [discriminate|].
    pose proof (worker_enter_ok x cid (worker w) Hsep) as Hok.
    destruct (worker_enter x cid (worker w)) as [self status]; simpl in *.
    inversion Hstep; subst; simpl. split.
    + split; simpl; [apply Hok|]. eapply set_task_wf; eauto.
    + intros b Hb. apply Hok. congruence.
  - destruct (worker_tasks w !! task) as [[plugin rest x cid|]|] eqn:Ht;
      try discriminate.
    pose proof (connect_resume_conversations plugin outcome (worker w)) as Hc.
    destruct (Worker.connect_resume plugin outcome (worker w)) as [self [t [[]|e]]];
      simpl in *.
    + assert (Hsep1 : separated (Worker.conversations self)) by (rewrite Hc; exact Hsep).
      pose proof (worker_continue_ok rest x cid self Hsep1) as Hok.
      destruct (worker_continue rest x cid self) as [self' status]; simpl in *.
      rewrite Hc in Hok.
      inversion Hstep; subst; simpl. split.
      * split; simpl; [apply Hok|]. eapply set_task_wf; eauto.
      * intros b Hb. apply Hok. rewrite Ht in Hb. simpl in Hb. congruence.
    + inversion Hstep; subst; simpl. rewrite Hc. split; [|reflexivity].
      split; simpl; [rewrite Hc; exact Hsep|].
      intros t' x' c' thread' Hl. rewrite Hc.
      apply lookup_delete_Some in Hl as [_ Hl]. eauto.
  - destruct (worker_tasks w !! task) as [[|x cid thread]|] eqn:Ht;
      try discriminate.
    inversion Hstep; subst. clear Hstep.
    destruct response as [c|e].
    + rewrite worker_resume_ok. unfold final_state; simpl. split.
      * split; simpl; [apply append_message_separated, Hsep|].
        intros t' x' c' thread' Hl.
        apply lookup_delete_Some in Hl as [_ Hl]. eauto.
      * intros b Hb. rewrite Ht in Hb. simpl in Hb.
        apply (append_message_frame cid); eauto. congruence.
    + rewrite worker_resume_raise. unfold final_state; simpl. split; [|reflexivity].
      split; [exact Hsep|].
      intros t' x' c' thread' Hl. simpl in Hl.
      apply lookup_delete_Some in Hl as [_ Hl]. eauto.
Qed.

Lemma worker_run_wf evs : forall w w',
  worker_wf w -> worker_run evs w = Some w' -> worker_wf w'.
Proof.
  induction evs as [|ev evs IH]; simpl; intros w w' Hwf Hrun.
  - inversion Hrun; subst; exact Hwf.
  - destruct (worker_step ev w) as [w1|] eqn:Hs; [|discriminate].
    eapply IH; [|exact Hrun]. eapply worker_step_ok; eauto.
Qed.

Lemma worker_run_frame b evs : forall w w',
  worker_wf w -> worker_foreign b evs w -> worker_run evs w = Some w' ->
  worker_history w' b = worker_history w b.
Proof.
  induction evs as [|ev evs IH]; simpl; intros w w' Hwf Hfor Hrun.
  - inversion Hrun; subst; reflexivity.
  - destruct Hfor as [Hctx Hfor].
    destruct (worker_step ev w) as [w1|] eqn:Hs; [|discriminate].
    destruct (worker_step_ok _ _ _ Hwf Hs) as [Hwf1 Hfr].
    rewrite (IH w1 w') by eauto. apply Hfr, Hctx.
Qed.

Lemma worker_fresh_wf self :
  Worker.conversations self = no_conversations -> worker_wf (mkWorkerWorld self ∅).
Proof.
  intros H. split; simpl.
  - rewrite H. apply separated_empty.
  - intros *. rewrite lookup_empty. discriminate.
Qed.

(** *** A call that runs alone

    With nothing scheduled in between, the events of one call take the
    world to the state [orchestrate] (or [process_request]) computes. *)

Lemma orchestrate_as_events service x cid self (tasks : gmap nat HostTask) task :
  tasks !! task = None ->
  host_run (host_call_events service task x cid self) (mkHostWorld self tasks)
  = Some (mkHostWorld (final_state (Host.orchestrate service x cid self)) tasks).
Proof.
  intros Hfree.
  unfold host_call_events, Host.response_to, Host.orchestrate, act_bind, act_get,
    io_ret.
  simpl. rewrite Hfree.
  destruct (Host.orchestrate_begin x cid self) as [self1 [t [thread|e]]]; simpl;
    [|reflexivity].
  rewrite lookup_insert_eq. unfold final_state.
  destruct (Host.orchestrate_resume x thread _ self1) as [self2 [t2 r2]]. simpl.
  rewrite delete_insert_id by exact Hfree. reflexivity.
Qed.

Lemma set_task_again task status k (tasks : gmap nat WorkerTask) :
  tasks !! task = None ->
  set_task task status (<[task := k]> tasks) = set_task task status tasks.
Proof.
  intros H. destruct status as [k'|]; simpl.
  - apply insert_insert_eq.
  - rewrite delete_insert_id by exact H. symmetry. apply delete_id, H.
Qed.

Lemma connect_plugin_resume handshake url self :
  Worker.connect_plugin handshake url self
  = Worker.connect_resume (Worker.plugin_for self url)
      (handshake (Worker.plugin_for self url)) self.
Proof.
  unfold Worker.connect_plugin, act_bind, act_get, io_ret. simpl.
  destruct (Worker.connect_resume _ _ self) as [s [t r]]. reflexivity.
Qed.

Section WorkerAlone.

Variables (handshake : Worker.Handshake) (task : nat) (x cid : string).
Variable tasks : gmap nat WorkerTask.
Hypothesis Hfree : tasks !! task = None.

Lemma worker_loop_alone tail urls : forall self,
  worker_run (worker_handshakes handshake task urls self ++ tail)
    (mkWorkerWorld (worker_continue urls x cid self).1
       (set_task task (worker_continue urls x cid self).2 tasks))
  = match Worker.connect_all handshake urls self with
    | (s2, (_, Ok _)) =>
        worker_run tail
          (mkWorkerWorld
             (worker_after_init x cid (Worker.finish_initialization s2)).1
             (set_task task
                (worker_after_init x cid (Worker.finish_initialization s2)).2 tasks))
    | (s2, (_, Raise _)) => worker_run tail (mkWorkerWorld s2 tasks)
    end.
Proof.
  induction urls as [|url rest IH]; intros self.
  - reflexivity.
  - cbn [worker_handshakes worker_continue fst snd set_task Worker.connect_all app
         worker_run worker_step worker_tasks worker].
    rewrite lookup_insert_eq.
    unfold act_bind. rewrite connect_plugin_resume.
    destruct (Worker.connect_resume _ _ self) as [s1 [t1 [[]|e]]].
    + specialize (IH s1).
      destruct (worker_continue rest x cid s1) as [s' status] eqn:Hcont.
      simpl in IH. rewrite (set_task_again _ _ _ _ Hfree). rewrite IH.
      destruct (Worker.connect_all handshake rest s1) as [s2 [t2 [[]|e]]];
        reflexivity.
    + rewrite delete_insert_id by exact Hfree. reflexivity.
Qed.

Lemma worker_tail_alone service self :
  worker_run
    match Worker.response_after_init service x cid self with
    | Some response => [WResponse task response]
    | None => []
    end
    (mkWorkerWorld (worker_after_init x cid self).1
       (set_task task (worker_after_init x cid self).2 tasks))
  = Some (mkWorkerWorld
            (final_state (Worker.process_after_init service x cid self)) tasks).
Proof.
  unfold worker_after_init, Worker.response_after_init, Worker.process_after_init,
    act_bind, act_get, io_ret.
  destruct (Worker.process_begin x cid self) as [s1 [t1 [thread|e]]]; simpl.
  - rewrite lookup_insert_eq. unfold final_state.
    destruct (Worker.process_resume x thread _ s1) as [s2 [t2 r2]]. simpl.
    rewrite delete_insert_id by exact Hfree. reflexivity.
  - rewrite delete_id by exact Hfree. reflexivity.
Qed.

End WorkerAlone.

Lemma worker_call_step x cid self (tasks : gmap nat WorkerTask) task :
  tasks !! task = None ->
  worker_step (WCall task x cid) (mkWorkerWorld self tasks)
  = Some (mkWorkerWorld (worker_enter x cid self).1
            (set_task task (worker_enter x cid self).2 tasks)).
Proof.
  intros Hfree. simpl. rewrite Hfree.
  destruct (worker_enter x cid self); reflexivity.
Qed.

Lemma process_request_as_events handshake service x cid self
    (tasks : gmap nat WorkerTask) task :
  tasks !! task = None ->
  worker_run (worker_call_events handshake service task x cid self)
    (mkWorkerWorld self tasks)
  = Some (mkWorkerWorld
            (final_state (Worker.process_request handshake service x cid self))
            tasks).
Proof.
  intros Hfree. unfold worker_call_events.
  cbn [worker_run]. rewrite (worker_call_step _ _ _ _ _ Hfree).
  unfold worker_enter, Worker.response_to, Worker.process_request,
    Worker.initialize_plugins, act_bind, act_get, act_ret, act_modify, io_ret.
  cbn [fst snd].
  destruct (Worker._plugins_initialized self) eqn:Hi.
  - cbn [app].
    rewrite (worker_tail_alone task x cid tasks Hfree service self).
    unfold final_state.
    destruct (Worker.process_after_init service x cid self) as [s3 [t3 r3]].
    reflexivity.
  - rewrite (worker_loop_alone handshake task x cid tasks Hfree).
    destruct (Worker.connect_all handshake (Worker.mcp_sse_urls self) self)
      as [s2 [t2 [[]|e]]].
    + rewrite (worker_tail_alone task x cid tasks Hfree service
                 (Worker.finish_initialization s2)).
      unfold final_state.
      destruct (Worker.process_after_init service x cid
                  (Worker.finish_initialization s2)) as [s3 [t3 r3]].
      reflexivity.
    + reflexivity.
Qed.

(** *** A completed call and the other conversations *)

Lemma orchestrate_frame service x a b self :
  separated (Host.conversations self) -> a <> b ->
  separated (Host.conversations (final_state (Host.orchestrate service x a self))) /\
  history_of (Host.conversations (final_state (Host.orchestrate service x a self))) b
  = history_of (Host.conversations self) b.
Proof.
  intros Hsep Hab.
  assert (Hwf : host_wf (mkHostWorld self ∅)).
  { split; [exact Hsep|]. intros *. simpl. rewrite lookup_empty. discriminate. }
  pose proof (orchestrate_as_events service x a self ∅ 0 (lookup_empty _)) as Hrun.
  split.
  - apply (host_run_wf _ _ _ Hwf Hrun).
  - apply (host_run_frame b _ _ _ Hwf) in Hrun; [exact Hrun|].
    unfold host_call_events, Host.response_to. simpl.
    split; [congruence|].
    destruct (Host.orchestrate_begin x a self) as [s1 [t1 [thread|e]]]; simpl;
      [|exact I].
    rewrite lookup_empty. cbn [host_tasks host]. rewrite lookup_insert_eq.
    split; [congruence|exact I].
Qed.

Lemma worker_handshakes_foreign handshake task x a b (tasks : gmap nat WorkerTask)
    tail urls : forall self,
  a <> b ->
  tasks !! task = None ->
  (forall w, worker_tasks w !! task = None \/
             (exists k, worker_tasks w !! task = Some k /\ task_context k = a) ->
             worker_foreign b tail w) ->
  worker_foreign b (worker_handshakes handshake task urls self ++ tail)
    (mkWorkerWorld (worker_continue urls x a self).1
       (set_task task (worker_continue urls x a self).2 tasks)).
Proof.
  intros self Hab Hfree Htail. revert self.
  induction urls as [|url rest IH]; intros self.
  - simpl. apply Htail. simpl.
    unfold worker_after_init.
    destruct (Worker.process_begin x a (Worker.finish_initialization self))
      as [s1 [t1 [thread|e]]]; simpl.
    + right. eexists. rewrite lookup_insert_eq. split; reflexivity.
    + left. apply lookup_delete_eq.
  - cbn [worker_handshakes worker_continue fst snd set_task app worker_foreign
         worker_event_context worker_step worker_tasks worker].
    rewrite lookup_insert_eq. split; [simpl; congruence|].
    destruct (Worker.connect_resume _ _ self) as [s1 [t1 [[]|e]]].
    + specialize (IH s1).
      destruct (worker_continue rest x a s1) as [s' status].
      rewrite (set_task_again _ _ _ _ Hfree). exact IH.
    + simpl. apply Htail. left. simpl. apply lookup_delete_eq.
Qed.

Lemma worker_response_foreign b task response (w : WorkerWorld) a :
  a <> b ->
  worker_tasks w !! task = None \/
  (exists k, worker_tasks w !! task = Some k /\ task_context k = a) ->
  worker_foreign b [WResponse task response] w.
Proof.
  intros Hab Hw. simpl. split.
  - destruct Hw as [-> | (k & -> & Hk)]; congruence.
  - destruct (worker_tasks w !! task) as [[|]|]; exact I.
Qed.

Lemma process_request_frame handshake service x a b self :
  separated (Worker.conversations self) -> a <> b ->
  separated
    (Worker.conversations
       (final_state (Worker.process_request handshake service x a self))) /\
  history_of
    (Worker.conversations
       (final_state (Worker.process_request handshake service x a self))) b
  = history_of (Worker.conversations self) b.
Proof.
  intros Hsep Hab.
  assert (Hwf : worker_wf (mkWorkerWorld self ∅)).
  { split; [exact Hsep|]. intros *. simpl. rewrite lookup_empty. discriminate. }
  pose proof (process_request_as_events handshake service x a self ∅ 0
                (lookup_empty _)) as Hrun.
  split.
  - apply (worker_run_wf _ _ _ Hwf Hrun).
  - apply (worker_run_frame b _ _ _ Hwf) in Hrun; [exact Hrun|].
    unfold worker_call_events.
    cbn [worker_foreign worker_event_context].
    split; [congruence|].
    rewrite (worker_call_step _ _ _ _ _ (lookup_empty _)).
    assert (Htail : forall w,
      worker_tasks w !! 0 = None \/
      (exists k, worker_tasks w !! 0 = Some k /\ task_context k = a) ->
      worker_foreign b
        match Worker.response_to handshake service x a self with
        | Some response => [WResponse 0 response]
        | None => []
        end w).
    { intros w Hw. destruct (Worker.response_to _ _ _ _ _); [|exact I].
      eapply worker_response_foreign; eauto. }
    unfold worker_enter. destruct (Worker._plugins_initialized self).
    + cbn [app]. apply Htail. unfold worker_after_init.
      destruct (Worker.process_begin x a self) as [s1 [t1 [thread|e]]]; simpl.
      * right. eexists. rewrite lookup_insert_eq. split; reflexivity.
      * left. apply lookup_delete_eq.
    + apply worker_handshakes_foreign;
        [exact Hab | apply lookup_empty | exact Htail].
Qed.

(** ** Conversations across calls *)

(** C1. Calls of [orchestrate] (and of [process_request]) for distinct
    context ids never touch each other's conversation. A completed call
    for context [a] leaves the history of every other context [b] as it
    was and keeps distinct context ids on distinct history objects. The
    same holds when calls are interleaved in any way at their suspension
    points: in every world reachable from a freshly built agent, distinct
    context ids denote distinct history objects, and any further run of
    events that all belong to calls for context ids other than [b] leaves
    the history of [b] exactly as it was. *)
Theorem interleaved_contexts_do_not_interfere :
  (forall service x (a b : string) (self : Host.HostAgent),
      separated (Host.conversations self) -> a <> b ->
      separated
        (Host.conversations (final_state (Host.orchestrate service x a self))) /\
      history_of
        (Host.conversations (final_state (Host.orchestrate service x a self))) b
      = history_of (Host.conversations self) b) /\
  (forall handshake service x (a b : string) (self : Worker.Agent),
      separated (Worker.conversations self) -> a <> b ->
      separated
        (Worker.conversations
           (final_state (Worker.process_request handshake service x a self))) /\
      history_of
        (Worker.conversations
           (final_state (Worker.process_request handshake service x a self))) b
      = history_of (Worker.conversations self) b) /\
  (forall (self : Host.HostAgent) (evs evs' : list HostEvent) (w w' : HostWorld)
          (b : string),
      Host.conversations self = no_conversations ->
      host_run evs (mkHostWorld self ∅) = Some w ->
      separated (Host.conversations (host w)) /\
      (host_foreign b evs' w -> host_run evs' w = Some w' ->
       host_history w' b = host_history w b)) /\
  (forall (self : Worker.Agent) (evs evs' : list WorkerEvent) (w w' : WorkerWorld)
          (b : string),
      Worker.conversations self = no_conversations ->
      worker_run evs (mkWorkerWorld self ∅) = Some w ->
      separated (Worker.conversations (worker w)) /\
      (worker_foreign b evs' w -> worker_run evs' w = Some w' ->
       worker_history w' b = worker_history w b)).
Proof.
  split_and!.
  - intros. apply orchestrate_frame; assumption.
  - intros. apply process_request_frame; assumption.
  - intros self evs evs' w w' b Hnew Hrun.
    assert (Hwf : host_wf w)
      by (eapply host_run_wf; [apply host_fresh_wf, Hnew | exact Hrun]).
    split; [apply Hwf|]. intros Hfor Hrun'. eapply host_run_frame; eauto.
  - intros self evs evs' w w' b Hnew Hrun.
    assert (Hwf : worker_wf w)
      by (eapply worker_run_wf; [apply worker_fresh_wf, Hnew | exact Hrun]).
    split; [apply Hwf|]. intros Hfor Hrun'. eapply worker_run_frame; eauto.
Qed.

Lemma interleaved_contexts_witness :
  Host.conversations Demo.order_host = no_conversations /\
  host_run Demo.two_calls (mkHostWorld Demo.order_host ∅)
  = Some Demo.world_after_two_calls /\
  host_foreign "ctx-b" Demo.first_call_goes_on Demo.world_after_two_calls /\
  host_run Demo.first_call_goes_on Demo.world_after_two_calls
  = Some Demo.world_later /\
  separated (Host.conversations (host Demo.world_after_two_calls)) /\
  host_history Demo.world_later "ctx-b"
  = host_history Demo.world_after_two_calls "ctx-b" /\
  host_history Demo.world_later "ctx-b"
  = Some (mkHistory "You are Host Agent." [mkMessage "user" "refund ORD2"]).
Proof.
  assert (Hnew : Host.conversations Demo.order_host = no_conversations)
    by reflexivity.
  assert (Hrun : host_run Demo.two_calls (mkHostWorld Demo.order_host ∅)
                 = Some Demo.world_after_two_calls) by (vm_compute; reflexivity).
  assert (Hfor : host_foreign "ctx-b" Demo.first_call_goes_on
                   Demo.world_after_two_calls)
    by (vm_compute; split_and!; try exact I; discriminate).
  assert (Hrun' : host_run Demo.first_call_goes_on Demo.world_after_two_calls
                  = Some Demo.world_later) by (vm_compute; reflexivity).
  destruct interleaved_contexts_do_not_interfere as (_ & _ & Hhost & _).
  destruct (Hhost Demo.order_host
              Demo.two_calls Demo.first_call_goes_on Demo.world_after_two_calls
              Demo.world_later "ctx-b" Hnew Hrun) as [Hsep Hframe].
  split_and!; auto; vm_compute; reflexivity.
Defined.

(** C9. Get-or-create is idempotent. The first access for an unseen
    context id allocates one new history object, seeded with the agent's
    system message and no turns, and stores it under the id; every later
    access with the same id returns that same object and changes nothing,
    and neither the creation of other conversations nor an append
    displaces it. *)
Theorem get_or_create_idempotent (system_message context_id : string)
    (σ : Conversations) :
  history_store σ !! context_id = None ->
  let obj := (get_or_create system_message context_id σ).1 in
  let σ1 := (get_or_create system_message context_id σ).2 in
  heap σ !! obj = None /\
  history_of σ1 context_id = Some (mkHistory system_message []) /\
  size (history_store σ1) = S (size (history_store σ)) /\
  size (heap σ1) = S (size (heap σ)) /\
  (forall preamble, get_or_create preamble context_id σ1 = (obj, σ1)) /\
  (forall σ2 preamble other,
      history_store σ2 !! context_id = Some obj ->
      history_store (get_or_create preamble other σ2).2 !! context_id = Some obj) /\
  (forall σ2 obj' m,
      history_store (append_message obj' m σ2) = history_store σ2).
Proof.
  intros Hnew obj σ1. subst obj σ1.
  rewrite (get_or_create_unseen _ _ _ Hnew). simpl.
  pose proof (fresh_not_in_heap σ) as Hfresh.
  split_and!.
  - exact Hfresh.
  - unfold history_of; simpl. rewrite !lookup_insert_eq. reflexivity.
  - apply map_size_insert_None, Hnew.
  - apply map_size_insert_None, Hfresh.
  - intros preamble. apply get_or_create_seen. simpl. apply lookup_insert_eq.
  - intros σ2 preamble other H. apply get_or_create_keeps, H.
  - reflexivity.
Qed.

Lemma get_or_create_idempotent_witness :
  history_store no_conversations !! "ctx-1" = None /\
  get_or_create "again" "ctx-1" (get_or_create "You are Host Agent." "ctx-1" no_conversations).2
  = get_or_create "You are Host Agent." "ctx-1" no_conversations.
Proof.
  split; [reflexivity|].
  destruct (get_or_create_idempotent "You are Host Agent." "ctx-1" no_conversations
              eq_refl) as (_ & _ & _ & _ & Hsame & _).
  rewrite (Hsame "again").
  destruct (get_or_create "You are Host Agent." "ctx-1" no_conversations); reflexivity.
Defined.

(** *** Plugin initialisation *)

Lemma connect_plugin_spec handshake url self :
  Worker.connect_plugin handshake url self
  = match handshake (Worker.plugin_for self url) with
    | Ok _ =>
        (Worker.add_plugin (Worker.plugin_for self url) self,
         ([EvPluginHandshake (Worker.plugin_name (Worker.plugin_for self url)) url], Ok tt))
    | Raise e =>
        (self,
         ([EvPluginHandshake (Worker.plugin_name (Worker.plugin_for self url)) url],
          if is_Exception (exn_class e) then Ok tt else Raise e))
    end.
Proof.
  unfold Worker.connect_plugin, Worker.connect_resume, act_bind, act_get, act_try,
    act_await, act_modify, act_ret, act_raise, io_net, io_ret, io_raise.
  simpl. destruct (handshake _) as [[]|e]; simpl; [reflexivity|].
  destruct (is_Exception (exn_class e)); reflexivity.
Qed.

Lemma connect_all_spec handshake urls : forall self,
  (forall p, raises_only_exceptions (handshake p)) ->
  let r := Worker.connect_all handshake urls self in
  result_of r = Ok tt /\
  Worker.conversations (final_state r) = Worker.conversations self /\
  List.length (trace_of r) = List.length urls /\
  forallb is_plugin_handshake (trace_of r) = true.
Proof.
  induction urls as [|url rest IH]; intros self Hok; simpl.
  - repeat split.
  - unfold act_bind. rewrite connect_plugin_spec.
    destruct (handshake (Worker.plugin_for self url)) as [[]|e] eqn:Hh.
    + specialize (IH (Worker.add_plugin (Worker.plugin_for self url) self) Hok).
      simpl in IH. destruct (Worker.connect_all handshake rest _) as [s2 [t2 r2]].
      unfold result_of, final_state, trace_of in *. simpl in *.
      destruct IH as (-> & Hc & Hl & Hf). rewrite Hc, Hl, Hf. repeat split.
    + rewrite (Hok _ _ Hh).
      specialize (IH self Hok).
      simpl in IH. destruct (Worker.connect_all handshake rest _) as [s2 [t2 r2]].
      unfold result_of, final_state, trace_of in *. simpl in *.
      destruct IH as (-> & Hc & Hl & Hf). rewrite Hc, Hl, Hf. repeat split.
Qed.

Lemma initialize_plugins_done handshake self :
  Worker._plugins_initialized self = true ->
  Worker.initialize_plugins handshake self = (self, ([], Ok tt)).
Proof.
  intros H. unfold Worker.initialize_plugins, act_bind, act_get, io_ret. simpl.
  rewrite H. reflexivity.
Qed.

Lemma initialize_plugins_first handshake self :
  Worker._plugins_initialized self = false ->
  (forall p, raises_only_exceptions (handshake p)) ->
  let r := Worker.initialize_plugins handshake self in
  result_of r = Ok tt /\
  Worker.conversations (final_state r) = Worker.conversations self /\
  is_Some (Worker.chat_agent (final_state r)) /\
  List.length (trace_of r) = List.length (Worker.mcp_sse_urls self) /\
  forallb is_plugin_handshake (trace_of r) = true.
Proof.
  intros Hi Hok. unfold Worker.initialize_plugins, act_bind, act_get, io_ret. simpl.
  rewrite Hi.
  pose proof (connect_all_spec handshake (Worker.mcp_sse_urls self) self Hok) as H.
  simpl in H. destruct (Worker.connect_all _ _ _) as [s2 [t2 r2]].
  unfold result_of, final_state, trace_of in *. simpl in *.
  destruct H as (-> & Hc & Hl & Hf). simpl.
  rewrite app_nil_r. split_and!; eauto.
Qed.




Lemma turn_begin_turns s x cid σ :
  separated σ -> str_is_empty x = false ->
  turns (turn_begin s x cid σ).1 cid = (turns σ cid ++ [mkMessage "user" x])%list.
Proof.
  intros [Hinj Hex] Hx. rewrite (turn_begin_nonempty _ _ _ _ Hx). simpl.
  unfold turns.
  destruct (history_store σ !! cid) as [obj|] eqn:Hs.
  - rewrite (get_or_create_seen _ _ _ _ Hs). simpl.
    destruct (Hex _ _ Hs) as [h Hh].
    rewrite (append_message_own cid obj _ σ h Hs Hh).
    unfold history_of. rewrite Hs, Hh. reflexivity.
  - rewrite (get_or_create_unseen _ _ _ Hs). simpl.
    erewrite (append_message_own cid); simpl;
      [| apply lookup_insert_eq | apply lookup_insert_eq ].
    unfold history_of. rewrite Hs. reflexivity.
Qed.

Lemma connect_all_conversations handshake urls : forall self,
  Worker.conversations (final_state (Worker.connect_all handshake urls self))
  = Worker.conversations self.
Proof.
  induction urls as [|url rest IH]; intros self; simpl; [reflexivity|].
  unfold act_bind. rewrite connect_plugin_spec.
  destruct (handshake (Worker.plugin_for self url)) as [[]|e].
  - specialize (IH (Worker.add_plugin (Worker.plugin_for self url) self)).
    destruct (Worker.connect_all handshake rest _) as [s2 [t2 r2]]. exact IH.
  - destruct (is_Exception (exn_class e)); [|reflexivity].
    specialize (IH self).
    destruct (Worker.connect_all handshake rest _) as [s2 [t2 r2]]. exact IH.
Qed.

Lemma initialize_plugins_conversations handshake self :
  Worker.conversations (final_state (Worker.initialize_plugins handshake self))
  = Worker.conversations self.
Proof.
  unfold Worker.initialize_plugins, act_bind, act_get, io_ret. simpl.
  destruct (Worker._plugins_initialized self); [reflexivity|].
  pose proof (connect_all_conversations handshake (Worker.mcp_sse_urls self) self) as H.
  destruct (Worker.connect_all _ _ _) as [s2 [t2 [[]|e]]]; exact H.
Qed.

(** C10. A turn is not atomic. When the chat completion awaited by
    [orchestrate] (or by [process_request]) raises, the exception reaches
    the caller and the history of the context keeps the user turn that
    was appended before: it has grown by exactly that one message, with
    no assistant turn and no rollback. *)
Theorem failed_completion_keeps_user_turn :
  (forall service user_input context_id self e,
      separated (Host.conversations self) ->
      Host.response_to service user_input context_id self = Some (Raise e) ->
      let r := Host.orchestrate service user_input context_id self in
      result_of r = Raise e /\
      turns (Host.conversations (final_state r)) context_id
      = (turns (Host.conversations self) context_id
         ++ [mkMessage "user" user_input])%list /\
      List.length (turns (Host.conversations (final_state r)) context_id)
      = S (List.length (turns (Host.conversations self) context_id))) /\
  (forall handshake service user_input context_id self e,
      separated (Worker.conversations self) ->
      Worker.response_to handshake service user_input context_id self
      = Some (Raise e) ->
      let r := Worker.process_request handshake service user_input context_id self in
      result_of r = Raise e /\
      turns (Worker.conversations (final_state r)) context_id
      = (turns (Worker.conversations self) context_id
         ++ [mkMessage "user" user_input])%list /\
      List.length (turns (Worker.conversations (final_state r)) context_id)
      = S (List.length (turns (Worker.conversations self) context_id))).
Proof.
  split.
  - intros service x cid self e Hsep Hresp r. subst r.
    unfold Host.response_to in Hresp. unfold Host.orchestrate, act_bind, act_get, io_ret.
    rewrite host_begin_spec in *.
    destruct (turn_begin_cases (Host.system_message self) x cid
                (Host.conversations self)) as [[Hx Hb] | [Hx Hb]].
    + rewrite Hb in Hresp. discriminate.
    + pose proof (turn_begin_turns (Host.system_message self) x cid _ Hsep Hx) as Ht.
      rewrite Hb in *. simpl in *. inversion Hresp as [Hr]. rewrite Hr.
      rewrite host_resume_raise. unfold result_of, final_state; simpl.
      rewrite Ht, length_app. simpl. split_and!; auto. lia.
  - intros handshake service x cid self e Hsep Hresp r. subst r.
    unfold Worker.response_to, Worker.response_after_init in Hresp.
    unfold Worker.process_request, Worker.process_after_init, act_bind, act_get,
      io_ret.
    pose proof (initialize_plugins_conversations handshake self) as Hconv.
    destruct (Worker.initialize_plugins handshake self) as [s0 [t0 [[]|e0]]];
      [|discriminate].
    unfold final_state in Hconv; simpl in Hconv.
    rewrite worker_begin_spec in *.
    destruct (Worker.chat_agent s0) as [agent|] eqn:Hagent; [|discriminate].
    rewrite Hconv in *.
    destruct (turn_begin_cases (Worker.system_message s0) x cid
                (Worker.conversations self)) as [[Hx Hb] | [Hx Hb]].
    + rewrite Hb in Hresp. discriminate.
    + pose proof (turn_begin_turns (Worker.system_message s0) x cid _ Hsep Hx) as Ht.
      rewrite Hb in *. simpl in *. inversion Hresp as [Hr]. rewrite Hr.
      rewrite worker_resume_raise. unfold result_of, final_state; simpl.
      rewrite Ht, length_app. simpl. split_and!; auto. lia.
Qed.

(** ** The tool registry *)

Lemma ordinary_attribute_stored (class_name f : string) :
  ordinary_function_name f = true -> attribute_effect class_name f = StoredOnly.
Proof.
  unfold ordinary_function_name. intros H.
  apply andb_prop in H as [_ H]. apply negb_true_iff in H.
  unfold attribute_effect, typed_type_attributes, readonly_type_attributes,
    creation_methods. simpl.
  repeat match goal with
         | |- context [String.eqb f ?s] =>
             destruct (String.eqb_spec f s) as [Heq|_];
             [rewrite Heq in H; vm_compute in H; discriminate H|]; simpl
         end.
  reflexivity.
Qed.

Lemma decorate_ordinary (n d f : string) :
  ordinary_function_name f = true ->
  decorate n d f = mkKernelFunction f ("Send a request to " ++ n ++ ": " ++ d).
Proof.
  unfold ordinary_function_name, decorate. intros H.
  apply andb_prop in H as [H _]. apply negb_true_iff in H. rewrite H. reflexivity.
Qed.

(** The tool an ordinary function name yields. *)
Lemma tool_built (n u d f : string) :
  ordinary_function_name f = true ->
  (tool_class <~ create_agent_tool_class n u d f ;; instantiate tool_class)
  = Ok (mkTool
          (mkToolClass (class_name n) n u d f f
             (mkKernelFunction f ("Send a request to " ++ n ++ ": " ++ d)))
          u n d f).
Proof.
  intros H. unfold create_agent_tool_class.
  rewrite (ordinary_attribute_stored _ _ H), (decorate_ordinary _ _ _ H). simpl.
  unfold instantiate. simpl. rewrite (ordinary_attribute_stored _ _ H). reflexivity.
Qed.

Lemma check_function_names_ok (endpoints : list Host.Endpoint) :
  Forall Host.has_keys endpoints -> Host.check_function_names endpoints = Ok tt.
Proof.
  induction 1 as [|ep eps (_ & _ & [f Hf]) _ IH]; simpl; [reflexivity|].
  rewrite Hf. exact IH.
Qed.

Lemma make_tool_ok (endpoint : Host.Endpoint) :
  Host.has_keys endpoint -> ordinary endpoint ->
  exists t,
    Host.make_tool endpoint = Ok t /\
    endpoint !! "function_name" = Some (exposed_name t) /\
    endpoint !! "function_name" = Some (function_name t) /\
    endpoint !! "name" = Some (agent_name t) /\
    endpoint !! "url" = Some (agent_url t) /\
    exposed_description t
    = "Send a request to " ++ Host.endpoint_get endpoint "name" ""
      ++ ": " ++ Host.endpoint_get endpoint "description" "" /\
    cls_name (tool_class t) = class_of endpoint.
Proof.
  intros ([n Hn] & [u Hu] & [f Hf]) Hord.
  unfold ordinary, class_of, Host.endpoint_get in *. rewrite ?Hf, ?Hn in *.
  unfold Host.make_tool, Host.endpoint_getitem, Host.endpoint_get.
  rewrite Hn, Hu, Hf. simpl.
  pose proof (tool_built n u
                match endpoint !! "description" with Some v => v | None => "" end
                f Hord) as Hbuilt.
  rewrite Hbuilt.
  eexists. split; [reflexivity|]. split_and!; reflexivity.
Qed.

Lemma make_tools_ok (endpoints : list Host.Endpoint) :
  Forall Host.has_keys endpoints -> Forall ordinary endpoints ->
  exists tools,
    Host.make_tools endpoints = Ok tools /\
    List.length tools = List.length endpoints /\
    map (fun t => cls_name (tool_class t)) tools = map class_of endpoints /\
    forall i ep, endpoints !! i = Some ep ->
      exists t, tools !! i = Some t /\ Host.make_tool ep = Ok t.
Proof.
  induction 1 as [|ep eps Hep _ IH]; intros Hord; simpl.
  - exists []. split_and!; auto. intros i ep Hi. rewrite lookup_nil in Hi. discriminate.
  - apply Forall_cons in Hord as [Hord1 Hord].
    destruct (IH Hord) as (tools & Htools & Hlen & Hcls & Hnth).
    destruct (make_tool_ok ep Hep Hord1) as (t & Ht & _ & _ & _ & _ & _ & Hc).
    rewrite Ht, Htools. simpl. exists (t :: tools). split_and!; auto.
    + simpl. rewrite Hlen. reflexivity.
    + simpl. rewrite Hc, Hcls. reflexivity.
    + intros [|i] ep' Hi; simpl in *.
      * inversion Hi; subst. eauto.
      * eauto.
Qed.

Lemma describe_endpoints_ok (endpoints : list Host.Endpoint) :
  Forall Host.has_keys endpoints ->
  exists lines, Host.describe_endpoints endpoints = Ok lines.
Proof.
  induction 1 as [|ep eps ([n Hn] & _ & [f Hf]) _ (lines & Hlines)]; simpl.
  - eexists; reflexivity.
  - unfold Host.describe_endpoint, Host.endpoint_getitem.
    rewrite Hn, Hf. simpl. rewrite Hlines. simpl. eexists; reflexivity.
Qed.

(** A plugin whose class name is new goes to the end of the kernel's
    plugins. *)
Lemma add_plugin_new (t : DynamicAgentTool) (registered : list DynamicAgentTool) :
  cls_name (tool_class t) ∉ map (fun r => cls_name (tool_class r)) registered ->
  Host.add_plugin t registered = (registered ++ [t])%list.
Proof.
  induction registered as [|r rs IH]; simpl; intros Hnew; [reflexivity|].
  apply not_elem_of_cons in Hnew as [Hne Hnew].
  destruct (String.eqb_spec (cls_name (tool_class r)) (cls_name (tool_class t)))
    as [Heq|_]; [congruence|].
  rewrite (IH Hnew). reflexivity.
Qed.

Lemma register_from (tools registered : list DynamicAgentTool) :
  NoDup (map (fun r => cls_name (tool_class r)) (registered ++ tools)) ->
  fold_left (fun acc t => Host.add_plugin t acc) tools registered
  = (registered ++ tools)%list.
Proof.
  revert registered. induction tools as [|t ts IH]; intros registered Hnd; simpl.
  - rewrite app_nil_r. reflexivity.
  - rewrite add_plugin_new.
    + rewrite IH; rewrite <- app_assoc; [reflexivity|exact Hnd].
    + rewrite map_app in Hnd. apply NoDup_app in Hnd as (_ & Hdisj & _).
      intros Hin. apply (Hdisj _ Hin). simpl. left.
Qed.

(** Tools of classes with distinct names are all kept by the kernel, in
    order. *)
Lemma register_distinct (tools : list DynamicAgentTool) :
  NoDup (map (fun r => cls_name (tool_class r)) tools) ->
  Host.register tools = tools.
Proof. intros H. unfold Host.register. rewrite register_from; [reflexivity|exact H]. Qed.

Lemma some_endpoints (endpoints : list Host.Endpoint) :
  match Some endpoints with
  | Some (e :: es) => e :: es
  | _ => []
  end = endpoints.
Proof. destruct endpoints; reflexivity. Qed.

Lemma init_ok validation name description (endpoints : list Host.Endpoint)
    (system_message : option string) :
  Forall Host.has_keys endpoints -> Forall ordinary endpoints ->
  (forall tools, Host.make_tools endpoints = Ok tools ->
                 validation (str_replace is_id_char "_"%char name) tools = None) ->
  exists self tools,
    Host.__init__ validation name description (Some endpoints) system_message
    = Ok self /\
    Host.make_tools endpoints = Ok tools /\
    Host.agent_tools self = tools /\
    Host.visible_tools self = Host.register tools /\
    Host.agent_endpoints self = endpoints /\
    Host.conversations self = no_conversations.
Proof.
  intros Hkeys Hord Hvalid.
  destruct (make_tools_ok endpoints Hkeys Hord) as (tools & Htools & _).
  unfold Host.__init__. rewrite some_endpoints.
  rewrite (check_function_names_ok endpoints Hkeys). simpl.
  rewrite Htools. simpl. unfold Host.new_chat_agent.
  rewrite (Hvalid tools Htools).
  destruct system_message as [m|]; simpl.
  - eexists _, tools. split_and!; reflexivity || assumption.
  - unfold Host.default_system_message.
    destruct (describe_endpoints_ok endpoints Hkeys) as (lines & ->). simpl.
    eexists _, tools. split_and!; reflexivity || assumption.
Qed.

(** C7, as the code has it. Take endpoint descriptors that each have a
    name, a url and a function_name; the function_names are distinct,
    not empty and not of the form [__x__] (as a class attribute such a
    name has a meaning of its own to Python); the agent names give
    distinct class names; and the library accepts the agent with the
    tools built. Then [HostAgent.__init__] builds exactly one tool per
    descriptor, in order, and the kernel of the chat agent holds exactly
    these. The i-th tool is exposed under the i-th function_name, with the
    description "Send a request to <name>: <description>" (the
    description empty when the descriptor has none); a call of it fetches
    the agent card at the i-th url and sends, at most once, through the
    client bound to that card. *)
Theorem init_builds_one_tool_per_endpoint (validation : Host.AgentValidation)
    (name description : string) (endpoints : list Host.Endpoint)
    (system_message : option string) :
  Forall Host.has_keys endpoints ->
  NoDup (map (fun ep => ep !! "function_name") endpoints) ->
  Forall ordinary endpoints ->
  NoDup (map class_of endpoints) ->
  (forall tools, Host.make_tools endpoints = Ok tools ->
                 validation (str_replace is_id_char "_"%char name) tools = None) ->
  exists self,
    Host.__init__ validation name description (Some endpoints) system_message
    = Ok self /\
    List.length (Host.agent_tools self) = List.length endpoints /\
    Host.visible_tools self = Host.agent_tools self /\
    forall i ep, endpoints !! i = Some ep ->
      exists t,
        Host.agent_tools self !! i = Some t /\
        ep !! "function_name" = Some (exposed_name t) /\
        exposed_description t
        = "Send a request to " ++ Host.endpoint_get ep "name" ""
          ++ ": " ++ Host.endpoint_get ep "description" "" /\
        ep !! "url" = Some (agent_url t) /\
        forall render remote user_input,
          routed_to remote (agent_url t) user_input
            (io_trace (_send_to_agent render remote t user_input)).
Proof.
  intros Hkeys _ Hord Hclasses Hvalid.
  destruct (init_ok validation name description endpoints system_message
              Hkeys Hord Hvalid)
    as (self & tools & Hinit & Htools & Hat & Hvis & _).
  destruct (make_tools_ok endpoints Hkeys Hord)
    as (tools' & Htools' & Hlen & Hcls & Hnth).
  assert (tools' = tools) by congruence. subst tools'.
  exists self. rewrite Hat, Hvis. split_and!; auto.
  - apply register_distinct. rewrite Hcls. exact Hclasses.
  - intros i ep Hi.
    destruct (Hnth i ep Hi) as (t & Hti & Hmk).
    assert (Hep : Host.has_keys ep) by (eapply Forall_lookup_1; eauto).
    assert (Hepo : ordinary ep) by (eapply Forall_lookup_1; eauto).
    destruct (make_tool_ok ep Hep Hepo) as (t' & Hmk' & Hfn & _ & _ & Hurl & Hdesc & _).
    assert (t' = t) by congruence. subst t'.
    exists t. split_and!; auto.
    intros render remote user_input. apply send_to_agent_routed.
Qed.

Lemma orchestrate_result service x cid self :
  str_is_empty x = false ->
  result_of (Host.orchestrate service x cid self)
  = service (Host.visible_tools self) x (thread_for self cid)
      (conversations_at_completion self x cid).
Proof.
  intros Hx. unfold Host.orchestrate, act_bind, act_get, io_ret.
  rewrite host_begin_spec, (turn_begin_nonempty _ _ _ _ Hx). simpl.
  unfold Host.visible_tools, thread_for, conversations_at_completion.
  destruct (service _ _ _ _); reflexivity.
Qed.

(** C8, what the code does instead. [add_agent_endpoint] never returns
    normally. For a function name that is not empty and not of the form
    [__x__] it extends [agent_endpoints] by the descriptor and
    [agent_tools] by one tool for the function name and the url, the
    earlier tools staying where they were, and then raises at line 252:
    [plugins] is not a field of the chat agent. The kernel of the chat
    agent keeps the plugins it was built with, and the next call of
    [orchestrate] gives the chat completion those: the new tool is not
    among them. *)
Theorem add_agent_endpoint_raises (url name function_name description : string)
    (self : Host.HostAgent) :
  let r := Host.add_agent_endpoint url name function_name description self in
  (exists e, r.2 = Raise e) /\
  Host.visible_tools r.1 = Host.visible_tools self /\
  Host.conversations r.1 = Host.conversations self /\
  (forall i t, Host.agent_tools self !! i = Some t ->
               Host.agent_tools r.1 !! i = Some t) /\
  (forall service user_input context_id,
      str_is_empty user_input = false ->
      result_of (Host.orchestrate service user_input context_id r.1)
      = service (Host.visible_tools self) user_input (thread_for self context_id)
          (conversations_at_completion self user_input context_id)) /\
  (ordinary_function_name function_name = true ->
   exists new_tool,
     r.2 = Raise (Host.not_a_field "ChatCompletionAgent" "plugins") /\
     Host.agent_tools r.1 = (Host.agent_tools self ++ [new_tool])%list /\
     exposed_name new_tool = function_name /\
     agent_url new_tool = url /\
     Host.agent_endpoints r.1
     = (Host.agent_endpoints self ++
        [<["url" := url]> (<["name" := name]> (<["function_name" := function_name]>
           (<["description" := description]> ∅)))])%list).
Proof.
  intros r.
  destruct (add_agent_endpoint_keeps url name function_name description self)
    as (Hc & Hs & _ & Ha).
  fold r in Hc, Hs, Ha.
  assert (Hvis : Host.visible_tools r.1 = Host.visible_tools self)
    by (unfold Host.visible_tools; rewrite Ha; reflexivity).
  split_and!; auto.
  - subst r. unfold Host.add_agent_endpoint.
    destruct (rbind (create_agent_tool_class name url description function_name) _)
      as [t|e]; simpl; eauto.
  - subst r. unfold Host.add_agent_endpoint. intros i t Hi.
    destruct (rbind (create_agent_tool_class name url description function_name) _)
      as [t'|e]; simpl; [|exact Hi].
    apply lookup_app_l_Some, Hi.
  - intros service x cid Hx. rewrite (orchestrate_result _ _ _ _ Hx).
    rewrite Hvis. unfold thread_for, conversations_at_completion.
    rewrite Hc, Hs. reflexivity.
  - intros Hord. subst r. unfold Host.add_agent_endpoint.
    rewrite (tool_built name url description function_name Hord). simpl.
    eexists. split_and!; reflexivity.
Qed.

Ltac keys_present := vm_compute; split_and!; eexists; reflexivity.

(** *** Concrete runs *)

Lemma demo_replying_behaves reply :
  text_is_str reply -> remote_behaves (Demo.replying (Ok reply)).
Proof.
  intros Htext. split_and!.
  - intros url e H. discriminate.
  - intros card request e H. discriminate.
  - intros card request result H. inversion H; subst. exact Htext.
Qed.

Lemma send_to_agent_returns_string_witness :
  remote_behaves (Demo.replying (Ok (Demo.success_reply "ORD1 shipped"))) /\
  exists s,
    io_result (_send_to_agent Demo.plain_str
                 (Demo.replying (Ok (Demo.success_reply "ORD1 shipped")))
                 Demo.order_tool "status of ORD1?") = Ok (PStr s).
Proof.
  assert (H : remote_behaves (Demo.replying (Ok (Demo.success_reply "ORD1 shipped")))).
  { apply demo_replying_behaves. intros v Hv. vm_compute in Hv.
    inversion Hv; subst. reflexivity. }
  split; [exact H|].
  exact (send_to_agent_returns_string Demo.plain_str _ Demo.order_tool
           "status of ORD1?" H).
Defined.

Lemma error_envelope_format_counterexample :
  get_agent_card (Demo.replying (Ok (Demo.error_reply "boom")))
    (agent_url Demo.order_tool) = Ok (mkCard "Order Agent" "http://X") /\
  send_message (Demo.replying (Ok (Demo.error_reply "boom")))
    (mkCard "Order Agent" "http://X") (mkRequest "user" ["status of ORD1?"])
  = Ok (Demo.error_reply "boom") /\
  error_envelope (Demo.error_reply "boom") "boom" /\
  agent_name Demo.order_tool = "Order Agent" /\
  io_result (_send_to_agent Demo.plain_str
               (Demo.replying (Ok (Demo.error_reply "boom")))
               Demo.order_tool "status of ORD1?")
  = Ok (PStr "Error from Order Agent agent: boom") /\
  io_result (_send_to_agent Demo.plain_str
               (Demo.replying (Ok (Demo.error_reply "boom")))
               Demo.order_tool "status of ORD1?")
  <> Ok (PStr ("Error from " ++ agent_name Demo.order_tool ++ ": " ++ "boom")).
Proof.
  split_and!; try reflexivity.
  - eapply ErrorEnvelope; reflexivity.
  - vm_compute. discriminate.
Qed.

Lemma error_envelope_message_witness :
  error_envelope (Demo.error_reply "boom") "boom" /\
  io_result (_send_to_agent Demo.plain_str
               (Demo.replying (Ok (Demo.error_reply "boom")))
               Demo.order_tool "status of ORD1?")
  = Ok (PStr ("Error from " ++ agent_name Demo.order_tool ++ " agent: " ++ "boom")).
Proof.
  assert (H : error_envelope (Demo.error_reply "boom") "boom")
    by (eapply ErrorEnvelope; reflexivity).
  split; [exact H|].
  exact (error_envelope_message Demo.plain_str
           (Demo.replying (Ok (Demo.error_reply "boom"))) Demo.order_tool
           "status of ORD1?" (mkCard "Order Agent" "http://X")
           (Demo.error_reply "boom") "boom" eq_refl eq_refl H).
Defined.



Lemma success_envelope_first_text_witness :
  success_envelope (Demo.success_reply "ORD1 shipped") "ORD1 shipped" /\
  io_result (_send_to_agent Demo.plain_str
               (Demo.replying (Ok (Demo.success_reply "ORD1 shipped")))
               Demo.order_tool "status of ORD1?") = Ok (PStr "ORD1 shipped") /\
  textless_envelope Demo.empty_parts_reply /\
  exists s,
    io_result (_send_to_agent Demo.plain_str
                 (Demo.replying (Ok Demo.empty_parts_reply))
                 Demo.order_tool "status of ORD1?") = Ok (PStr s) /\
    s = "Error: Unexpected response format from " ++ agent_name Demo.order_tool
        ++ " agent" /\
    startswith "Error: Unexpected response format" s = true /\
    str_contains (agent_name Demo.order_tool) s = true.
Proof.
  assert (Hok : success_envelope (Demo.success_reply "ORD1 shipped") "ORD1 shipped")
    by (eapply SuccessEnvelope; reflexivity).
  assert (Hno : textless_envelope Demo.empty_parts_reply)
    by (eapply EmptyParts; reflexivity).
  split; [exact Hok|]. split.
  - exact (proj1 (success_envelope_first_text Demo.plain_str
                    (Demo.replying (Ok (Demo.success_reply "ORD1 shipped")))
                    Demo.order_tool "status of ORD1?"
                    (mkCard "Order Agent" "http://X")
                    (Demo.success_reply "ORD1 shipped") eq_refl eq_refl)
             "ORD1 shipped" Hok).
  - split; [exact Hno|].
    exact (proj2 (success_envelope_first_text Demo.plain_str
                    (Demo.replying (Ok Demo.empty_parts_reply))
                    Demo.order_tool "status of ORD1?"
                    (mkCard "Order Agent" "http://X")
                    Demo.empty_parts_reply eq_refl eq_refl) Hno).
Defined.

(** A reply whose first part carries no text (a file or data part) is
    reported through the general handler. *)
Example first_part_without_text :
  io_result (_send_to_agent Demo.plain_str
               (Demo.replying
                  (Ok (PDict [("result",
                               PDict [("parts",
                                       PList [PDict [("kind", PStr "data")]])])])))
               Demo.order_tool "status of ORD1?")
  = Ok (PStr "Error connecting to Order Agent agent: 'text'").
Proof. reflexivity. Qed.

(** An exception that is not an [Exception] is not absorbed. *)
Example cancellation_escapes :
  io_result (_send_to_agent Demo.plain_str
               (Demo.unreachable (mkExn (BaseExceptionOnly "CancelledError") ""))
               Demo.order_tool "status of ORD1?")
  = Raise (mkExn (BaseExceptionOnly "CancelledError") "").
Proof. reflexivity. Qed.



Lemma failed_completion_witness :
  separated (Host.conversations Demo.order_host) /\
  Host.response_to Demo.failing_service "status of ORD1?" "ctx-1" Demo.order_host
  = Some (Raise (mkExn (OtherException "ServiceResponseException") "service failed")) /\
  result_of (Host.orchestrate Demo.failing_service "status of ORD1?" "ctx-1"
               Demo.order_host)
  = Raise (mkExn (OtherException "ServiceResponseException") "service failed") /\
  turns (Host.conversations
           (final_state (Host.orchestrate Demo.failing_service "status of ORD1?"
                           "ctx-1" Demo.order_host))) "ctx-1"
  = (turns (Host.conversations Demo.order_host) "ctx-1"
     ++ [mkMessage "user" "status of ORD1?"])%list /\
  List.length
    (turns (Host.conversations
              (final_state (Host.orchestrate Demo.failing_service
                              "status of ORD1?" "ctx-1" Demo.order_host))) "ctx-1")
  = S (List.length (turns (Host.conversations Demo.order_host) "ctx-1")).
Proof.
  assert (Hsep : separated (Host.conversations Demo.order_host))
    by apply separated_empty.
  assert (Hresp :
    Host.response_to Demo.failing_service "status of ORD1?" "ctx-1" Demo.order_host
    = Some (Raise (mkExn (OtherException "ServiceResponseException") "service failed")))
    by (vm_compute; reflexivity).
  split; [exact Hsep|]. split; [exact Hresp|].
  exact (proj1 failed_completion_keeps_user_turn Demo.failing_service
           "status of ORD1?" "ctx-1" Demo.order_host _ Hsep Hresp).
Defined.

Lemma tool_bindings_counterexample :
  (Forall Host.has_keys [Demo.order_endpoint] /\
   NoDup (map (fun ep : Host.Endpoint => ep !! "function_name") [Demo.order_endpoint]) /\
   Host.__init__ Demo.kernel_checks "Host Agent" "Coordinates agents"
     (Some [Demo.order_endpoint]) (Some "You are Host Agent.") = Ok Demo.order_host /\
   Host.agent_tools Demo.order_host !! 0 = Some Demo.order_tool /\
   Demo.order_endpoint !! "description" = Some "Looks up orders" /\
   exposed_description Demo.order_tool
   = "Send a request to Order Agent: Looks up orders" /\
   Some (exposed_description Demo.order_tool) <> Demo.order_endpoint !! "description") /\
  (Forall Host.has_keys [Scenario.init_named_endpoint] /\
   NoDup (map (fun ep : Host.Endpoint => ep !! "function_name")
            [Scenario.init_named_endpoint]) /\
   forall validation,
     ~ exists self,
         Host.__init__ validation "Host Agent" "Coordinates agents"
           (Some [Scenario.init_named_endpoint]) None = Ok self) /\
  (Forall Host.has_keys [Demo.order_endpoint; Scenario.order_twin_endpoint] /\
   NoDup (map (fun ep : Host.Endpoint => ep !! "function_name")
            [Demo.order_endpoint; Scenario.order_twin_endpoint]) /\
   forall validation self,
     Host.__init__ validation "Host Agent" "Coordinates agents"
       (Some [Demo.order_endpoint; Scenario.order_twin_endpoint]) None = Ok self ->
     List.length (Host.agent_tools self) = 2 /\
     List.length (Host.visible_tools self) = 1).
Proof.
  split; [|split].
  - split_and!; try (vm_compute; reflexivity).
    + constructor; [keys_present | constructor].
    + constructor; [|constructor]. intros H. inversion H.
    + vm_compute. discriminate.
  - split_and!.
    + constructor; [keys_present | constructor].
    + constructor; [|constructor]. intros H. inversion H.
    + intros validation [self H]. vm_compute in H. discriminate H.
  - split_and!.
    + constructor; [keys_present|constructor; [keys_present|constructor]].
    + simpl. apply NoDup_cons. split; [|apply NoDup_singleton].
      rewrite list_elem_of_singleton. vm_compute. discriminate.
    + intros validation self H. unfold Host.__init__ in H.
      cbv beta iota zeta in H.
      assert (Ht : Host.make_tools [Demo.order_endpoint; Scenario.order_twin_endpoint]
                   = Ok [Demo.order_tool;
                         mkTool
                           (mkToolClass "OrderAgentTool" "Order-Agent" "http://Y" ""
                              "check_order_twin" "check_order_twin"
                              (mkKernelFunction "check_order_twin"
                                 "Send a request to Order-Agent: "))
                           "http://Y" "Order-Agent" "" "check_order_twin"])
        by (vm_compute; reflexivity).
      assert (Hc : Host.check_function_names
                     [Demo.order_endpoint; Scenario.order_twin_endpoint] = Ok tt)
        by (vm_compute; reflexivity).
      rewrite Hc, Ht in H. simpl in H.
      destruct (Host.default_system_message _ _ _) as [m|e]; simpl in H;
        [|discriminate H].
      unfold Host.new_chat_agent in H.
      destruct (validation _ _); simpl in H; [discriminate H|].
      inversion H; subst. split; reflexivity.
Qed.

Lemma init_builds_one_tool_per_endpoint_witness :
  Forall Host.has_keys [Demo.order_endpoint; Demo.csv_endpoint] /\
  NoDup (map (fun ep : Host.Endpoint => ep !! "function_name")
           [Demo.order_endpoint; Demo.csv_endpoint]) /\
  Forall ordinary [Demo.order_endpoint; Demo.csv_endpoint] /\
  NoDup (map class_of [Demo.order_endpoint; Demo.csv_endpoint]) /\
  (forall tools,
      Host.make_tools [Demo.order_endpoint; Demo.csv_endpoint] = Ok tools ->
      Demo.kernel_checks (str_replace is_id_char "_"%char "Host Agent") tools = None) /\
  exists self,
    Host.__init__ Demo.kernel_checks "Host Agent" "Coordinates agents"
      (Some [Demo.order_endpoint; Demo.csv_endpoint]) None = Ok self /\
    List.length (Host.agent_tools self) = 2 /\
    Host.visible_tools self = Host.agent_tools self.
Proof.
  assert (Hkeys : Forall Host.has_keys [Demo.order_endpoint; Demo.csv_endpoint])
    by (constructor; [keys_present|constructor; [keys_present|constructor]]).
  assert (Hdistinct : NoDup (map (fun ep : Host.Endpoint => ep !! "function_name")
                               [Demo.order_endpoint; Demo.csv_endpoint])).
  { simpl. apply NoDup_cons. split; [|apply NoDup_singleton].
    rewrite list_elem_of_singleton. vm_compute. discriminate. }
  assert (Hord : Forall ordinary [Demo.order_endpoint; Demo.csv_endpoint])
    by (constructor; [vm_compute; reflexivity
                     |constructor; [vm_compute; reflexivity|constructor]]).
  assert (Hclasses : NoDup (map class_of [Demo.order_endpoint; Demo.csv_endpoint])).
  { simpl. apply NoDup_cons. split; [|apply NoDup_singleton].
    rewrite list_elem_of_singleton. vm_compute. discriminate. }
  assert (Hvalid : forall tools,
             Host.make_tools [Demo.order_endpoint; Demo.csv_endpoint] = Ok tools ->
             Demo.kernel_checks (str_replace is_id_char "_"%char "Host Agent") tools
             = None).
  { intros tools Htools. vm_compute in Htools. inversion Htools; subst.
    vm_compute. reflexivity. }
  split; [exact Hkeys|]. split; [exact Hdistinct|]. split; [exact Hord|].
  split; [exact Hclasses|]. split; [exact Hvalid|].
  destruct (init_builds_one_tool_per_endpoint Demo.kernel_checks "Host Agent"
              "Coordinates agents" [Demo.order_endpoint; Demo.csv_endpoint] None
              Hkeys Hdistinct Hord Hclasses Hvalid)
    as (self & Hinit & Hlen & Hvis & _).
  exists self. split_and!; assumption.
Defined.

Lemma add_agent_endpoint_raises_witness :
  ordinary_function_name "analyze_csv_data" = true /\
  (Host.add_agent_endpoint "http://localhost:5560" "CSV Agent" "analyze_csv_data"
     "Analyzes CSV files" Demo.order_host).2
  = Raise (Host.not_a_field "ChatCompletionAgent" "plugins") /\
  Host.agent_tools
    (Host.add_agent_endpoint "http://localhost:5560" "CSV Agent" "analyze_csv_data"
       "Analyzes CSV files" Demo.order_host).1
  = [Demo.order_tool; Scenario.csv_tool] /\
  Host.visible_tools
    (Host.add_agent_endpoint "http://localhost:5560" "CSV Agent" "analyze_csv_data"
       "Analyzes CSV files" Demo.order_host).1
  = [Demo.order_tool] /\
  Scenario.csv_tool ∉
    Host.visible_tools
      (Host.add_agent_endpoint "http://localhost:5560" "CSV Agent" "analyze_csv_data"
         "Analyzes CSV files" Demo.order_host).1.
Proof.
  destruct (add_agent_endpoint_raises "http://localhost:5560" "CSV Agent"
              "analyze_csv_data" "Analyzes CSV files" Demo.order_host)
    as (_ & Hvis & _ & _ & _ & Hnew).
  destruct (Hnew eq_refl) as (new_tool & Hraise & Htools & _).
  split; [reflexivity|]. split; [exact Hraise|]. split; [reflexivity|].
  split; [exact Hvis|]. rewrite Hvis. intros Hin.
  apply list_elem_of_singleton in Hin. discriminate Hin.
Defined.

(** The tools of the examples are the ones the code builds. *)
Example order_tool_built :
  Host.make_tool Demo.order_endpoint = Ok Demo.order_tool.
Proof. vm_compute. reflexivity. Qed.

(** A function name that is the name of a special attribute of the class:
    [__init__] is replaced by the decorated method and the call of the
    class fails; [__name__] refuses a function. *)
Example special_function_names_rejected :
  (exists e,
      Host.__init__ Demo.kernel_checks "Host Agent" "Coordinates agents"
        (Some [Scenario.init_named_endpoint]) None = Raise e /\
      exn_class e = TypeError) /\
  (exists e,
      Host.__init__ Demo.kernel_checks "Host Agent" "Coordinates agents"
        (Some [Scenario.name_named_endpoint]) None = Raise e /\
      exn_class e = TypeError) /\
  (exists e,
      (Host.add_agent_endpoint "http://Z" "Init Agent" "__init__" ""
         Demo.order_host).2 = Raise e /\
      exn_class e = TypeError) /\
  Host.agent_tools
    (Host.add_agent_endpoint "http://Z" "Init Agent" "__init__" "" Demo.order_host).1
  = [Demo.order_tool] /\
  List.length
    (Host.agent_endpoints
       (Host.add_agent_endpoint "http://Z" "Init Agent" "__init__" ""
          Demo.order_host).1) = 2.
Proof.
  split_and!; try (vm_compute; reflexivity);
    eexists; (split; [vm_compute; reflexivity|reflexivity]).
Qed.

(** A function name the validation of the library refuses. *)
Example invalid_kernel_name_rejected :
  Host.has_keys Scenario.spaced_endpoint /\
  stored Scenario.spaced_endpoint /\
  exists e,
    Host.__init__ Demo.kernel_checks "Host Agent" "Coordinates agents"
      (Some [Scenario.spaced_endpoint]) None = Raise e /\
    exn_class e = OtherException "FunctionInitializationError".
Proof.
  split; [keys_present|]. split; [vm_compute; reflexivity|].
  eexists. split; [vm_compute; reflexivity|reflexivity].
Qed.

(** Two agents whose names give the same class name: two tools are built,
    the kernel keeps the later one. *)
Example colliding_class_names_expose_one :
  class_of Demo.order_endpoint = class_of Scenario.order_twin_endpoint /\
  exists self t1 t2,
    Host.__init__ Demo.kernel_checks "Host Agent" "Coordinates agents"
      (Some [Demo.order_endpoint; Scenario.order_twin_endpoint]) None = Ok self /\
    Host.agent_tools self = [t1; t2] /\
    Host.visible_tools self = [t2] /\
    exposed_name t2 = "check_order_twin".
Proof.
  split; [vm_compute; reflexivity|].
  eexists _, _, _. split_and!; vm_compute; reflexivity.
Qed.

(** * Further properties *)

(** ** The remote agent proxy *)

Section ProxyMore.

Variable render : pyval -> string.

(** X1. Any [Exception] other than a read timeout, raised while the agent
    card is fetched or while the message is sent, is absorbed by
    [_send_to_agent]: the call returns the string
    "Error connecting to <agent_name> agent: <str(e)>". *)
Theorem other_exception_reported (remote : Remote) (self : DynamicAgentTool)
    (user_input : string) (e : PyExn) :
  is_Exception (exn_class e) = true ->
  is_ReadTimeout (exn_class e) = false ->
  get_agent_card remote (agent_url self) = Raise e \/
  (exists card,
      get_agent_card remote (agent_url self) = Ok card /\
      send_message remote card (mkRequest "user" [user_input]) = Raise e) ->
  io_result (_send_to_agent render remote self user_input)
  = Ok (PStr ("Error connecting to " ++ agent_name self ++ " agent: " ++ exn_str e)).
Proof.
  intros Hexn Hto [Hc | (card & Hc & Hs)].
  - rewrite (send_to_agent_discovery_fails render _ _ _ _ Hc).
    unfold handle_exception. rewrite Hto, Hexn. reflexivity.
  - rewrite (send_to_agent_send_fails render _ _ _ _ _ Hc Hs).
    unfold handle_exception. rewrite Hto, Hexn. reflexivity.
Qed.

(** X2. [_send_to_agent] fetches the agent card first, from the url the
    tool was built with. When that fails nothing else is attempted; when it
    succeeds exactly one message is sent, to that card, with role user and
    the user input as its only text. *)
Theorem discovery_precedes_send (remote : Remote) (self : DynamicAgentTool)
    (user_input : string) :
  (forall e,
      get_agent_card remote (agent_url self) = Raise e ->
      io_trace (_send_to_agent render remote self user_input)
      = [EvGetAgentCard (agent_url self)]) /\
  (forall card,
      get_agent_card remote (agent_url self) = Ok card ->
      io_trace (_send_to_agent render remote self user_input)
      = [EvGetAgentCard (agent_url self);
         EvSendMessage card (mkRequest "user" [user_input])]).
Proof.
  destruct (send_to_agent_routed render remote self user_input)
    as [Ht | (card & Hc & Ht)]; split.
  - intros e _. exact Ht.
  - intros card Hc.
    destruct (send_message remote card (mkRequest "user" [user_input]))
      as [result|e] eqn:Hs.
    + rewrite (send_to_agent_replied render _ _ _ _ _ Hc Hs) in Ht.
      destruct (decode_reply render self result); discriminate Ht.
    + rewrite (send_to_agent_send_fails render _ _ _ _ _ Hc Hs) in Ht.
      discriminate Ht.
  - intros e He. congruence.
  - intros card' Hc'. assert (card' = card) by congruence. subst. exact Ht.
Qed.

(** X3. When the reply has an [error] member that is a dict,
    [_send_to_agent] returns "Error from <agent_name> agent: " followed by
    the formatted [message] of the error, or by "Unknown error occurred"
    when the error has no [message]. What the reply holds under [result]
    plays no part. *)
Theorem error_member_takes_precedence (remote : Remote) (self : DynamicAgentTool)
    (user_input : string) (card : AgentCard) (d err : list (string * pyval)) :
  get_agent_card remote (agent_url self) = Ok card ->
  send_message remote card (mkRequest "user" [user_input]) = Ok (PDict d) ->
  dict_lookup "error" d = Some (PDict err) ->
  io_result (_send_to_agent render remote self user_input)
  = Ok (PStr ("Error from " ++ agent_name self ++ " agent: "
              ++ match dict_lookup "message" err with
                 | Some m => py_format render m
                 | None => "Unknown error occurred"
                 end)).
Proof.
  intros Hc Hs Herr. rewrite (send_to_agent_replied render _ _ _ _ _ Hc Hs).
  unfold decode_reply. simpl. unfold dict_has. rewrite Herr. simpl.
  destruct (dict_lookup "message" err); reflexivity.
Qed.

(** X4. When the reply has no [error] member and the first part of its
    result is a dict without [text], the [KeyError] of the lookup is
    absorbed: [_send_to_agent] returns
    "Error connecting to <agent_name> agent: 'text'". *)
Theorem textless_first_part_reported (remote : Remote) (self : DynamicAgentTool)
    (user_input : string) (card : AgentCard)
    (d r part : list (string * pyval)) (rest : list pyval) :
  get_agent_card remote (agent_url self) = Ok card ->
  send_message remote card (mkRequest "user" [user_input]) = Ok (PDict d) ->
  dict_lookup "error" d = None ->
  dict_lookup "result" d = Some (PDict r) ->
  dict_lookup "parts" r = Some (PList (PDict part :: rest)) ->
  dict_lookup "text" part = None ->
  io_result (_send_to_agent render remote self user_input)
  = Ok (PStr ("Error connecting to " ++ agent_name self ++ " agent: 'text'")).
Proof.
  intros Hc Hs He Hr Hp Ht. rewrite (send_to_agent_replied render _ _ _ _ _ Hc Hs).
  unfold decode_reply, and_then. simpl. unfold dict_has.
  rewrite He, Hr. simpl. unfold dict_has. rewrite Hp. simpl. rewrite Ht.
  reflexivity.
Qed.

(** X5. An exception that is not an [Exception] (a cancellation, a keyboard
    interrupt), raised while the card is fetched or the message is sent, is
    not absorbed: [_send_to_agent] raises it. *)
Theorem base_exception_propagates (remote : Remote) (self : DynamicAgentTool)
    (user_input : string) (e : PyExn) :
  is_Exception (exn_class e) = false ->
  get_agent_card remote (agent_url self) = Raise e \/
  (exists card,
      get_agent_card remote (agent_url self) = Ok card /\
      send_message remote card (mkRequest "user" [user_input]) = Raise e) ->
  io_result (_send_to_agent render remote self user_input) = Raise e.
Proof.
  intros Hexn H.
  assert (Hto : is_ReadTimeout (exn_class e) = false)
    by (destruct (exn_class e); try reflexivity; discriminate).
  destruct H as [Hc | (card & Hc & Hs)].
  - rewrite (send_to_agent_discovery_fails render _ _ _ _ Hc).
    unfold handle_exception. rewrite Hto, Hexn. reflexivity.
  - rewrite (send_to_agent_send_fails render _ _ _ _ _ Hc Hs).
    unfold handle_exception. rewrite Hto, Hexn. reflexivity.
Qed.

End ProxyMore.

(** ** Names *)

Lemma str_filter_all p s : all_chars p (str_filter p s) = true.
Proof.
  induction s as [|c s IH]; simpl; [reflexivity|].
  destruct (p c) eqn:Hc; simpl; [rewrite Hc|]; exact IH.
Qed.

Lemma str_filter_app p a b :
  str_filter p (a ++ b) = str_filter p a ++ str_filter p b.
Proof.
  induction a as [|c a IH]; simpl; [reflexivity|].
  destruct (p c); simpl; rewrite IH; reflexivity.
Qed.

Lemma str_filter_id p s : all_chars p s = true -> str_filter p s = s.
Proof.
  induction s as [|c s IH]; simpl; [reflexivity|].
  intros H. apply andb_prop in H as [Hc Hs]. rewrite Hc, IH by exact Hs. reflexivity.
Qed.

Lemma str_replace_length p c s :
  String.length (str_replace p c s) = String.length s.
Proof. induction s as [|x s IH]; simpl; [reflexivity|]. rewrite IH. reflexivity. Qed.

Lemma str_replace_all p c s :
  p c = true -> all_chars p (str_replace p c s) = true.
Proof.
  intros Hc. induction s as [|x s IH]; simpl; [reflexivity|].
  rewrite IH. destruct (p x) eqn:Hx; simpl; [rewrite Hx | rewrite Hc]; reflexivity.
Qed.

Lemma str_replace_id p c s :
  all_chars p s = true -> str_replace p c s = s.
Proof.
  induction s as [|x s IH]; simpl; [reflexivity|].
  intros H. apply andb_prop in H as [Hx Hs]. rewrite Hx, IH by exact Hs. reflexivity.
Qed.

Lemma created_class_name n u d f cls :
  create_agent_tool_class n u d f = Ok cls -> cls_name cls = class_name n.
Proof.
  unfold create_agent_tool_class.
  destruct (attribute_effect (class_name n) f); intros H; inversion H; reflexivity.
Qed.

(** What [HostAgent.__init__] returns, when it returns. *)
Lemma init_inv validation name description agent_endpoints system_message self :
  Host.__init__ validation name description agent_endpoints system_message = Ok self ->
  exists tools preamble,
    let endpoints :=
      match agent_endpoints with
      | Some (e :: es) => e :: es
      | _ => []
      end in
    Host.check_function_names endpoints = Ok tt /\
    Host.make_tools endpoints = Ok tools /\
    match system_message with
    | None => Host.default_system_message name description endpoints
    | Some m => Ok m
    end = Ok preamble /\
    validation (str_replace is_id_char "_"%char name) tools = None /\
    self = Host.mkHostAgent name description endpoints
             (str_replace is_id_char "_"%char name) tools preamble
             (mkChatAgent (str_replace is_id_char "_"%char name) (Host.register tools))
             no_conversations.
Proof.
  unfold Host.__init__.
  set (endpoints := match agent_endpoints with Some (e :: es) => e :: es | _ => [] end).
  destruct (Host.check_function_names endpoints) as [[]|e]; simpl; [|discriminate].
  destruct (Host.make_tools endpoints) as [tools|e]; simpl; [|discriminate].
  destruct (match system_message with
            | None => Host.default_system_message name description endpoints
            | Some m => Ok m end) as [preamble|e]; simpl; [|discriminate].
  unfold Host.new_chat_agent.
  destruct (validation _ tools) eqn:Hv; simpl; [discriminate|].
  intros H. inversion H. exists tools, preamble.
  split_and!; reflexivity || exact Hv.
Qed.

(** X6. The class [create_agent_tool_class] builds is named by the agent
    name without its non-alphanumeric characters, followed by "Tool": an
    alphanumeric agent name is kept as it is, and a non-alphanumeric
    character anywhere in the name makes no difference. Two agent names
    that differ in such a character therefore get classes of the same
    name, whatever their url, description and function name. *)
Theorem class_name_alphanumeric
    (agent_name agent_url agent_description function_name : string)
    (cls : ToolClass) :
  create_agent_tool_class agent_name agent_url agent_description function_name
  = Ok cls ->
  (exists stem,
      cls_name cls = stem ++ "Tool" /\
      all_chars is_alnum stem = true /\
      (all_chars is_alnum agent_name = true -> stem = agent_name)) /\
  (forall a c b url' description' function_name' cls',
      agent_name = a ++ String c b ->
      is_alnum c = false ->
      create_agent_tool_class (a ++ b) url' description' function_name' = Ok cls' ->
      cls_name cls' = cls_name cls).
Proof.
  intros Hcls. rewrite (created_class_name _ _ _ _ _ Hcls). split.
  - exists (str_filter is_alnum agent_name). split; [reflexivity|].
    split; [apply str_filter_all | apply str_filter_id].
  - intros a c b url' description' function_name' cls' -> Hc Hcls'.
    rewrite (created_class_name _ _ _ _ _ Hcls'). unfold class_name.
    rewrite !str_filter_app. simpl. rewrite Hc. reflexivity.
Qed.

Lemma class_name_alphanumeric_witness :
  create_agent_tool_class "CSV Agent" "http://localhost:5560" "Analyzes CSV files"
    "analyze_csv_data"
  = Ok (mkToolClass "CSVAgentTool" "CSV Agent" "http://localhost:5560"
          "Analyzes CSV files" "analyze_csv_data" "analyze_csv_data"
          (mkKernelFunction "analyze_csv_data"
             "Send a request to CSV Agent: Analyzes CSV files")) /\
  "CSV Agent" = "CSV" ++ String " " "Agent" /\
  is_alnum " " = false /\
  create_agent_tool_class ("CSV" ++ "Agent") "http://localhost:5561" "Other"
    "other_function"
  = Ok (mkToolClass "CSVAgentTool" "CSVAgent" "http://localhost:5561" "Other"
          "other_function" "other_function"
          (mkKernelFunction "other_function" "Send a request to CSVAgent: Other")) /\
  all_chars is_alnum "CSVAgent" = true /\
  (exists stem,
      "CSVAgentTool" = stem ++ "Tool" /\
      all_chars is_alnum stem = true /\
      (all_chars is_alnum "CSVAgent" = true -> stem = "CSVAgent")) /\
  "CSVAgentTool" = "CSVAgentTool".
Proof.
  split; [reflexivity|]. split; [reflexivity|]. split; [reflexivity|].
  split; [reflexivity|]. split; [reflexivity|]. split.
  - exact (proj1 (class_name_alphanumeric "CSVAgent" "http://localhost:5561" "Other"
                    "other_function" _ eq_refl)).
  - exact (proj2 (class_name_alphanumeric "CSV Agent" "http://localhost:5560"
                    "Analyzes CSV files" "analyze_csv_data" _ eq_refl)
             "CSV" " "%char "Agent" "http://localhost:5561" "Other" "other_function"
             _ eq_refl eq_refl eq_refl).
Defined.

(** X7. The [agent_id] of an [Agent] has the length of the name, consists
    of letters, digits, [_] and [-] only, and is the name itself when the
    name consists of such characters. A [HostAgent] of the same name gets
    the same id, and its chat agent is named by it. *)
Theorem agent_id_sanitised (name description : string)
    (mcp_sse_urls : option (list string)) (system_message : option string) :
  let agent_id := Worker.agent_id
                    (Worker.__init__ name description mcp_sse_urls system_message) in
  String.length agent_id = String.length name /\
  all_chars is_id_char agent_id = true /\
  (all_chars is_id_char name = true -> agent_id = name) /\
  (forall validation endpoints preamble self,
      Host.__init__ validation name description endpoints preamble = Ok self ->
      Host.agent_id self = agent_id /\ ca_name (Host.chat_agent self) = agent_id).
Proof.
  simpl. split_and!.
  - apply str_replace_length.
  - apply str_replace_all. reflexivity.
  - apply str_replace_id.
  - intros validation endpoints preamble self H.
    destruct (init_inv _ _ _ _ _ _ H) as (tools & msg & _ & _ & _ & _ & ->).
    split; reflexivity.
Qed.

Lemma agent_id_sanitised_witness :
  all_chars is_id_char "sql-agent_2" = true /\
  Worker.agent_id (Worker.__init__ "sql-agent_2" "Runs SQL" None None) = "sql-agent_2" /\
  Worker.agent_id (Worker.__init__ "SQL Agent!" "Runs SQL" None None) = "SQL_Agent_" /\
  Host.__init__ Demo.kernel_checks "Data Orchestrator" "d" None (Some "p")
  = Ok (Host.mkHostAgent "Data Orchestrator" "d" [] "Data_Orchestrator" [] "p"
          (mkChatAgent "Data_Orchestrator" []) no_conversations) /\
  ca_name (Host.chat_agent
             (Host.mkHostAgent "Data Orchestrator" "d" [] "Data_Orchestrator" [] "p"
                (mkChatAgent "Data_Orchestrator" []) no_conversations))
  = Worker.agent_id (Worker.__init__ "Data Orchestrator" "d" None None).
Proof.
  split; [reflexivity|].
  split; [exact (proj1 (proj2 (proj2 (agent_id_sanitised "sql-agent_2" "Runs SQL"
                                         None None))) eq_refl)|].
  split; [reflexivity|]. split; [reflexivity|].
  exact (proj2 (proj2 (proj2 (proj2 (agent_id_sanitised "Data Orchestrator" "d"
                                        None None))) Demo.kernel_checks None
                  (Some "p") _ eq_refl)).
Defined.

(** ** Construction of the host agent *)

Lemma check_function_names_first_missing (pre post : list Host.Endpoint)
    (ep : Host.Endpoint) :
  Forall (fun e : Host.Endpoint => is_Some (e !! "function_name")) pre ->
  ep !! "function_name" = None ->
  Host.check_function_names (pre ++ ep :: post)%list
  = Raise (Host.missing_function_name ep).
Proof.
  intros Hpre Hep. induction Hpre as [|e pre [f Hf] _ IH]; simpl.
  - rewrite Hep. reflexivity.
  - rewrite Hf. exact IH.
Qed.

(** A tool is built exactly for the descriptors that have the three keys
    and a function name Python stores like any other attribute. *)
Lemma make_tool_iff (ep : Host.Endpoint) :
  (exists t, Host.make_tool ep = Ok t) <-> Host.has_keys ep /\ stored ep.
Proof.
  unfold Host.make_tool, Host.endpoint_getitem, Host.has_keys, stored, class_of,
    Host.endpoint_get.
  destruct (ep !! "name") as [n|]; simpl;
    [|split; [intros [t H]; discriminate | intros [([x Hx] & _) _]; discriminate]].
  destruct (ep !! "url") as [u|]; simpl;
    [|split; [intros [t H]; discriminate | intros [(_ & [x Hx] & _) _]; discriminate]].
  destruct (ep !! "function_name") as [f|]; simpl;
    [|split; [intros [t H]; discriminate | intros [(_ & _ & [x Hx]) _]; discriminate]].
  unfold create_agent_tool_class, instantiate.
  destruct (attribute_effect (class_name n) f) eqn:He; simpl; rewrite ?He; split.
  - intros _. split_and!; eauto.
  - intros _. eauto.
  - intros [t H]. discriminate.
  - intros [_ H]. discriminate.
  - intros [t H]. discriminate.
  - intros [_ H]. discriminate.
Qed.

Lemma make_tools_iff (endpoints : list Host.Endpoint) :
  (exists tools, Host.make_tools endpoints = Ok tools)
  <-> Forall Host.has_keys endpoints /\ Forall stored endpoints.
Proof.
  induction endpoints as [|ep eps IH]; simpl.
  - split; [intros _; split; constructor | eauto].
  - split.
    + intros [tools H].
      destruct (Host.make_tool ep) as [t|e] eqn:Ht; simpl in H; [|discriminate].
      destruct (Host.make_tools eps) as [ts|e] eqn:Hts; simpl in H; [|discriminate].
      destruct (proj1 (make_tool_iff ep)) as [Hk Hs]; [eauto|].
      destruct (proj1 IH) as [Hks Hss]; [eauto|].
      split; constructor; assumption.
    + intros [Hk Hs].
      apply Forall_cons in Hk as [Hk Hks]. apply Forall_cons in Hs as [Hs Hss].
      destruct (proj2 (make_tool_iff ep) (conj Hk Hs)) as [t ->].
      destruct (proj2 IH (conj Hks Hss)) as [ts ->]. simpl. eauto.
Qed.

(** X8. [HostAgent.__init__] raises [ValueError] for the first endpoint
    without [function_name], naming it by its [name] (or "Unknown"):
    "Agent endpoint for <name> must include 'function_name'". *)
Theorem missing_function_name_rejected (validation : Host.AgentValidation)
    (name description : string)
    (pre post : list Host.Endpoint) (ep : Host.Endpoint)
    (system_message : option string) :
  Forall (fun e : Host.Endpoint => is_Some (e !! "function_name")) pre ->
  ep !! "function_name" = None ->
  Host.__init__ validation name description (Some (pre ++ ep :: post)%list)
    system_message
  = Raise (mkExn ValueError
             ("Agent endpoint for " ++ Host.endpoint_get ep "name" "Unknown"
              ++ " must include 'function_name'")).
Proof.
  intros Hpre Hep. unfold Host.__init__. rewrite some_endpoints.
  rewrite (check_function_names_first_missing pre post ep Hpre Hep). reflexivity.
Qed.

(** X9. [HostAgent.__init__] with a list of endpoints returns an agent
    exactly when every endpoint has the keys [name], [url] and
    [function_name], Python stores every function name in the class of
    its tool as an attribute like any other (neither the assignment nor
    the call of the class raises), and the library accepts the agent id
    with the tools built. *)
Theorem init_succeeds_iff_keys (validation : Host.AgentValidation)
    (name description : string)
    (endpoints : list Host.Endpoint) (system_message : option string) :
  (exists self,
      Host.__init__ validation name description (Some endpoints) system_message
      = Ok self)
  <-> Forall Host.has_keys endpoints /\
      Forall stored endpoints /\
      forall tools, Host.make_tools endpoints = Ok tools ->
                    validation (str_replace is_id_char "_"%char name) tools = None.
Proof.
  split.
  - intros [self H].
    destruct (init_inv _ _ _ _ _ _ H) as (tools & msg & _ & Ht & _ & Hv & _).
    rewrite some_endpoints in Ht.
    destruct (proj1 (make_tools_iff endpoints)) as [Hk Hs]; [eauto|].
    split_and!; auto. intros tools' Ht'.
    assert (tools' = tools) by congruence. subst. exact Hv.
  - intros (Hk & Hs & Hv).
    destruct (proj2 (make_tools_iff endpoints) (conj Hk Hs)) as [tools Ht].
    unfold Host.__init__. rewrite some_endpoints.
    rewrite (check_function_names_ok endpoints Hk). simpl. rewrite Ht. simpl.
    unfold Host.new_chat_agent. rewrite (Hv tools Ht).
    destruct system_message as [m|]; simpl; [eauto|].
    unfold Host.default_system_message.
    destruct (describe_endpoints_ok endpoints Hk) as (lines & ->). simpl. eauto.
Qed.

Lemma str_app_assoc (a b c : string) : (a ++ b) ++ c = a ++ (b ++ c).
Proof.
  induction a as [|x a IH]; [reflexivity|].
  change (String x ((a ++ b) ++ c) = String x (a ++ (b ++ c))).
  rewrite IH. reflexivity.
Qed.

Lemma startswith_app_l (p a b : string) :
  startswith p a = true -> startswith p (a ++ b) = true.
Proof.
  revert a. induction p as [|c p IH]; intros a; simpl; [reflexivity|].
  destruct a as [|x a]; simpl; [discriminate|].
  intros H. apply andb_prop in H as [Hc Hp]. rewrite Hc. simpl. apply IH, Hp.
Qed.

Lemma str_contains_app_l (p a b : string) :
  str_contains p a = true -> str_contains p (a ++ b) = true.
Proof.
  induction a as [|x a IH]; simpl.
  - rewrite orb_false_r. intros H. destruct p; [|discriminate].
    destruct b; reflexivity.
  - intros H. apply orb_prop in H as [H|H].
    + change (String x (a ++ b)) with (String x a ++ b).
      rewrite (startswith_app_l p (String x a) b H). reflexivity.
    + rewrite (IH H). apply orb_true_r.
Qed.

Lemma startswith_refl (p : string) : startswith p p = true.
Proof.
  induction p as [|c p IH]; simpl; [reflexivity|].
  rewrite Ascii.eqb_refl. exact IH.
Qed.

Lemma str_contains_concat (sep line : string) (lines : list string) :
  In line lines -> str_contains line (String.concat sep lines) = true.
Proof.
  induction lines as [|l ls IH]; [intros []|].
  intros [-> | Hin].
  - destruct ls as [|l' ls'].
    + apply str_contains_here, startswith_refl.
    + change (String.concat sep (line :: l' :: ls'))
        with (line ++ sep ++ String.concat sep (l' :: ls')).
      apply str_contains_here, startswith_app.
  - destruct ls as [|l' ls']; [destruct Hin|].
    change (String.concat sep (l :: l' :: ls'))
      with (l ++ sep ++ String.concat sep (l' :: ls')).
    apply str_contains_app_r, str_contains_app_r, IH, Hin.
Qed.

Lemma describe_endpoints_lines (endpoints : list Host.Endpoint) : forall lines,
  Host.describe_endpoints endpoints = Ok lines ->
  forall ep, In ep endpoints ->
    exists n f,
      ep !! "name" = Some n /\ ep !! "function_name" = Some f /\
      In ("- " ++ n ++ " (use function '" ++ f ++ "'): "
          ++ Host.endpoint_get ep "description" "No description provided") lines.
Proof.
  induction endpoints as [|e es IH]; simpl; intros lines H ep Hin; [destruct Hin|].
  unfold Host.describe_endpoint, Host.endpoint_getitem in H.
  destruct (e !! "name") as [n|] eqn:Hn; simpl in H; [|discriminate].
  destruct (e !! "function_name") as [f|] eqn:Hf; simpl in H; [|discriminate].
  destruct (Host.describe_endpoints es) as [ls|] eqn:Hls; simpl in H; [|discriminate].
  inversion H; subst. destruct Hin as [<- | Hin].
  - exists n, f. split_and!; auto. left. reflexivity.
  - destruct (IH ls eq_refl ep Hin) as (n' & f' & ? & ? & ?).
    exists n', f'. split_and!; auto. right. assumption.
Qed.

(** X10. Without a [system_message] argument, the system message of a
    [HostAgent] starts with "You are <name>. <description>" and contains,
    for every endpoint, the line
    "- <name> (use function '<function_name>'): <description>", with
    "No description provided" for an endpoint without [description]. *)
Theorem default_preamble_lists_endpoints (validation : Host.AgentValidation)
    (name description : string)
    (endpoints : list Host.Endpoint) (self : Host.HostAgent) :
  Host.__init__ validation name description (Some endpoints) None = Ok self ->
  startswith ("You are " ++ name ++ ". " ++ description) (Host.system_message self)
  = true /\
  forall ep, In ep endpoints ->
    exists n f,
      ep !! "name" = Some n /\ ep !! "function_name" = Some f /\
      str_contains
        ("- " ++ n ++ " (use function '" ++ f ++ "'): "
         ++ Host.endpoint_get ep "description" "No description provided")
        (Host.system_message self) = true.
Proof.
  intros H.
  destruct (init_inv _ _ _ _ _ _ H) as (tools & msg & _ & _ & Hmsg & _ & ->).
  rewrite some_endpoints in Hmsg. simpl.
  unfold Host.default_system_message in Hmsg.
  destruct (Host.describe_endpoints endpoints) as [lines|] eqn:Hl; simpl in Hmsg;
    [|discriminate].
  inversion Hmsg; subst msg. clear Hmsg. split.
  - rewrite <- !str_app_assoc. rewrite !str_app_assoc.
    replace ("You are " ++ name ++ ". " ++ description ++ Host.newline ++ Host.newline
             ++ "You have access to the following specialized agents:" ++ Host.newline
             ++ String.concat Host.newline lines ++ Host.newline ++ Host.newline
             ++ "Use these agents to help answer user requests by delegating tasks to the appropriate agent.")
      with (("You are " ++ name ++ ". " ++ description) ++ Host.newline ++ Host.newline
             ++ "You have access to the following specialized agents:" ++ Host.newline
             ++ String.concat Host.newline lines ++ Host.newline ++ Host.newline
             ++ "Use these agents to help answer user requests by delegating tasks to the appropriate agent.")
      by (rewrite !str_app_assoc; reflexivity).
    apply startswith_app.
  - intros ep Hin.
    destruct (describe_endpoints_lines endpoints lines Hl ep Hin)
      as (n & f & Hn & Hf & Hline).
    exists n, f. split_and!; auto.
    do 8 apply str_contains_app_r.
    apply str_contains_app_l, str_contains_concat, Hline.
Qed.

(** X12. [HostAgent.__init__] does not check that a function name is
    new. Two endpoints with the same function name, not empty and not of
    the form [__x__], whose agent names give different class names and
    which the library accepts, yield two tools exposed under that same
    name, each with the url of its endpoint, and the kernel of the chat
    agent holds both. *)
Theorem function_name_in_use_accepted (validation : Host.AgentValidation)
    (name description : string) (ep1 ep2 : Host.Endpoint)
    (system_message : option string) :
  Host.has_keys ep1 -> Host.has_keys ep2 ->
  ordinary ep1 -> ordinary ep2 ->
  ep1 !! "function_name" = ep2 !! "function_name" ->
  class_of ep1 <> class_of ep2 ->
  (forall tools, Host.make_tools [ep1; ep2] = Ok tools ->
                 validation (str_replace is_id_char "_"%char name) tools = None) ->
  exists self t1 t2,
    Host.__init__ validation name description (Some [ep1; ep2]) system_message
    = Ok self /\
    Host.agent_tools self = [t1; t2] /\
    Host.visible_tools self = [t1; t2] /\
    ep1 !! "function_name" = Some (exposed_name t1) /\
    exposed_name t1 = exposed_name t2 /\
    ep1 !! "url" = Some (agent_url t1) /\
    ep2 !! "url" = Some (agent_url t2).
Proof.
  intros H1 H2 Ho1 Ho2 Hsame Hclasses Hvalid.
  assert (Hkeys : Forall Host.has_keys [ep1; ep2])
    by (constructor; [exact H1|constructor; [exact H2|constructor]]).
  assert (Hord : Forall ordinary [ep1; ep2])
    by (constructor; [exact Ho1|constructor; [exact Ho2|constructor]]).
  destruct (init_ok validation name description [ep1; ep2] system_message
              Hkeys Hord Hvalid)
    as (self & tools & Hinit & Htools & Hat & Hvis & _).
  destruct (make_tool_ok ep1 H1 Ho1) as (t1 & Ht1 & Hf1 & _ & _ & Hu1 & _ & Hc1).
  destruct (make_tool_ok ep2 H2 Ho2) as (t2 & Ht2 & Hf2 & _ & _ & Hu2 & _ & Hc2).
  simpl in Htools. rewrite Ht1, Ht2 in Htools. simpl in Htools.
  assert (Htl : tools = [t1; t2]) by congruence. rewrite Htl in Hat, Hvis.
  exists self, t1, t2. split_and!; auto; [|congruence].
  rewrite Hvis. apply register_distinct. simpl. rewrite Hc1, Hc2.
  apply NoDup_cons. split; [|apply NoDup_singleton].
  rewrite list_elem_of_singleton. exact Hclasses.
Qed.

(** ** How the conversations evolve *)

Lemma evolves_separated preamble σ σ' :
  evolves preamble σ σ' -> separated σ -> separated σ'.
Proof.
  induction 1; intros Hsep; auto using get_or_create_separated,
    append_message_separated.
Qed.

Lemma continues_refl σ : continues σ σ.
Proof. intros b h H. exists h. split_and!; auto. Qed.

Lemma continues_trans σ1 σ2 σ3 :
  continues σ1 σ2 -> continues σ2 σ3 -> continues σ1 σ3.
Proof.
  intros H12 H23 b h H.
  destruct (H12 b h H) as (h2 & H2 & Hs2 & Hp2).
  destruct (H23 b h2 H2) as (h3 & H3 & Hs3 & Hp3).
  exists h3. split_and!; [exact H3 | congruence | etrans; eauto].
Qed.

Lemma get_or_create_continues preamble cid σ :
  separated σ -> continues σ (get_or_create preamble cid σ).2.
Proof.
  intros Hsep b h H. exists h. split_and!; auto.
  destruct (decide (b = cid)) as [->|Hne].
  - unfold history_of in H.
    destruct (history_store σ !! cid) as [obj|] eqn:Hs; [|discriminate].
    rewrite (get_or_create_seen _ _ _ _ Hs). simpl.
    unfold history_of. rewrite Hs. exact H.
  - rewrite get_or_create_frame by assumption. exact H.
Qed.

Lemma append_message_continues obj m σ : continues σ (append_message obj m σ).
Proof.
  intros b h H. unfold history_of in *. simpl.
  destruct (history_store σ !! b) as [ob|]; [|discriminate].
  destruct (decide (obj = ob)) as [->|Hne].
  - rewrite lookup_alter_eq, H. simpl. eexists. split_and!; [reflexivity..|].
    simpl. apply prefix_app_r. reflexivity.
  - rewrite lookup_alter_ne by done. exists h. split_and!; auto.
Qed.

Lemma evolves_continues preamble σ σ' :
  evolves preamble σ σ' -> separated σ -> continues σ σ'.
Proof.
  induction 1 as [σ | σ σ' cid Hev IH | σ σ' obj m Hev IH]; intros Hsep.
  - apply continues_refl.
  - eapply continues_trans; [apply IH, Hsep|].
    apply get_or_create_continues. eapply evolves_separated; eauto.
  - eapply continues_trans; [apply IH, Hsep|]. apply append_message_continues.
Qed.

Lemma get_or_create_seeded preamble cid σ :
  separated σ -> seeded_with preamble σ ->
  seeded_with preamble (get_or_create preamble cid σ).2.
Proof.
  intros Hsep Hseed b h H.
  destruct (decide (b = cid)) as [->|Hne].
  - destruct (history_store σ !! cid) as [obj|] eqn:Hs.
    + rewrite (get_or_create_seen _ _ _ _ Hs) in H. apply (Hseed cid h H).
    + rewrite (get_or_create_unseen _ _ _ Hs) in H. unfold history_of in H.
      simpl in H. rewrite !lookup_insert_eq in H. inversion H; subst. reflexivity.
  - rewrite get_or_create_frame in H by assumption. apply (Hseed b h H).
Qed.

Lemma append_message_seeded preamble obj m σ :
  seeded_with preamble σ -> seeded_with preamble (append_message obj m σ).
Proof.
  intros Hseed b h H. unfold history_of in H. simpl in H.
  destruct (history_store σ !! b) as [ob|] eqn:Hs; [|discriminate].
  destruct (decide (obj = ob)) as [->|Hne].
  - rewrite lookup_alter_eq in H.
    destruct (heap σ !! ob) as [h0|] eqn:Hh; [|discriminate].
    simpl in H. inversion H; subst. simpl.
    apply (Hseed b h0). unfold history_of. rewrite Hs. exact Hh.
  - rewrite lookup_alter_ne in H by done.
    apply (Hseed b h). unfold history_of. rewrite Hs. exact H.
Qed.

Lemma evolves_seeded preamble σ σ' :
  evolves preamble σ σ' -> separated σ -> seeded_with preamble σ ->
  seeded_with preamble σ'.
Proof.
  induction 1 as [σ | σ σ' cid Hev IH | σ σ' obj m Hev IH]; intros Hsep Hseed.
  - exact Hseed.
  - apply get_or_create_seeded; [eapply evolves_separated; eauto | auto].
  - apply append_message_seeded; auto.
Qed.

Lemma evolves_trans preamble σ1 σ2 σ3 :
  evolves preamble σ1 σ2 -> evolves preamble σ2 σ3 -> evolves preamble σ1 σ3.
Proof.
  intros H12 H23. induction H23; [exact H12 | constructor; auto ..].
Qed.

Lemma turn_begin_evolves preamble x cid σ :
  evolves preamble σ (turn_begin preamble x cid σ).1.
Proof.
  destruct (turn_begin_cases preamble x cid σ) as [[_ ->] | [_ ->]]; simpl.
  - constructor.
  - apply evolves_append. apply evolves_create. constructor.
Qed.

Lemma host_step_evolves ev w w' :
  host_step ev w = Some w' ->
  Host.system_message (host w') = Host.system_message (host w) /\
  evolves (Host.system_message (host w))
    (Host.conversations (host w)) (Host.conversations (host w')).
Proof.
  intros Hstep.
  destruct ev as [task x cid | task response | url n f d]; simpl in Hstep.
  - destruct (host_tasks w !! task); [discriminate|].
    rewrite host_begin_spec in Hstep.
    pose proof (turn_begin_evolves (Host.system_message (host w)) x cid
                  (Host.conversations (host w))) as Hev.
    destruct (turn_begin _ _ _ _) as [σ' [t [thread|e]]]; simpl in *;
      inversion Hstep; subst; simpl; auto.
  - destruct (host_tasks w !! task) as [[x cid thread]|]; [|discriminate].
    inversion Hstep; subst. destruct response as [c|e].
    + rewrite host_resume_ok. unfold final_state; simpl. split; [reflexivity|].
      apply evolves_append. constructor.
    + rewrite host_resume_raise. unfold final_state; simpl.
      split; [reflexivity|constructor].
  - inversion Hstep; subst. simpl.
    destruct (add_agent_endpoint_keeps url n f d (host w)) as (-> & -> & _).
    split; [reflexivity|constructor].
Qed.

Lemma host_run_evolves evs : forall w w',
  host_run evs w = Some w' ->
  Host.system_message (host w') = Host.system_message (host w) /\
  evolves (Host.system_message (host w))
    (Host.conversations (host w)) (Host.conversations (host w')).
Proof.
  induction evs as [|ev evs IH]; simpl; intros w w' Hrun.
  - inversion Hrun; subst. split; [reflexivity|constructor].
  - destruct (host_step ev w) as [w1|] eqn:Hs; [|discriminate].
    destruct (host_step_evolves _ _ _ Hs) as [Hm1 He1].
    destruct (IH _ _ Hrun) as [Hm2 He2]. rewrite Hm1 in *.
    split; [congruence|]. eapply evolves_trans; eauto.
Qed.

Lemma worker_after_init_evolves x cid self :
  Worker.system_message (worker_after_init x cid self).1
  = Worker.system_message self /\
  evolves (Worker.system_message self) (Worker.conversations self)
    (Worker.conversations (worker_after_init x cid self).1).
Proof.
  unfold worker_after_init. rewrite worker_begin_spec.
  destruct (Worker.chat_agent self); simpl; [|split; [reflexivity|constructor]].
  pose proof (turn_begin_evolves (Worker.system_message self) x cid
                (Worker.conversations self)) as Hev.
  destruct (turn_begin _ _ _ _) as [σ' [t [thread|e]]]; simpl in *; auto.
Qed.

Lemma worker_continue_evolves urls x cid self :
  Worker.system_message (worker_continue urls x cid self).1
  = Worker.system_message self /\
  evolves (Worker.system_message self) (Worker.conversations self)
    (Worker.conversations (worker_continue urls x cid self).1).
Proof.
  destruct urls as [|url rest]; simpl; [|split; [reflexivity|constructor]].
  apply (worker_after_init_evolves x cid (Worker.finish_initialization self)).
Qed.

Lemma connect_resume_system_message plugin outcome self :
  Worker.system_message (Worker.connect_resume plugin outcome self).1
  = Worker.system_message self.
Proof.
  unfold Worker.connect_resume, act_try, act_bind, act_await, act_modify, io_net.
  destruct outcome as [[]|e]; simpl; [reflexivity|].
  destruct (is_Exception (exn_class e)); reflexivity.
Qed.

Lemma worker_step_evolves ev w w' :
  worker_step ev w = Some w' ->
  Worker.system_message (worker w') = Worker.system_message (worker w) /\
  evolves (Worker.system_message (worker w))
    (Worker.conversations (worker w)) (Worker.conversations (worker w')).
Proof.
  intros Hstep.
  destruct ev as [task x cid | task outcome | task response]; simpl in Hstep.
  - destruct (worker_tasks w !! task); [discriminate|].
    assert (H : Worker.system_message (worker_enter x cid (worker w)).1
                = Worker.system_message (worker w) /\
                evolves (Worker.system_message (worker w))
                  (Worker.conversations (worker w))
                  (Worker.conversations (worker_enter x cid (worker w)).1)).
    { unfold worker_enter. destruct (Worker._plugins_initialized (worker w));
        auto using worker_after_init_evolves, worker_continue_evolves. }
    destruct (worker_enter x cid (worker w)) as [self status].
    inversion Hstep; subst. exact H.
  - destruct (worker_tasks w !! task) as [[plugin rest x cid|]|]; try discriminate.
    pose proof (connect_resume_conversations plugin outcome (worker w)) as Hc.
    pose proof (connect_resume_system_message plugin outcome (worker w)) as Hm.
    destruct (Worker.connect_resume plugin outcome (worker w)) as [self [t [[]|e]]];
      simpl in *.
    + pose proof (worker_continue_evolves rest x cid self) as [Hm' He'].
      destruct (worker_continue rest x cid self) as [self' status]; simpl in *.
      inversion Hstep; subst; simpl. rewrite Hm, Hc in *. auto.
    + inversion Hstep; subst; simpl. rewrite Hc. split; [exact Hm|constructor].
  - destruct (worker_tasks w !! task) as [[|x cid thread]|]; try discriminate.
    inversion Hstep; subst. destruct response as [c|e].
    + rewrite worker_resume_ok. unfold final_state; simpl. split; [reflexivity|].
      apply evolves_append. constructor.
    + rewrite worker_resume_raise. unfold final_state; simpl.
      split; [reflexivity|constructor].
Qed.

Lemma worker_run_evolves evs : forall w w',
  worker_run evs w = Some w' ->
  Worker.system_message (worker w') = Worker.system_message (worker w) /\
  evolves (Worker.system_message (worker w))
    (Worker.conversations (worker w)) (Worker.conversations (worker w')).
Proof.
  induction evs as [|ev evs IH]; simpl; intros w w' Hrun.
  - inversion Hrun; subst. split; [reflexivity|constructor].
  - destruct (worker_step ev w) as [w1|] eqn:Hs; [|discriminate].
    destruct (worker_step_evolves _ _ _ Hs) as [Hm1 He1].
    destruct (IH _ _ Hrun) as [Hm2 He2]. rewrite Hm1 in *.
    split; [congruence|]. eapply evolves_trans; eauto.
Qed.

Lemma seeded_empty preamble : seeded_with preamble no_conversations.
Proof. intros b h H. unfold history_of in H. simpl in H.
       rewrite lookup_empty in H. discriminate. Qed.

(** X13. Histories only grow. After any sequence of events of calls of
    [orchestrate] and [add_agent_endpoint] (of calls of [process_request]),
    every context id that had a history still has one, with the same system
    message and with the old messages as a prefix of the new ones. *)
Theorem histories_append_only :
  (forall (w w' : HostWorld) (evs : list HostEvent),
      separated (Host.conversations (host w)) ->
      host_run evs w = Some w' ->
      continues (Host.conversations (host w)) (Host.conversations (host w'))) /\
  (forall (w w' : WorkerWorld) (evs : list WorkerEvent),
      separated (Worker.conversations (worker w)) ->
      worker_run evs w = Some w' ->
      continues (Worker.conversations (worker w))
        (Worker.conversations (worker w'))).
Proof.
  split; intros w w' evs Hsep Hrun.
  - destruct (host_run_evolves _ _ _ Hrun) as [_ Hev].
    eapply evolves_continues; eauto.
  - destruct (worker_run_evolves _ _ _ Hrun) as [_ Hev].
    eapply evolves_continues; eauto.
Qed.

(** X14. Starting from an agent without conversations, after any sequence
    of events of calls of [orchestrate] and [add_agent_endpoint] (of calls
    of [process_request]) every stored history has the system message of
    the agent as its system message. *)
Theorem histories_seeded_with_preamble :
  (forall (self : Host.HostAgent) (evs : list HostEvent) (w : HostWorld),
      Host.conversations self = no_conversations ->
      host_run evs (mkHostWorld self ∅) = Some w ->
      seeded_with (Host.system_message self) (Host.conversations (host w))) /\
  (forall (self : Worker.Agent) (evs : list WorkerEvent) (w : WorkerWorld),
      Worker.conversations self = no_conversations ->
      worker_run evs (mkWorkerWorld self ∅) = Some w ->
      seeded_with (Worker.system_message self) (Worker.conversations (worker w))).
Proof.
  split; intros self evs w Hnew Hrun.
  - destruct (host_run_evolves _ _ _ Hrun) as [_ Hev]. simpl in Hev.
    eapply evolves_seeded; eauto; rewrite Hnew;
      [apply separated_empty | apply seeded_empty].
  - destruct (worker_run_evolves _ _ _ Hrun) as [_ Hev]. simpl in Hev.
    eapply evolves_seeded; eauto; rewrite Hnew;
      [apply separated_empty | apply seeded_empty].
Qed.

(** ** Completed turns *)

Lemma append_message_turns cid obj m σ :
  separated σ -> history_store σ !! cid = Some obj ->
  turns (append_message obj m σ) cid = (turns σ cid ++ [m])%list.
Proof.
  intros [_ Hex] Hs. destruct (Hex _ _ Hs) as [h Hh]. unfold turns.
  rewrite (append_message_own cid obj m σ h Hs Hh).
  unfold history_of. rewrite Hs, Hh. reflexivity.
Qed.

(** X15. A call of [orchestrate] (of [process_request]) whose chat
    completion returns [reply] returns [reply] and awaits exactly one chat
    completion (for the worker, after what [initialize_plugins] does).
    Afterwards the history of its context id begins with the messages it
    had, followed by the user message, and ends with the assistant message
    that carries the reply. *)
Theorem completed_turn_recorded :
  (forall service user_input context_id self reply,
      separated (Host.conversations self) ->
      Host.response_to service user_input context_id self = Some (Ok reply) ->
      let r := Host.orchestrate service user_input context_id self in
      result_of r = Ok reply /\
      trace_of r = [EvChatCompletion (Host.agent_id self) user_input] /\
      (turns (Host.conversations self) context_id ++ [mkMessage "user" user_input])%list
        `prefix_of` turns (Host.conversations (final_state r)) context_id /\
      last (turns (Host.conversations (final_state r)) context_id)
      = Some (mkMessage "assistant" reply)) /\
  (forall handshake service user_input context_id self reply,
      separated (Worker.conversations self) ->
      Worker.response_to handshake service user_input context_id self
      = Some (Ok reply) ->
      let r := Worker.process_request handshake service user_input context_id self in
      result_of r = Ok reply /\
      trace_of r
      = (trace_of (Worker.initialize_plugins handshake self)
         ++ [EvChatCompletion (Worker.agent_id self) user_input])%list /\
      (turns (Worker.conversations self) context_id ++ [mkMessage "user" user_input])%list
        `prefix_of` turns (Worker.conversations (final_state r)) context_id /\
      last (turns (Worker.conversations (final_state r)) context_id)
      = Some (mkMessage "assistant" reply)).
Proof.
  split.
  - intros service x cid self reply Hsep Hresp r. subst r.
    unfold Host.response_to in Hresp. unfold Host.orchestrate, act_bind, act_get, io_ret.
    rewrite host_begin_spec in *.
    destruct (turn_begin_cases (Host.system_message self) x cid
                (Host.conversations self)) as [[Hx Hb] | [Hx Hb]].
    + rewrite Hb in Hresp. discriminate.
    + pose proof (turn_begin_turns (Host.system_message self) x cid _ Hsep Hx) as Ht.
      pose proof (turn_begin_separated (Host.system_message self) x cid _ Hsep) as Hs1.
      pose proof (turn_begin_thread (Host.system_message self) x cid
                    (Host.conversations self)) as Hth.
      rewrite Hb in *. simpl in *. inversion Hresp as [Hr]. rewrite Hr.
      rewrite host_resume_ok. unfold result_of, final_state, trace_of; simpl.
      rewrite (append_message_turns cid);
        [| apply append_message_separated, get_or_create_separated, Hsep
         | apply get_or_create_lookup ].
      rewrite Ht.
      split_and!; auto; [apply prefix_app_r; reflexivity | apply last_snoc].
  - intros handshake service x cid self reply Hsep Hresp r. subst r.
    unfold Worker.response_to, Worker.response_after_init in Hresp.
    unfold Worker.process_request, Worker.process_after_init, act_bind, act_get,
      io_ret.
    pose proof (initialize_plugins_conversations handshake self) as Hconv.
    assert (Hid : Worker.agent_id (final_state (Worker.initialize_plugins handshake self))
                  = Worker.agent_id self /\
                  Worker.system_message
                    (final_state (Worker.initialize_plugins handshake self))
                  = Worker.system_message self).
    { unfold Worker.initialize_plugins, act_bind, act_get, io_ret. simpl.
      destruct (Worker._plugins_initialized self); [split; reflexivity|].
      assert (Hall : forall urls s,
                 Worker.agent_id (final_state (Worker.connect_all handshake urls s))
                 = Worker.agent_id s /\
                 Worker.system_message
                   (final_state (Worker.connect_all handshake urls s))
                 = Worker.system_message s).
      { induction urls as [|u us IH]; intros s; simpl; [split; reflexivity|].
        unfold act_bind. rewrite connect_plugin_spec.
        destruct (handshake (Worker.plugin_for s u)) as [[]|e].
        - specialize (IH (Worker.add_plugin (Worker.plugin_for s u) s)).
          destruct (Worker.connect_all handshake us _) as [s2 [t2 r2]]. exact IH.
        - destruct (is_Exception (exn_class e)); [|split; reflexivity].
          specialize (IH s).
          destruct (Worker.connect_all handshake us _) as [s2 [t2 r2]]. exact IH. }
      specialize (Hall (Worker.mcp_sse_urls self) self).
      destruct (Worker.connect_all _ _ _) as [s2 [t2 [[]|e]]]; exact Hall. }
    destruct (Worker.initialize_plugins handshake self) as [s0 [t0 [[]|e0]]];
      [|discriminate].
    unfold final_state in Hconv, Hid; simpl in Hconv, Hid. destruct Hid as [Hid Hsm].
    rewrite worker_begin_spec in *.
    destruct (Worker.chat_agent s0) as [agent|] eqn:Hagent; [|discriminate].
    rewrite Hconv in *.
    destruct (turn_begin_cases (Worker.system_message s0) x cid
                (Worker.conversations self)) as [[Hx Hb] | [Hx Hb]].
    + rewrite Hb in Hresp. discriminate.
    + pose proof (turn_begin_turns (Worker.system_message s0) x cid _ Hsep Hx) as Ht.
      rewrite Hb in *. simpl in *. inversion Hresp as [Hr]. rewrite Hr.
      rewrite worker_resume_ok. unfold result_of, final_state, trace_of; simpl.
      rewrite Hid.
      rewrite (append_message_turns cid);
        [| apply append_message_separated, get_or_create_separated, Hsep
         | apply get_or_create_lookup ].
      rewrite Ht.
      split_and!; auto; [apply prefix_app_r; reflexivity | apply last_snoc].
Qed.

(** ** Plugin initialisation *)





(** ** Requests that reach the chat completion *)

Lemma process_request_raises handshake service x cid self e :
  (forall p, raises_only_exceptions (handshake p)) ->
  (forall ps m th σ, raises_only_exceptions (service ps m th σ)) ->
  result_of (Worker.process_request handshake service x cid self) = Raise e ->
  is_Exception (exn_class e) = true.
Proof.
  intros Hh Hs.
  unfold Worker.process_request, Worker.process_after_init, act_bind, act_get, io_ret.
  destruct (Worker._plugins_initialized self) eqn:Hi.
  - rewrite (initialize_plugins_done _ _ Hi). rewrite worker_begin_spec.
    destruct (Worker.chat_agent self) as [agent|] eqn:Ha;
      [|unfold result_of; simpl; intros H; inversion H; reflexivity].
    destruct (turn_begin_cases (Worker.system_message self) x cid
                (Worker.conversations self)) as [[_ ->] | [_ ->]];
      unfold result_of; simpl.
    + intros H; inversion H; reflexivity.
    + unfold Worker.get_response. simpl. rewrite Ha.
      destruct (service _ _ _ _) as [c|e'] eqn:Hsv; simpl; [discriminate|].
      intros H; inversion H; subst. eapply Hs; eauto.
  - pose proof (initialize_plugins_first handshake self Hi Hh) as (Hr & _ & Hc & _).
    destruct (Worker.initialize_plugins handshake self) as [s0 [t0 [[]|e0]]];
      [|discriminate Hr].
    unfold final_state in Hc; simpl in Hc. destruct Hc as [agent Ha].
    rewrite worker_begin_spec, Ha.
    destruct (turn_begin_cases (Worker.system_message s0) x cid
                (Worker.conversations s0)) as [[_ ->] | [_ ->]];
      unfold result_of; simpl.
    + intros H; inversion H; reflexivity.
    + unfold Worker.get_response. simpl. rewrite Ha.
      destruct (service _ _ _ _) as [c|e'] eqn:Hsv; simpl; [discriminate|].
      intros H; inversion H; subst. eapply Hs; eauto.
Qed.




(** ** Cleanup, the executor and the server *)

Lemma close_plugins_all close plugins :
  (forall p, raises_only_exceptions (close p)) ->
  Serving.close_plugins close plugins = (List.map Serving.SvPluginExit plugins, Ok tt).
Proof.
  intros Hc. induction plugins as [|p ps IH]; [reflexivity|].
  simpl. rewrite IH.
  destruct (close p) as [[]|e] eqn:Hp; [reflexivity|].
  rewrite (Hc p e Hp). reflexivity.
Qed.

Lemma close_plugins_stops close plugins t e :
  Serving.close_plugins close plugins = (t, Raise e) ->
  is_Exception (exn_class e) = false /\
  exists before p after,
    plugins = (before ++ p :: after)%list /\
    t = List.map Serving.SvPluginExit (before ++ [p])%list /\
    close p = Raise e.
Proof.
  revert t. induction plugins as [|p ps IH]; intros t; simpl; [discriminate|].
  destruct (close p) as [[]|e'] eqn:Hp.
  - destruct (Serving.close_plugins close ps) as [t' r'] eqn:Hps.
    intros H; inversion H; subst.
    destruct (IH _ eq_refl) as (He & before & q & after & -> & -> & Hq).
    split; [exact He|]. exists (p :: before), q, after. done.
  - destruct (is_Exception (exn_class e')) eqn:He'.
    + destruct (Serving.close_plugins close ps) as [t' r'] eqn:Hps.
      intros H; inversion H; subst.
      destruct (IH _ eq_refl) as (He & before & q & after & -> & -> & Hq).
      split; [exact He|]. exists (p :: before), q, after. done.
    + intros H; inversion H; subst. split; [exact He'|].
      exists [], p, ps. done.
Qed.

(** X21. [cleanup] exits every plugin once, in the order of
    [mcp_plugins], and returns normally, whatever ordinary exceptions the
    exits raise. It raises only an exception that is not an [Exception],
    raised by the exit of a plugin; the plugins after that one are then not
    exited. *)
Theorem cleanup_closes_every_plugin (close : Serving.Closer) (self : Worker.Agent) :
  ((forall p, raises_only_exceptions (close p)) ->
   Serving.cleanup close self
   = (List.map Serving.SvPluginExit (Worker.mcp_plugins self), Ok tt)) /\
  (forall t e,
      Serving.cleanup close self = (t, Raise e) ->
      is_Exception (exn_class e) = false /\
      exists before p after,
        Worker.mcp_plugins self = (before ++ p :: after)%list /\
        t = List.map Serving.SvPluginExit (before ++ [p])%list /\
        close p = Raise e).
Proof.
  split.
  - intros Hc. apply close_plugins_all, Hc.
  - intros t e. apply close_plugins_stops.
Qed.

(** X22. When handshakes and chat completion raise ordinary exceptions
    only, [A2AAgentExecutor.execute] returns normally and enqueues exactly
    one text message, as its last event: the result of [process_request], or
    "Error: <str(e)>" when that raised. A new task is enqueued before it
    exactly when the context has no current task. *)
Theorem execute_answers_once new_task handshake service context agent :
  (forall p, raises_only_exceptions (handshake p)) ->
  (forall ps m th σ, raises_only_exceptions (service ps m th σ)) ->
  let r := Worker.process_request handshake service
             (Serving.user_input context) (Serving.context_id context) agent in
  let done := Serving.execute new_task handshake service context agent in
  Serving.exec_result done = Ok tt /\
  Serving.exec_agent done = final_state r /\
  Serving.exec_net done = trace_of r /\
  Serving.exec_queue done
  = (match Serving.current_task context with
     | Some _ => []
     | None => [Serving.QTask (new_task (Serving.message context))]
     end ++
     [Serving.QTextMessage
        match result_of r with
        | Ok result => result
        | Raise e => "Error: " ++ exn_str e
        end])%list.
Proof.
  intros Hh Hs r done.
  pose proof (process_request_raises handshake service (Serving.user_input context)
                (Serving.context_id context) agent) as Hr.
  subst r done. unfold Serving.execute.
  destruct (Worker.process_request _ _ _ _ _) as [a [t [res|e]]];
    unfold final_state, trace_of, result_of in *; simpl in *.
  - split_and!; reflexivity.
  - rewrite (Hr e Hh Hs eq_refl). simpl. split_and!; reflexivity.
Qed.


(** X24. When [process_request] raises an exception that is not an
    [Exception], [execute] raises it and enqueues no text message. *)
Theorem execute_lets_cancellation_through new_task handshake service context agent e :
  result_of (Worker.process_request handshake service (Serving.user_input context)
               (Serving.context_id context) agent) = Raise e ->
  is_Exception (exn_class e) = false ->
  let done := Serving.execute new_task handshake service context agent in
  Serving.exec_result done = Raise e /\
  Forall (fun ev => forall text, ev <> Serving.QTextMessage text)
    (Serving.exec_queue done).
Proof.
  intros Hr He done. subst done. unfold Serving.execute.
  destruct (Worker.process_request _ _ _ _ _) as [a [t [res|e']]];
    unfold result_of in Hr; simpl in Hr; [discriminate|].
  inversion Hr; subst. rewrite He. simpl. split; [reflexivity|].
  destruct (Serving.current_task context); repeat constructor; discriminate.
Qed.



(** ** Concrete runs of the further properties *)

Lemma handshake_ok_exceptions :
  forall p, raises_only_exceptions (Demo.handshake_ok p).
Proof. intros p e H. discriminate. Qed.

Lemma echo_service_exceptions {P : Type} :
  forall (ps : list P) m th σ, raises_only_exceptions (Demo.echo_service ps m th σ).
Proof. intros ps m th σ e H. discriminate. Qed.

Lemma close_ok_exceptions : forall p, raises_only_exceptions (Scenario.close_ok p).
Proof. intros p e H. discriminate. Qed.

Lemma other_exception_reported_witness :
  is_Exception (exn_class Scenario.connection_refused) = true /\
  is_ReadTimeout (exn_class Scenario.connection_refused) = false /\
  io_result (_send_to_agent Demo.plain_str
               (Demo.unreachable Scenario.connection_refused)
               Demo.order_tool "status of ORD1?")
  = Ok (PStr "Error connecting to Order Agent agent: All connection attempts failed").
Proof.
  split; [reflexivity|]. split; [reflexivity|].
  exact (other_exception_reported Demo.plain_str
           (Demo.unreachable Scenario.connection_refused) Demo.order_tool
           "status of ORD1?" Scenario.connection_refused eq_refl eq_refl
           (or_introl eq_refl)).
Defined.

Lemma discovery_precedes_send_witness :
  io_trace (_send_to_agent Demo.plain_str
              (Demo.unreachable Scenario.connection_refused)
              Demo.order_tool "status of ORD1?")
  = [EvGetAgentCard "http://X"] /\
  io_trace (_send_to_agent Demo.plain_str
              (Demo.replying (Ok (Demo.success_reply "ORD1 shipped")))
              Demo.order_tool "status of ORD1?")
  = [EvGetAgentCard "http://X";
     EvSendMessage (mkCard "Order Agent" "http://X")
       (mkRequest "user" ["status of ORD1?"])].
Proof.
  split.
  - exact (proj1 (discovery_precedes_send Demo.plain_str
                    (Demo.unreachable Scenario.connection_refused) Demo.order_tool
                    "status of ORD1?") Scenario.connection_refused eq_refl).
  - exact (proj2 (discovery_precedes_send Demo.plain_str
                    (Demo.replying (Ok (Demo.success_reply "ORD1 shipped")))
                    Demo.order_tool "status of ORD1?")
             (mkCard "Order Agent" "http://X") eq_refl).
Defined.

Lemma error_member_takes_precedence_witness :
  dict_lookup "error"
    [("id", PStr "1"); ("jsonrpc", PStr "2.0");
     ("error", PDict [("code", PInt (-32603)); ("message", PStr "boom")])]
  = Some (PDict [("code", PInt (-32603)); ("message", PStr "boom")]) /\
  io_result (_send_to_agent Demo.plain_str
               (Demo.replying (Ok (Demo.error_reply "boom")))
               Demo.order_tool "status of ORD1?")
  = Ok (PStr "Error from Order Agent agent: boom").
Proof.
  split; [reflexivity|].
  exact (error_member_takes_precedence Demo.plain_str
           (Demo.replying (Ok (Demo.error_reply "boom"))) Demo.order_tool
           "status of ORD1?" (mkCard "Order Agent" "http://X") _
           [("code", PInt (-32603)); ("message", PStr "boom")]
           eq_refl eq_refl eq_refl).
Defined.

Lemma textless_first_part_reported_witness :
  dict_lookup "text" [("kind", PStr "data")] = None /\
  io_result (_send_to_agent Demo.plain_str
               (Demo.replying (Ok Scenario.data_part_reply))
               Demo.order_tool "status of ORD1?")
  = Ok (PStr "Error connecting to Order Agent agent: 'text'").
Proof.
  split; [reflexivity|].
  exact (textless_first_part_reported Demo.plain_str
           (Demo.replying (Ok Scenario.data_part_reply)) Demo.order_tool
           "status of ORD1?" (mkCard "Order Agent" "http://X") _
           [("kind", PStr "message");
            ("parts", PList [PDict [("kind", PStr "data")]]);
            ("role", PStr "agent")]
           [("kind", PStr "data")] []
           eq_refl eq_refl eq_refl eq_refl eq_refl eq_refl).
Defined.

Lemma base_exception_propagates_witness :
  is_Exception (exn_class Scenario.cancelled) = false /\
  io_result (_send_to_agent Demo.plain_str (Demo.unreachable Scenario.cancelled)
               Demo.order_tool "status of ORD1?")
  = Raise Scenario.cancelled.
Proof.
  split; [reflexivity|].
  exact (base_exception_propagates Demo.plain_str
           (Demo.unreachable Scenario.cancelled) Demo.order_tool "status of ORD1?"
           Scenario.cancelled eq_refl (or_introl eq_refl)).
Defined.

Lemma missing_function_name_rejected_witness :
  Forall (fun e : Host.Endpoint => is_Some (e !! "function_name"))
    [Demo.order_endpoint] /\
  Scenario.unnamed_function_endpoint !! "function_name" = None /\
  Host.__init__ Demo.kernel_checks "Host Agent" "Coordinates agents"
    (Some ([Demo.order_endpoint] ++ Scenario.unnamed_function_endpoint
           :: [Demo.csv_endpoint])%list) None
  = Raise (mkExn ValueError
             ("Agent endpoint for "
              ++ Host.endpoint_get Scenario.unnamed_function_endpoint "name" "Unknown"
              ++ " must include 'function_name'")).
Proof.
  assert (Hpre : Forall (fun e : Host.Endpoint => is_Some (e !! "function_name"))
                   [Demo.order_endpoint]).
  { constructor; [|constructor]. vm_compute. eexists. reflexivity. }
  assert (Hep : Scenario.unnamed_function_endpoint !! "function_name" = None)
    by (vm_compute; reflexivity).
  split; [exact Hpre|]. split; [exact Hep|].
  exact (missing_function_name_rejected Demo.kernel_checks "Host Agent"
           "Coordinates agents"
           [Demo.order_endpoint] [Demo.csv_endpoint]
           Scenario.unnamed_function_endpoint None Hpre Hep).
Defined.

Lemma init_succeeds_iff_keys_witness :
  Forall Host.has_keys [Demo.order_endpoint; Demo.csv_endpoint] /\
  Forall stored [Demo.order_endpoint; Demo.csv_endpoint] /\
  (forall tools,
      Host.make_tools [Demo.order_endpoint; Demo.csv_endpoint] = Ok tools ->
      Demo.kernel_checks (str_replace is_id_char "_"%char "Host Agent") tools = None) /\
  (exists self,
      Host.__init__ Demo.kernel_checks "Host Agent" "Coordinates agents"
        (Some [Demo.order_endpoint; Demo.csv_endpoint]) None = Ok self) /\
  Host.__init__ Demo.kernel_checks "Host Agent" "Coordinates agents"
    (Some [Demo.order_endpoint]) None = Ok Scenario.described_host /\
  Forall stored [Demo.order_endpoint].
Proof.
  assert (Hkeys : Forall Host.has_keys [Demo.order_endpoint; Demo.csv_endpoint])
    by (constructor; [keys_present|constructor; [keys_present|constructor]]).
  assert (Hstored : Forall stored [Demo.order_endpoint; Demo.csv_endpoint])
    by (constructor; [vm_compute; reflexivity
                     |constructor; [vm_compute; reflexivity|constructor]]).
  assert (Hvalid : forall tools,
             Host.make_tools [Demo.order_endpoint; Demo.csv_endpoint] = Ok tools ->
             Demo.kernel_checks (str_replace is_id_char "_"%char "Host Agent") tools
             = None).
  { intros tools Htools. vm_compute in Htools. inversion Htools; subst.
    vm_compute. reflexivity. }
  assert (Hinit : Host.__init__ Demo.kernel_checks "Host Agent" "Coordinates agents"
                    (Some [Demo.order_endpoint]) None = Ok Scenario.described_host)
    by (vm_compute; reflexivity).
  split; [exact Hkeys|]. split; [exact Hstored|]. split; [exact Hvalid|].
  split; [|split; [exact Hinit|]].
  - exact (proj2 (init_succeeds_iff_keys Demo.kernel_checks "Host Agent"
                    "Coordinates agents" [Demo.order_endpoint; Demo.csv_endpoint]
                    None) (conj Hkeys (conj Hstored Hvalid))).
  - exact (proj1 (proj2 (proj1 (init_succeeds_iff_keys Demo.kernel_checks
                                  "Host Agent" "Coordinates agents"
                                  [Demo.order_endpoint] None)
                           (ex_intro _ Scenario.described_host Hinit)))).
Defined.

Lemma default_preamble_lists_endpoints_witness :
  Host.__init__ Demo.kernel_checks "Host Agent" "Coordinates agents"
    (Some [Demo.order_endpoint]) None
  = Ok Scenario.described_host /\
  In Demo.order_endpoint [Demo.order_endpoint] /\
  startswith ("You are " ++ "Host Agent" ++ ". " ++ "Coordinates agents")
    (Host.system_message Scenario.described_host) = true /\
  exists n f,
    Demo.order_endpoint !! "name" = Some n /\
    Demo.order_endpoint !! "function_name" = Some f /\
    str_contains
      ("- " ++ n ++ " (use function '" ++ f ++ "'): "
       ++ Host.endpoint_get Demo.order_endpoint "description"
            "No description provided")
      (Host.system_message Scenario.described_host) = true.
Proof.
  assert (H : Host.__init__ Demo.kernel_checks "Host Agent" "Coordinates agents"
                (Some [Demo.order_endpoint]) None = Ok Scenario.described_host)
    by (vm_compute; reflexivity).
  split; [exact H|]. split; [left; reflexivity|].
  split.
  - exact (proj1 (default_preamble_lists_endpoints Demo.kernel_checks "Host Agent"
                    "Coordinates agents" [Demo.order_endpoint]
                    Scenario.described_host H)).
  - exact (proj2 (default_preamble_lists_endpoints Demo.kernel_checks "Host Agent"
                    "Coordinates agents" [Demo.order_endpoint]
                    Scenario.described_host H)
             Demo.order_endpoint (or_introl eq_refl)).
Defined.

Lemma function_name_in_use_accepted_witness :
  Host.has_keys Demo.order_endpoint /\
  Host.has_keys Scenario.order_mirror_endpoint /\
  ordinary Demo.order_endpoint /\
  ordinary Scenario.order_mirror_endpoint /\
  Demo.order_endpoint !! "function_name"
  = Scenario.order_mirror_endpoint !! "function_name" /\
  class_of Demo.order_endpoint <> class_of Scenario.order_mirror_endpoint /\
  (forall tools,
      Host.make_tools [Demo.order_endpoint; Scenario.order_mirror_endpoint] = Ok tools ->
      Demo.kernel_checks (str_replace is_id_char "_"%char "Host Agent") tools = None) /\
  exists self t1 t2,
    Host.__init__ Demo.kernel_checks "Host Agent" "Coordinates agents"
      (Some [Demo.order_endpoint; Scenario.order_mirror_endpoint]) None = Ok self /\
    Host.agent_tools self = [t1; t2] /\
    Host.visible_tools self = [t1; t2] /\
    Demo.order_endpoint !! "function_name" = Some (exposed_name t1) /\
    exposed_name t1 = exposed_name t2 /\
    Demo.order_endpoint !! "url" = Some (agent_url t1) /\
    Scenario.order_mirror_endpoint !! "url" = Some (agent_url t2).
Proof.
  assert (H1 : Host.has_keys Demo.order_endpoint) by keys_present.
  assert (H2 : Host.has_keys Scenario.order_mirror_endpoint) by keys_present.
  assert (Ho1 : ordinary Demo.order_endpoint) by (vm_compute; reflexivity).
  assert (Ho2 : ordinary Scenario.order_mirror_endpoint) by (vm_compute; reflexivity).
  assert (Hsame : Demo.order_endpoint !! "function_name"
                  = Scenario.order_mirror_endpoint !! "function_name")
    by (vm_compute; reflexivity).
  assert (Hclasses : class_of Demo.order_endpoint
                     <> class_of Scenario.order_mirror_endpoint)
    by (vm_compute; discriminate).
  assert (Hvalid : forall tools,
             Host.make_tools [Demo.order_endpoint; Scenario.order_mirror_endpoint]
             = Ok tools ->
             Demo.kernel_checks (str_replace is_id_char "_"%char "Host Agent") tools
             = None).
  { intros tools Htools. vm_compute in Htools. inversion Htools; subst.
    vm_compute. reflexivity. }
  split_and!; [exact H1|exact H2|exact Ho1|exact Ho2|exact Hsame|exact Hclasses
              |exact Hvalid|].
  exact (function_name_in_use_accepted Demo.kernel_checks "Host Agent"
           "Coordinates agents" Demo.order_endpoint Scenario.order_mirror_endpoint
           None H1 H2 Ho1 Ho2 Hsame Hclasses Hvalid).
Defined.

Lemma completed_turn_recorded_witness :
  separated (Host.conversations Demo.order_host) /\
  Host.response_to Demo.echo_service "status of ORD1?" "ctx-1" Demo.order_host
  = Some (Ok "echo: status of ORD1?") /\
  last (turns (Host.conversations
                 (final_state (Host.orchestrate Demo.echo_service "status of ORD1?"
                                 "ctx-1" Demo.order_host))) "ctx-1")
  = Some (mkMessage "assistant" "echo: status of ORD1?") /\
  separated (Worker.conversations Demo.sql_worker) /\
  Worker.response_to Demo.handshake_ok Demo.echo_service "count the orders" "ctx-a"
    Demo.sql_worker = Some (Ok "echo: count the orders") /\
  last (turns (Worker.conversations
                 (final_state (Worker.process_request Demo.handshake_ok
                                 Demo.echo_service "count the orders" "ctx-a"
                                 Demo.sql_worker))) "ctx-a")
  = Some (mkMessage "assistant" "echo: count the orders").
Proof.
  assert (Hh : Host.response_to Demo.echo_service "status of ORD1?" "ctx-1"
                 Demo.order_host = Some (Ok "echo: status of ORD1?"))
    by (vm_compute; reflexivity).
  assert (Hw : Worker.response_to Demo.handshake_ok Demo.echo_service
                 "count the orders" "ctx-a" Demo.sql_worker
               = Some (Ok "echo: count the orders"))
    by (vm_compute; reflexivity).
  split; [exact separated_empty|]. split; [exact Hh|]. split.
  - exact (proj2 (proj2 (proj2 (proj1 completed_turn_recorded Demo.echo_service
                                  "status of ORD1?" "ctx-1" Demo.order_host
                                  "echo: status of ORD1?" separated_empty Hh)))).
  - split; [exact separated_empty|]. split; [exact Hw|].
    exact (proj2 (proj2 (proj2 (proj2 completed_turn_recorded Demo.handshake_ok
                                  Demo.echo_service "count the orders" "ctx-a"
                                  Demo.sql_worker "echo: count the orders"
                                  separated_empty Hw)))).
Defined.

Lemma histories_append_only_witness :
  separated (Host.conversations (host Demo.world_after_two_calls)) /\
  host_run Demo.first_call_goes_on Demo.world_after_two_calls = Some Demo.world_later /\
  continues (Host.conversations (host Demo.world_after_two_calls))
    (Host.conversations (host Demo.world_later)) /\
  separated (Worker.conversations (worker (mkWorkerWorld Demo.sql_worker ∅))) /\
  worker_run Scenario.one_request (mkWorkerWorld Demo.sql_worker ∅)
  = Some Scenario.worker_after_one_request /\
  continues (Worker.conversations (worker (mkWorkerWorld Demo.sql_worker ∅)))
    (Worker.conversations (worker Scenario.worker_after_one_request)).
Proof.
  assert (Hrun0 : host_run Demo.two_calls (mkHostWorld Demo.order_host ∅)
                  = Some Demo.world_after_two_calls) by (vm_compute; reflexivity).
  assert (Hsep : separated (Host.conversations (host Demo.world_after_two_calls))).
  { destruct (host_run_wf Demo.two_calls _ _ (host_fresh_wf Demo.order_host eq_refl)
                Hrun0) as [H _]. exact H. }
  assert (Hrun : host_run Demo.first_call_goes_on Demo.world_after_two_calls
                 = Some Demo.world_later) by (vm_compute; reflexivity).
  assert (Hw : worker_run Scenario.one_request (mkWorkerWorld Demo.sql_worker ∅)
               = Some Scenario.worker_after_one_request) by (vm_compute; reflexivity).
  split; [exact Hsep|]. split; [exact Hrun|]. split.
  - exact (proj1 histories_append_only Demo.world_after_two_calls Demo.world_later
             Demo.first_call_goes_on Hsep Hrun).
  - split; [exact separated_empty|]. split; [exact Hw|].
    exact (proj2 histories_append_only (mkWorkerWorld Demo.sql_worker ∅)
             Scenario.worker_after_one_request Scenario.one_request
             separated_empty Hw).
Defined.

Lemma histories_seeded_with_preamble_witness :
  Host.conversations Demo.order_host = no_conversations /\
  host_run Demo.two_calls (mkHostWorld Demo.order_host ∅)
  = Some Demo.world_after_two_calls /\
  seeded_with (Host.system_message Demo.order_host)
    (Host.conversations (host Demo.world_after_two_calls)) /\
  Worker.conversations Demo.sql_worker = no_conversations /\
  worker_run Scenario.one_request (mkWorkerWorld Demo.sql_worker ∅)
  = Some Scenario.worker_after_one_request /\
  seeded_with (Worker.system_message Demo.sql_worker)
    (Worker.conversations (worker Scenario.worker_after_one_request)).
Proof.
  assert (Hrun : host_run Demo.two_calls (mkHostWorld Demo.order_host ∅)
                 = Some Demo.world_after_two_calls) by (vm_compute; reflexivity).
  assert (Hw : worker_run Scenario.one_request (mkWorkerWorld Demo.sql_worker ∅)
               = Some Scenario.worker_after_one_request) by (vm_compute; reflexivity).
  split; [reflexivity|]. split; [exact Hrun|]. split.
  - exact (proj1 histories_seeded_with_preamble Demo.order_host Demo.two_calls
             Demo.world_after_two_calls eq_refl Hrun).
  - split; [reflexivity|]. split; [exact Hw|].
    exact (proj2 histories_seeded_with_preamble Demo.sql_worker Scenario.one_request
             Scenario.worker_after_one_request eq_refl Hw).
Defined.






Lemma cleanup_closes_every_plugin_witness :
  (forall p, raises_only_exceptions (Scenario.close_ok p)) /\
  Serving.cleanup Scenario.close_ok Demo.sql_worker_ready
  = (List.map Serving.SvPluginExit (Worker.mcp_plugins Demo.sql_worker_ready), Ok tt) /\
  Serving.cleanup Scenario.close_cancelled Demo.sql_worker_ready
  = ([Serving.SvPluginExit
        (Worker.mkPlugin "RemoteTools_SQL_Agent_0" "http://localhost:8000/sse")],
     Raise Scenario.cancelled) /\
  is_Exception (exn_class Scenario.cancelled) = false.
Proof.
  split; [exact close_ok_exceptions|]. split.
  - exact (proj1 (cleanup_closes_every_plugin Scenario.close_ok Demo.sql_worker_ready)
             close_ok_exceptions).
  - split; [reflexivity|].
    exact (proj1 (proj2 (cleanup_closes_every_plugin Scenario.close_cancelled
                           Demo.sql_worker_ready) _ _ eq_refl)).
Defined.

Lemma execute_answers_once_witness :
  (forall p, raises_only_exceptions (Demo.handshake_ok p)) /\
  (forall ps m th σ, raises_only_exceptions
                       (@Demo.echo_service Worker.MCPSsePlugin ps m th σ)) /\
  Serving.exec_result
    (Serving.execute Scenario.task_of Demo.handshake_ok Demo.echo_service
       Scenario.first_message Demo.sql_worker) = Ok tt /\
  Serving.exec_queue
    (Serving.execute Scenario.task_of Demo.handshake_ok Demo.echo_service
       Scenario.first_message Demo.sql_worker)
  = [Serving.QTask (Serving.mkTask "task-m1");
     Serving.QTextMessage "echo: count the orders"].
Proof.
  split; [exact handshake_ok_exceptions|]. split; [exact echo_service_exceptions|].
  pose proof (execute_answers_once Scenario.task_of Demo.handshake_ok
                Demo.echo_service Scenario.first_message Demo.sql_worker
                handshake_ok_exceptions echo_service_exceptions) as (Hr & _ & _ & Hq).
  split; [exact Hr|]. exact Hq.
Defined.


Lemma execute_lets_cancellation_through_witness :
  result_of (Worker.process_request Demo.handshake_ok Scenario.cancelled_service
               (Serving.user_input Scenario.first_message)
               (Serving.context_id Scenario.first_message) Demo.sql_worker)
  = Raise Scenario.cancelled /\
  is_Exception (exn_class Scenario.cancelled) = false /\
  Serving.exec_result
    (Serving.execute Scenario.task_of Demo.handshake_ok Scenario.cancelled_service
       Scenario.first_message Demo.sql_worker) = Raise Scenario.cancelled /\
  Forall (fun ev => forall text, ev <> Serving.QTextMessage text)
    (Serving.exec_queue
       (Serving.execute Scenario.task_of Demo.handshake_ok Scenario.cancelled_service
          Scenario.first_message Demo.sql_worker)).
Proof.
  assert (H : result_of (Worker.process_request Demo.handshake_ok
                           Scenario.cancelled_service
                           (Serving.user_input Scenario.first_message)
                           (Serving.context_id Scenario.first_message)
                           Demo.sql_worker) = Raise Scenario.cancelled)
    by (vm_compute; reflexivity).
  split; [exact H|]. split; [reflexivity|].
  exact (execute_lets_cancellation_through Scenario.task_of Demo.handshake_ok
           Scenario.cancelled_service Scenario.first_message Demo.sql_worker
           Scenario.cancelled H eq_refl).
Defined.

